(** * RFB (VNC) handshake of the horcrux test scripts

    A shallow embedding of the two scripts that speak the RFB protocol:
    - [test_vnc_server.py]   ([MockVNCServer.handle_client], the server role),
    - [test_vnc_protocol.py] ([test_vnc_handshake], the client role).

    Both scripts are sequential programs over one blocking socket.  They are
    embedded as trees of socket actions ([proc]): every node is one call the
    script makes ([sendall], [recv], [settimeout], [close], [print]) and the
    children of a [recv] node are indexed by what the socket hands back.
    Python exceptions are values ([result]); [try]/[except]/[finally] are
    combinators on such trees.  Two operational semantics run the trees: one
    runs a single endpoint against what the network delivers ([Stream]), one
    runs the client and the server against each other over a pair of byte
    queues ([Wire]).  The listening side of the server ([start], [stop],
    [main]) is embedded apart, in [Lifecycle]. *)

From Stdlib Require Import List NArith ZArith QArith Bool Arith Lia.
From Stdlib Require Import Strings.Byte.
Import ListNotations.
Local Close Scope Q_scope.
Local Open Scope nat_scope.

Set Implicit Arguments.

(** ** Bytes, strings and [struct] *)

(** A Python [bytes] object. *)
Definition bytes := list byte.

(** A Python [str]: a sequence of Unicode code points. *)
Definition str := list N.

(** The exceptions the scripts can meet.  [OtherError] stands for every
    other subclass of [Exception] ([OSError] on a reset or closed socket,
    [MemoryError], ...). *)
Inductive exn : Type :=
| StructError
| UnicodeDecodeError
| SocketTimeout
| ConnectionRefusedError
| OtherError.

(** The outcome of a Python expression or block: a value or a raised
    exception. *)
Inductive result (A : Type) : Type :=
| Ok (a : A)
| Raised (e : exn).
Arguments Raised {A} e.

Definition exn_eqb (a b : exn) : bool :=
  match a, b with
  | StructError, StructError
  | UnicodeDecodeError, UnicodeDecodeError
  | SocketTimeout, SocketTimeout
  | ConnectionRefusedError, ConnectionRefusedError
  | OtherError, OtherError => true
  | _, _ => false
  end.

Module Struct.

Definition u8 (b : byte) : N := Byte.to_N b.

(** The byte of a number below 256. *)
Definition byte_of (v : N) : byte :=
  match Byte.of_N v with Some b => b | None => x00 end.

Inductive byteorder : Type := LittleEndian | BigEndian.

(** [struct.pack('B', v)] *)
Definition pack_B (v : N) : result bytes :=
  if (v <? 256)%N then Ok [byte_of v] else Raised StructError.

(** [struct.pack('!H', v)]: 16 bits, network order. *)
Definition pack_H_be (v : N) : result bytes :=
  if (v <? 65536)%N then Ok [byte_of (v / 256); byte_of (v mod 256)]
  else Raised StructError.

(** [struct.pack('H', v)]: 16 bits in the byte order of the host. *)
Definition pack_H_native (bo : byteorder) (v : N) : result bytes :=
  if (v <? 65536)%N then
    match bo with
    | BigEndian => Ok [byte_of (v / 256); byte_of (v mod 256)]
    | LittleEndian => Ok [byte_of (v mod 256); byte_of (v / 256)]
    end
  else Raised StructError.

(** [struct.pack('!I', v)]: 32 bits, network order. *)
Definition pack_I_be (v : N) : result bytes :=
  if (v <? 4294967296)%N then
    Ok [byte_of (v / 16777216); byte_of ((v / 65536) mod 256);
        byte_of ((v / 256) mod 256); byte_of (v mod 256)]
  else Raised StructError.

(** [struct.unpack('B', b)[0]]: exactly one byte. *)
Definition unpack_B (b : bytes) : result N :=
  match b with
  | [x] => Ok (u8 x)
  | _ => Raised StructError
  end.

(** [struct.unpack('!I', b)[0]]: exactly four bytes. *)
Definition unpack_I_be (b : bytes) : result N :=
  match b with
  | [a; b; c; d] =>
      Ok (u8 a * 16777216 + u8 b * 65536 + u8 c * 256 + u8 d)%N
  | _ => Raised StructError
  end.

(** [struct.unpack('!HH', b)] *)
Definition unpack_HH_be (b : bytes) : result (N * N) :=
  match b with
  | [a; b; c; d] => Ok (u8 a * 256 + u8 b, u8 c * 256 + u8 d)%N
  | _ => Raised StructError
  end.

(** [struct.unpack('BBBB', b)] *)
Definition unpack_BBBB (b : bytes) : result (N * N * N * N) :=
  match b with
  | [a; b; c; d] => Ok (u8 a, u8 b, u8 c, u8 d)
  | _ => Raised StructError
  end.

(** [struct.unpack('!HHH', b)] *)
Definition unpack_HHH_be (b : bytes) : result (N * N * N) :=
  match b with
  | [a; b; c; d; e; f] =>
      Ok (u8 a * 256 + u8 b, u8 c * 256 + u8 d, u8 e * 256 + u8 f)%N
  | _ => Raised StructError
  end.

(** [struct.unpack('BBB', b)] *)
Definition unpack_BBB (b : bytes) : result (N * N * N) :=
  match b with
  | [a; b; c] => Ok (u8 a, u8 b, u8 c)
  | _ => Raised StructError
  end.

(** The slice [b[i:j]] for [0 <= i <= j]. *)
Definition slice (b : bytes) (i j : nat) : bytes :=
  skipn i (firstn j b).

End Struct.

Module Str.

(** [bytes.decode('ascii')]: strict, every byte must be below 128. *)
Fixpoint decode_ascii (b : bytes) : result str :=
  match b with
  | [] => Ok []
  | x :: rest =>
      if (Struct.u8 x <? 128)%N then
        match decode_ascii rest with
        | Ok s => Ok (Struct.u8 x :: s)
        | Raised e => Raised e
        end
      else Raised UnicodeDecodeError
  end.

Definition in_range (lo hi : N) (x : byte) : bool :=
  ((lo <=? Struct.u8 x) && (Struct.u8 x <=? hi))%N.

Definition cont (x : byte) : bool := in_range 128 191 x.

Definition low6 (x : byte) : N := (Struct.u8 x mod 64)%N.

Definition cons_ok (c : N) (r : result str) : result str :=
  match r with
  | Ok s => Ok (c :: s)
  | Raised e => Raised e
  end.

(** [bytes.decode()] and [bytes.decode('utf-8')]: the strict UTF-8 decoder
    (shortest form only, no surrogates, nothing above U+10FFFF). *)
Fixpoint decode_utf8 (b : bytes) : result str :=
  match b with
  | [] => Ok []
  | x :: rest =>
      if (Struct.u8 x <? 128)%N then cons_ok (Struct.u8 x) (decode_utf8 rest)
      else if in_range 194 223 x then
        match rest with
        | y :: rest1 =>
            if cont y
            then cons_ok ((Struct.u8 x mod 32) * 64 + low6 y)%N
                         (decode_utf8 rest1)
            else Raised UnicodeDecodeError
        | _ => Raised UnicodeDecodeError
        end
      else if in_range 224 239 x then
        match rest with
        | y :: z :: rest2 =>
            if (if (Struct.u8 x =? 224)%N then in_range 160 191 y
                else if (Struct.u8 x =? 237)%N then in_range 128 159 y
                else cont y) && cont z
            then cons_ok ((Struct.u8 x mod 16) * 4096 + low6 y * 64
                          + low6 z)%N (decode_utf8 rest2)
            else Raised UnicodeDecodeError
        | _ => Raised UnicodeDecodeError
        end
      else if in_range 240 244 x then
        match rest with
        | y :: z :: w :: rest3 =>
            if (if (Struct.u8 x =? 240)%N then in_range 144 191 y
                else if (Struct.u8 x =? 244)%N then in_range 128 143 y
                else cont y) && cont z && cont w
            then cons_ok ((Struct.u8 x mod 8) * 262144 + low6 y * 4096
                          + low6 z * 64 + low6 w)%N (decode_utf8 rest3)
            else Raised UnicodeDecodeError
        | _ => Raised UnicodeDecodeError
        end
      else Raised UnicodeDecodeError
  end.

(** [str.isspace] for one code point (the whitespace set of CPython). *)
Definition isspace (c : N) : bool :=
  ((9 <=? c) && (c <=? 13) || (28 <=? c) && (c <=? 32)
   || (c =? 133) || (c =? 160) || (c =? 5760)
   || (8192 <=? c) && (c <=? 8202)
   || (c =? 8232) || (c =? 8233) || (c =? 8239) || (c =? 8287)
   || (c =? 12288))%N.

Fixpoint lstrip (s : str) : str :=
  match s with
  | [] => []
  | c :: rest => if isspace c then lstrip rest else s
  end.

Definition rstrip (s : str) : str := rev (lstrip (rev s)).

(** [s.strip()] *)
Definition strip (s : str) : str := rstrip (lstrip s).

(** [s.startswith(p)] *)
Fixpoint startswith (s p : str) : bool :=
  match p, s with
  | [], _ => true
  | _ :: _, [] => false
  | a :: p', c :: s' => (a =? c)%N && startswith s' p'
  end.

(** The code points of an ASCII literal given by its bytes. *)
Definition lit (b : bytes) : str := map Struct.u8 b.

End Str.

(** ** Socket programs *)

(** What [sock.recv(n)] hands back: at most [n] bytes (none when the peer
    has closed), or an exception ([socket.timeout] when the socket's timeout
    expires first). *)
Inductive recv_result : Type :=
| Received (data : bytes)
| RecvRaised (e : exn).

(** How one iteration of a [while True] loop ends. *)
Inductive ctl : Type := Continue | Break.

(** A program over one socket; [L] is the type of the lines it prints.
    [While body k] is [while True: body], followed by [k] once the body
    breaks or raises. *)
Inductive proc (L A : Type) : Type :=
| Ret (a : A)
| Connect (k : option exn -> proc L A)
| Settimeout (t : option Q) (k : proc L A)
| Sendall (data : bytes) (k : option exn -> proc L A)
| Recv (bufsize : N) (k : recv_result -> proc L A)
| Print (l : L) (k : proc L A)
| Close (k : proc L A)
| While (body : proc L (result ctl)) (k : result unit -> proc L A).

Arguments Ret {L A} a.
Arguments Connect {L A} k.
Arguments Settimeout {L A} t k.
Arguments Sendall {L A} data k.
Arguments Recv {L A} bufsize k.
Arguments Print {L A} l k.
Arguments Close {L A} k.
Arguments While {L A} body k.

Fixpoint pbind {L A B} (m : proc L A) (f : A -> proc L B) : proc L B :=
  match m with
  | Ret a => f a
  | Connect k => Connect (fun r => pbind (k r) f)
  | Settimeout t k => Settimeout t (pbind k f)
  | Sendall d k => Sendall d (fun r => pbind (k r) f)
  | Recv n k => Recv n (fun r => pbind (k r) f)
  | Print l k => Print l (pbind k f)
  | Close k => Close (pbind k f)
  | While body k => While body (fun r => pbind (k r) f)
  end.

(** A Python block: a socket program that ends in a value or an exception. *)
Definition M (L A : Type) : Type := proc L (result A).

Definition ret {L A} (a : A) : M L A := Ret (Ok a).

Definition raise {L A} (e : exn) : M L A := Ret (Raised e).

Definition lift {L A} (r : result A) : M L A := Ret r.

Definition bind {L A B} (m : M L A) (f : A -> M L B) : M L B :=
  pbind m (fun r => match r with Ok a => f a | Raised e => Ret (Raised e) end).

(** [try: m  except <e>: h e] *)
Definition try_catch {L A} (m : M L A) (h : exn -> M L A) : M L A :=
  pbind m (fun r => match r with Ok a => Ret (Ok a) | Raised e => h e end).

(** [try: m  finally: fin] *)
Definition finally {L A} (m : M L A) (fin : M L unit) : M L A :=
  pbind m (fun r =>
    pbind fin (fun r' =>
      match r' with Ok _ => Ret r | Raised e => Ret (Raised e) end)).

Definition connect {L} : M L unit :=
  Connect (fun r => match r with None => Ret (Ok tt) | Some e => Ret (Raised e) end).

Definition settimeout {L} (t : option Q) : M L unit :=
  Settimeout t (Ret (Ok tt)).

Definition sendall {L} (d : bytes) : M L unit :=
  Sendall d (fun r => match r with None => Ret (Ok tt) | Some e => Ret (Raised e) end).

Definition recv {L} (n : N) : M L bytes :=
  Recv n (fun r => match r with Received d => Ret (Ok d) | RecvRaised e => Ret (Raised e) end).

Definition print {L} (l : L) : M L unit := Print l (Ret (Ok tt)).

Definition close {L} : M L unit := Close (Ret (Ok tt)).

Definition while_true {L} (body : M L ctl) : M L unit :=
  While body (fun r => Ret r).

Declare Scope py_scope.
Delimit Scope py_scope with py.
Notation "x <- m ;; k" := (bind m (fun x => k))
  (at level 61, m at next level, right associativity) : py_scope.
Notation "' p <- m ;; k" := (bind m (fun x => match x with p => k end))
  (at level 61, p pattern, m at next level, right associativity) : py_scope.
Notation "m ;; k" := (bind m (fun _ => k))
  (at level 61, right associativity) : py_scope.
Local Open Scope py_scope.

(** ** The client role: [test_vnc_protocol.py] *)

Module Client.

(** The lines [test_vnc_handshake] prints, one constructor per [print]
    call, with the values the line shows. *)
Inductive line : Type :=
| Connecting
| Connected
| InvalidServerVersionLength (n : nat)
| ServerVersion (version_str : str)
| InvalidRFBVersion (version_str : str)
| SentClientVersion (version_str : str)
| ReceivedSecurityTypes (num_types : N)
| ConnectionFailed (reason : str)
| AvailableSecurityTypes (security_types : list N)
| SecurityNoneNotAvailable
| SelectedSecurityNone
| SecurityHandshakeFailed (security_result : N)
| Reason (reason : str)
| SecurityResultOK
| SentClientInit (shared_flag : N)
| InvalidServerInitLength (n : nat)
| FramebufferSize (width height : N)
| PixelFormat (bits_per_pixel depth true_color : N)
| RGB (red_max green_max blue_max red_shift green_shift blue_shift : N)
| DesktopName (desktop_name : str)
| HandshakeCompleted
| ConnectionDetails (version_str : str) (width height : N) (desktop_name : str)
| TestingFramebufferUpdateRequest
| SentFramebufferUpdateRequest
| ReceivedFramebufferUpdate
| ReceivedMessageType (msg_type : N)
| NoResponse
| ConnectionClosedCleanly
| ConnectionRefused
| ConnectionTimeout
| Error (e : exn).

(** ['RFB 003.'] *)
Definition RFB_003 : str := Eval cbv in
  Str.lit ["R"; "F"; "B"; " "; "0"; "0"; "3"; "."]%byte.

(** [for _ in range(num_types): security_types.append(unpack('B', recv(1)))] *)
Fixpoint recv_security_types (n : nat) (security_types : list N)
  : M line (list N) :=
  match n with
  | O => ret security_types
  | S n' =>
      b <- recv 1 ;;
      sec_type <- lift (Struct.unpack_B b) ;;
      recv_security_types n' (security_types ++ [sec_type])
  end.

(** [struct.pack('!BBHHHH', t, incremental, x, y, w, h)] *)
Definition pack_BBHHHH (t incremental x y w h : N) : result bytes :=
  match Struct.pack_B t, Struct.pack_B incremental,
        Struct.pack_H_be x, Struct.pack_H_be y,
        Struct.pack_H_be w, Struct.pack_H_be h with
  | Ok a, Ok b, Ok c, Ok d, Ok e, Ok f => Ok (a ++ b ++ c ++ d ++ e ++ f)
  | _, _, _, _, _, _ => Raised StructError
  end.

(** [test_vnc_handshake(host, port)] *)
Definition test_vnc_handshake : M line bool :=
  print Connecting ;;
  try_catch
    (settimeout (Some 5%Q) ;;
     connect ;;
     print Connected ;;
     (* Step 1: receive the RFB version of the server *)
     server_version <- recv 12 ;;
     if negb (length server_version =? 12) then
       print (InvalidServerVersionLength (length server_version)) ;;
       ret false
     else
     decoded <- lift (Str.decode_ascii server_version) ;;
     let version_str := Str.strip decoded in
     print (ServerVersion version_str) ;;
     if negb (Str.startswith version_str RFB_003) then
       print (InvalidRFBVersion version_str) ;;
       ret false
     else
     (* Step 2: send the client version (same as the server's) *)
     sendall server_version ;;
     print (SentClientVersion version_str) ;;
     (* Step 3: receive the security types *)
     b <- recv 1 ;;
     num_types <- lift (Struct.unpack_B b) ;;
     print (ReceivedSecurityTypes num_types) ;;
     if (num_types =? 0)%N then
       b <- recv 4 ;;
       reason_length <- lift (Struct.unpack_I_be b) ;;
       b <- recv reason_length ;;
       reason <- lift (Str.decode_utf8 b) ;;
       print (ConnectionFailed reason) ;;
       ret false
     else
     security_types <- recv_security_types (N.to_nat num_types) [] ;;
     print (AvailableSecurityTypes security_types) ;;
     (* Step 4: select security type None (1) *)
     if negb (existsb (N.eqb 1) security_types) then
       print SecurityNoneNotAvailable ;;
       ret false
     else
     b <- lift (Struct.pack_B 1) ;;
     sendall b ;;
     print SelectedSecurityNone ;;
     (* Step 5: receive the security result *)
     b <- recv 4 ;;
     security_result <- lift (Struct.unpack_I_be b) ;;
     if negb (security_result =? 0)%N then
       print (SecurityHandshakeFailed security_result) ;;
       try_catch
         (b <- recv 4 ;;
          reason_length <- lift (Struct.unpack_I_be b) ;;
          b <- recv reason_length ;;
          reason <- lift (Str.decode_utf8 b) ;;
          print (Reason reason))
         (fun _ => ret tt) ;;
       ret false
     else
     print SecurityResultOK ;;
     (* Step 6: send ClientInit *)
     let shared_flag := 1%N in
     b <- lift (Struct.pack_B shared_flag) ;;
     sendall b ;;
     print (SentClientInit shared_flag) ;;
     (* Step 7: receive ServerInit *)
     server_init <- recv 24 ;;
     if negb (length server_init =? 24) then
       print (InvalidServerInitLength (length server_init)) ;;
       ret false
     else
     ' (width, height) <- lift (Struct.unpack_HH_be (Struct.slice server_init 0 4)) ;;
     print (FramebufferSize width height) ;;
     let pixel_format := Struct.slice server_init 4 24 in
     ' (bits_per_pixel, depth, big_endian, true_color) <-
         lift (Struct.unpack_BBBB (Struct.slice pixel_format 0 4)) ;;
     ' (red_max, green_max, blue_max) <-
         lift (Struct.unpack_HHH_be (Struct.slice pixel_format 4 10)) ;;
     ' (red_shift, green_shift, blue_shift) <-
         lift (Struct.unpack_BBB (Struct.slice pixel_format 10 13)) ;;
     print (PixelFormat bits_per_pixel depth true_color) ;;
     print (RGB red_max green_max blue_max red_shift green_shift blue_shift) ;;
     b <- recv 4 ;;
     name_length <- lift (Struct.unpack_I_be b) ;;
     b <- recv name_length ;;
     desktop_name <- lift (Str.decode_utf8 b) ;;
     print (DesktopName desktop_name) ;;
     print HandshakeCompleted ;;
     print (ConnectionDetails version_str width height desktop_name) ;;
     (* Step 8: send one FramebufferUpdateRequest *)
     print TestingFramebufferUpdateRequest ;;
     msg <- lift (pack_BBHHHH 3 0 0 0 width height) ;;
     sendall msg ;;
     print SentFramebufferUpdateRequest ;;
     settimeout (Some 2%Q) ;;
     try_catch
       (response <- recv 4 ;;
        match response with
        | [] => ret tt
        | b0 :: _ =>
            let msg_type := Struct.u8 b0 in
            if (msg_type =? 0)%N then print ReceivedFramebufferUpdate
            else print (ReceivedMessageType msg_type)
        end)
       (fun e =>
          match e with
          | SocketTimeout => print NoResponse
          | _ => raise e
          end) ;;
     close ;;
     print ConnectionClosedCleanly ;;
     ret true)
    (fun e =>
       match e with
       | ConnectionRefusedError => print ConnectionRefused ;; ret false
       | SocketTimeout => print ConnectionTimeout ;; ret false
       | _ => print (Error e) ;; ret false
       end).

End Client.

(** ** The server role: [test_vnc_server.py] *)

Module Server.

(** The lines [MockVNCServer.handle_client] prints (without their time
    stamps). *)
Inductive line : Type :=
| SentRFBVersion
| ReceivedClientVersion (version_str : str)
| InvalidClientVersionLength (n : nat)
| SentSecurityTypes
| ClientSelectedSecurityType (selected : N)
| InvalidSecuritySelection
| SentSecurityResultOK
| ReceivedClientInit (shared_flag : N)
| InvalidClientInit
| SentServerInit (width height : N) (desktop_name : str)
| HandshakeComplete
| WaitingForClientMessages
| ClientDisconnected
| ReceivedMessageType (msg_type : N) (len : nat)
| SetPixelFormatMessage
| SetEncodingsMessage
| FramebufferUpdateRequestMessage
| SentEmptyFramebufferUpdate
| KeyEventMessage
| PointerEventMessage
| ClientCutTextMessage
| ErrorReceivingData (e : exn)
| ErrorHandlingClient (e : exn)
| ConnectionClosed.

(** [RFB_VERSION = b"RFB 003.008\n"] *)
Definition RFB_VERSION : bytes :=
  ["R"; "F"; "B"; " "; "0"; "0"; "3"; "."; "0"; "0"; "8"; x0a]%byte.

Definition SECURITY_NONE : N := 1.

(** [struct.pack('BB', a, b)] *)
Definition pack_BB (a b : N) : result bytes :=
  match Struct.pack_B a, Struct.pack_B b with
  | Ok x, Ok y => Ok (x ++ y)
  | _, _ => Raised StructError
  end.

(** [struct.pack('!HH', a, b)] *)
Definition pack_HH_be (a b : N) : result bytes :=
  match Struct.pack_H_be a, Struct.pack_H_be b with
  | Ok x, Ok y => Ok (x ++ y)
  | _, _ => Raised StructError
  end.

(** [struct.pack('BBBB HHH BBB xxx', ...)]: no byte-order prefix, so the
    three 16-bit fields are laid out in the byte order of the host; they
    start at offset 4, which is aligned, so no padding is inserted. *)
Definition pack_pixel_format (bo : Struct.byteorder)
    (bits_per_pixel depth big_endian true_color
     red_max green_max blue_max red_shift green_shift blue_shift : N)
  : result bytes :=
  match Struct.pack_B bits_per_pixel, Struct.pack_B depth,
        Struct.pack_B big_endian, Struct.pack_B true_color,
        Struct.pack_H_native bo red_max, Struct.pack_H_native bo green_max,
        Struct.pack_H_native bo blue_max,
        Struct.pack_B red_shift, Struct.pack_B green_shift,
        Struct.pack_B blue_shift with
  | Ok a, Ok b, Ok c, Ok d, Ok e, Ok f, Ok g, Ok h, Ok i, Ok j =>
      Ok (a ++ b ++ c ++ d ++ e ++ f ++ g ++ h ++ i ++ j ++ [x00; x00; x00])
  | _, _, _, _, _, _, _, _, _, _ => Raised StructError
  end.

(** [struct.pack('!BxH', t, n)] *)
Definition pack_BxH_be (t n : N) : result bytes :=
  match Struct.pack_B t, Struct.pack_H_be n with
  | Ok a, Ok b => Ok (a ++ [x00] ++ b)
  | _, _ => Raised StructError
  end.

(** [b"Horcrux Test VM"] *)
Definition desktop_name : bytes :=
  ["H"; "o"; "r"; "c"; "r"; "u"; "x"; " "; "T"; "e"; "s"; "t"; " "; "V"; "M"]%byte.

(** One iteration of the [while True] loop of step 8. *)
Definition session_iteration : M line ctl :=
  settimeout (Some 1%Q) ;;
  try_catch
    (data <- recv 1024 ;;
     match data with
     | [] =>
         print ClientDisconnected ;;
         ret Break
     | b0 :: _ =>
         let msg_type := Struct.u8 b0 in
         print (ReceivedMessageType msg_type (length data)) ;;
         (if (msg_type =? 0)%N then print SetPixelFormatMessage
          else if (msg_type =? 2)%N then print SetEncodingsMessage
          else if (msg_type =? 3)%N then
            print FramebufferUpdateRequestMessage ;;
            fb_update <- lift (pack_BxH_be 0 0) ;;
            sendall fb_update ;;
            print SentEmptyFramebufferUpdate
          else if (msg_type =? 4)%N then print KeyEventMessage
          else if (msg_type =? 5)%N then print PointerEventMessage
          else if (msg_type =? 6)%N then print ClientCutTextMessage
          else ret tt) ;;
         ret Continue
     end)
    (fun e =>
       match e with
       | SocketTimeout => ret Continue
       | _ => print (ErrorReceivingData e) ;; ret Break
       end).

(** [MockVNCServer.handle_client(client_socket, client_address)] on a host
    of byte order [bo]. *)
Definition handle_client (bo : Struct.byteorder) : M line unit :=
  finally
    (try_catch
       ((* Step 1: send the RFB version *)
        sendall RFB_VERSION ;;
        print SentRFBVersion ;;
        (* Step 2: receive the client version *)
        client_version <- recv 12 ;;
        if length client_version =? 12 then
          decoded <- lift (Str.decode_utf8 client_version) ;;
          print (ReceivedClientVersion (Str.strip decoded)) ;;
          (* Step 3: send the security types (one type: None) *)
          security_types <- lift (pack_BB 1 SECURITY_NONE) ;;
          sendall security_types ;;
          print SentSecurityTypes ;;
          (* Step 4: receive the client's security selection *)
          security_selection <- recv 1 ;;
          if length security_selection =? 1 then
            selected <- lift (Struct.unpack_B security_selection) ;;
            print (ClientSelectedSecurityType selected) ;;
            (* Step 5: send the security result (0 = OK) *)
            security_result <- lift (Struct.pack_I_be 0) ;;
            sendall security_result ;;
            print SentSecurityResultOK ;;
            (* Step 6: receive ClientInit *)
            client_init <- recv 1 ;;
            if length client_init =? 1 then
              shared_flag <- lift (Struct.unpack_B client_init) ;;
              print (ReceivedClientInit shared_flag) ;;
              (* Step 7: send ServerInit *)
              let width := 1024%N in
              let height := 768%N in
              pixel_format <-
                lift (pack_pixel_format bo 32 24 0 1 255 255 255 16 8 0) ;;
              wh <- lift (pack_HH_be width height) ;;
              name_length <- lift (Struct.pack_I_be (N.of_nat (length desktop_name))) ;;
              let server_init := wh ++ pixel_format ++ name_length ++ desktop_name in
              sendall server_init ;;
              name <- lift (Str.decode_utf8 desktop_name) ;;
              print (SentServerInit width height name) ;;
              print HandshakeComplete ;;
              (* Step 8: keep the connection alive and log any messages *)
              print WaitingForClientMessages ;;
              while_true session_iteration
            else
              print InvalidClientInit ;;
              ret tt
          else
            print InvalidSecuritySelection ;;
            ret tt
        else
          print (InvalidClientVersionLength (length client_version)) ;;
          ret tt)
       (fun e => print (ErrorHandlingClient e)))
    (close ;;
     print ConnectionClosed).

End Server.

(** ** Running a socket program *)

(** What an observer of one endpoint sees, in order. *)
Inductive event (L : Type) : Type :=
| EConnect
| ESettimeout (t : option Q)
| ESend (data : bytes)
| ERecv (bufsize : N) (timeout : option Q) (r : recv_result)
| EPrint (l : L)
| EClose.
Arguments EConnect {L}.
Arguments ESettimeout {L} t.
Arguments ESend {L} data.
Arguments ERecv {L} bufsize timeout r.
Arguments EPrint {L} l.
Arguments EClose {L}.

(** One turn of [while True: body]. *)
Definition unfold_while {L A} (body : proc L (result ctl))
    (k : result unit -> proc L A) : proc L A :=
  pbind body (fun r =>
    match r with
    | Ok Continue => While body k
    | Ok Break => k (Ok tt)
    | Raised e => k (Raised e)
    end).

(** [recv(n)] on [d] pending bytes: what is returned and what stays. *)
Definition take (n : N) (d : bytes) : bytes * bytes :=
  let m := N.to_nat (N.min n (N.of_nat (length d))) in
  (firstn m d, skipn m d).

(** All bytes passed to [sendall], in order. *)
Fixpoint sent_bytes {L} (tr : list (event L)) : bytes :=
  match tr with
  | [] => []
  | ESend d :: tr' => d ++ sent_bytes tr'
  | _ :: tr' => sent_bytes tr'
  end.

(** All lines printed, in order. *)
Fixpoint printed {L} (tr : list (event L)) : list L :=
  match tr with
  | [] => []
  | EPrint l :: tr' => l :: printed tr'
  | _ :: tr' => printed tr'
  end.

(** All bytes returned by [recv], in order. *)
Fixpoint received_bytes {L} (tr : list (event L)) : bytes :=
  match tr with
  | [] => []
  | ERecv _ _ (Received d) :: tr' => d ++ received_bytes tr'
  | _ :: tr' => received_bytes tr'
  end.

(** The [recv] calls made: buffer size and the timeout in force. *)
Fixpoint recv_calls {L} (tr : list (event L)) : list (N * option Q) :=
  match tr with
  | [] => []
  | ERecv n t _ :: tr' => (n, t) :: recv_calls tr'
  | _ :: tr' => recv_calls tr'
  end.

(** *** One endpoint and what the network delivers to it *)

Module Stream.

(** What the network has in store for the successive [recv] calls: a burst
    of bytes that is there when [recv] is called (a burst longer than the
    buffer is handed out in pieces), a silence that outlasts every timeout,
    or a failure of the connection.  When the list is used up the peer has
    closed: [recv] returns [b'']. *)
Inductive arrival : Type :=
| Data (d : bytes)
| Silence
| Fails (e : exn).

Record state (L A : Type) : Type := mk_state {
  prog : proc L A;
  incoming : list arrival;
  timeout : option Q;
  closed : bool;
  trace : list (event L)
}.
Arguments mk_state {L A}.
Arguments prog {L A}.
Arguments incoming {L A}.
Arguments timeout {L A}.
Arguments closed {L A}.
Arguments trace {L A}.

(** A fresh blocking socket (no timeout) running [p]. *)
Definition start {L A} (p : proc L A) (inc : list arrival) : state L A :=
  mk_state p inc None false [].

Definition deliver {L A} (s : state L A) (n : N)
    (k : recv_result -> proc L A) (r : recv_result) (inc : list arrival)
  : state L A :=
  mk_state (k r) inc (timeout s) (closed s)
           (trace s ++ [ERecv n (timeout s) r]).

(** One action of the program; [None] when it has returned or when it
    blocks for ever in a [recv] without timeout.  [connect] succeeds and
    [sendall] succeeds on an open socket; on a socket that was closed,
    [sendall] and [recv] raise.  [recv(0)] returns [b''] at once. *)
Definition step {L A} (s : state L A) : option (state L A) :=
  match prog s with
  | Ret _ => None
  | Connect k =>
      Some (mk_state (k None) (incoming s) (timeout s) (closed s)
                     (trace s ++ [EConnect]))
  | Settimeout t k =>
      Some (mk_state k (incoming s) t (closed s)
                     (trace s ++ [ESettimeout t]))
  | Sendall d k =>
      if closed s then
        Some (mk_state (k (Some OtherError)) (incoming s) (timeout s)
                       (closed s) (trace s))
      else
        Some (mk_state (k None) (incoming s) (timeout s) (closed s)
                       (trace s ++ [ESend d]))
  | Recv n k =>
      if closed s then Some (deliver s n k (RecvRaised OtherError) (incoming s))
      else if (n =? 0)%N then Some (deliver s n k (Received []) (incoming s))
      else
        match incoming s with
        | [] => Some (deliver s n k (Received []) [])
        | Data d :: rest =>
            let (got, left) := take n d in
            Some (deliver s n k (Received got)
                    (match left with [] => rest | _ => Data left :: rest end))
        | Silence :: rest =>
            match timeout s with
            | Some _ => Some (deliver s n k (RecvRaised SocketTimeout) rest)
            | None => None
            end
        | Fails e :: rest => Some (deliver s n k (RecvRaised e) rest)
        end
  | Print l k =>
      Some (mk_state k (incoming s) (timeout s) (closed s)
                     (trace s ++ [EPrint l]))
  | Close k =>
      Some (mk_state k (incoming s) (timeout s) true (trace s ++ [EClose]))
  | While body k =>
      Some (mk_state (unfold_while body k) (incoming s) (timeout s)
                     (closed s) (trace s))
  end.

Fixpoint run {L A} (n : nat) (s : state L A) : state L A :=
  match n with
  | O => s
  | S n' => match step s with Some s' => run n' s' | None => s end
  end.

(** The value the program has returned, if it has. *)
Definition returned {L A} (s : state L A) : option A :=
  match prog s with Ret a => Some a | _ => None end.

(** The program is stuck in a [recv] that can never return. *)
Definition hung {L A} (s : state L A) : bool :=
  match prog s, step s with
  | Recv _ _, None => true
  | _, _ => false
  end.

End Stream.

(** *** The client and the server against each other *)

Module Wire.

(** One end of a TCP connection: the bytes that have arrived and were not
    read yet, and the time of the endpoint's last action ([since]): a
    blocking [recv] has been waiting from then on. *)
Record endpoint (L A : Type) : Type := mk_endpoint {
  prog : proc L A;
  inbox : bytes;
  timeout : option Q;
  closed : bool;
  since : Q;
  trace : list (event L)
}.
Arguments mk_endpoint {L A}.
Arguments prog {L A}.
Arguments inbox {L A}.
Arguments timeout {L A}.
Arguments closed {L A}.
Arguments since {L A}.
Arguments trace {L A}.

Record world : Type := mk_world {
  client : endpoint Client.line (result bool);
  server : endpoint Server.line (result unit);
  now : Q
}.

(** The peer sees end-of-file once this end has called [close] or its
    function has returned (the socket object is then released). *)
Definition gone {L A} (e : endpoint L A) : bool :=
  closed e || match prog e with Ret _ => true | _ => false end.

Inductive move (L A : Type) : Type :=
| Moved (e : endpoint L A) (out : bytes)
| Blocked
| Done.
Arguments Moved {L A} e out.
Arguments Blocked {L A}.
Arguments Done {L A}.

Definition deliver {L A} (e : endpoint L A) (t : Q) (n : N)
    (k : recv_result -> proc L A) (r : recv_result) (inb : bytes)
  : endpoint L A :=
  mk_endpoint (k r) inb (timeout e) (closed e) t
              (trace e ++ [ERecv n (timeout e) r]).

(** One action of an endpoint at time [t], if it can act. *)
Definition local {L A} (e : endpoint L A) (t : Q) (peer_gone : bool)
  : move L A :=
  match prog e with
  | Ret _ => Done
  | Connect k =>
      Moved (mk_endpoint (k None) (inbox e) (timeout e) (closed e) t
                         (trace e ++ [EConnect])) []
  | Settimeout tm k =>
      Moved (mk_endpoint k (inbox e) tm (closed e) t
                         (trace e ++ [ESettimeout tm])) []
  | Sendall d k =>
      if closed e then
        Moved (mk_endpoint (k (Some OtherError)) (inbox e) (timeout e)
                           (closed e) t (trace e)) []
      else
        Moved (mk_endpoint (k None) (inbox e) (timeout e) (closed e) t
                           (trace e ++ [ESend d])) d
  | Recv n k =>
      if closed e then Moved (deliver e t n k (RecvRaised OtherError) (inbox e)) []
      else if (n =? 0)%N then Moved (deliver e t n k (Received []) (inbox e)) []
      else
        match inbox e with
        | [] =>
            if peer_gone then Moved (deliver e t n k (Received []) []) []
            else Blocked
        | _ :: _ =>
            let (got, left) := take n (inbox e) in
            Moved (deliver e t n k (Received got) left) []
        end
  | Print l k =>
      Moved (mk_endpoint k (inbox e) (timeout e) (closed e) t
                         (trace e ++ [EPrint l])) []
  | Close k =>
      Moved (mk_endpoint k (inbox e) (timeout e) true t
                         (trace e ++ [EClose])) []
  | While body k =>
      Moved (mk_endpoint (unfold_while body k) (inbox e) (timeout e)
                         (closed e) t (trace e)) []
  end.

(** Bytes sent by the peer arrive in the inbox. *)
Definition push {L A} (d : bytes) (e : endpoint L A) : endpoint L A :=
  mk_endpoint (prog e) (inbox e ++ d) (timeout e) (closed e) (since e)
              (trace e).

(** When a blocked [recv] gives up. *)
Definition deadline {L A} (e : endpoint L A) : option Q :=
  match prog e, timeout e with
  | Recv _ _, Some tm => Some (since e + tm)%Q
  | _, _ => None
  end.

(** [socket.timeout] is raised in the pending [recv]. *)
Definition expire {L A} (e : endpoint L A) (t : Q) : endpoint L A :=
  match prog e with
  | Recv n k => deliver e t n k (RecvRaised SocketTimeout) (inbox e)
  | _ => e
  end.

(** One step of the whole system.  Whoever can act does (the client first);
    when both ends are blocked, time passes until the earlier deadline.
    [None]: both functions have returned, or what is left blocks for
    ever. *)
Definition step (w : world) : option world :=
  match local (client w) (now w) (gone (server w)) with
  | Moved c out => Some (mk_world c (push out (server w)) (now w))
  | _ =>
      match local (server w) (now w) (gone (client w)) with
      | Moved s out => Some (mk_world (push out (client w)) s (now w))
      | _ =>
          match deadline (client w), deadline (server w) with
          | None, None => None
          | Some tc, None => Some (mk_world (expire (client w) tc) (server w) tc)
          | None, Some ts => Some (mk_world (client w) (expire (server w) ts) ts)
          | Some tc, Some ts =>
              if Qle_bool tc ts
              then Some (mk_world (expire (client w) tc) (server w) tc)
              else Some (mk_world (client w) (expire (server w) ts) ts)
          end
      end
  end.

Fixpoint run (n : nat) (w : world) : world :=
  match n with
  | O => w
  | S n' => match step w with Some w' => run n' w' | None => w end
  end.

(** The client function and the handler the server starts for it: both
    sockets are blocking and nothing has been sent. *)
Definition connection (c : proc Client.line (result bool))
    (s : proc Server.line (result unit)) : world :=
  mk_world (mk_endpoint c [] None false 0%Q [])
           (mk_endpoint s [] None false 0%Q []) 0%Q.

Definition returned {L A} (e : endpoint L A) : option A :=
  match prog e with Ret a => Some a | _ => None end.

(** Nothing can happen any more although a function has not returned. *)
Definition deadlocked (w : world) : bool :=
  match step w with
  | Some _ => false
  | None =>
      match returned (client w), returned (server w) with
      | Some _, Some _ => false
      | _, _ => true
      end
  end.

End Wire.

(** ** The inputs and observations the properties are about *)

(** ['RFB 003.003\n'], an older protocol version. *)
Definition RFB_003_003 : bytes :=
  ["R"; "F"; "B"; " "; "0"; "0"; "3"; "."; "0"; "0"; "3"; x0a]%byte.

(** [' RFB 003.08\n']: twelve ASCII bytes that start with a space. *)
Definition padded_version : bytes :=
  [" "; "R"; "F"; "B"; " "; "0"; "0"; "3"; "."; "0"; "8"; x0a]%byte.

(** The test the client applies to the twelve bytes it received:
    [server_version.decode('ascii').strip().startswith('RFB 003.')]
    ([false] when [decode] raises). *)
Definition client_accepts (server_version : bytes) : bool :=
  match Str.decode_ascii server_version with
  | Ok decoded => Str.startswith (Str.strip decoded) Client.RFB_003
  | Raised _ => false
  end.

(** The same test without [strip]: the decoded string itself begins with
    ['RFB 003.']. *)
Definition decoding_begins_with_RFB_003 (server_version : bytes) : bool :=
  match Str.decode_ascii server_version with
  | Ok decoded => Str.startswith decoded Client.RFB_003
  | Raised _ => false
  end.

(** [version_str] as the client prints it. *)
Definition version_str (server_version : bytes) : str :=
  match Str.decode_ascii server_version with
  | Ok decoded => Str.strip decoded
  | Raised _ => []
  end.

(** A ServerInit message built as [handle_client] builds it, for the
    desktop name [name]. *)
Definition server_init_named (bo : Struct.byteorder) (name : bytes) : bytes :=
  match Server.pack_HH_be 1024 768,
        Server.pack_pixel_format bo 32 24 0 1 255 255 255 16 8 0,
        Struct.pack_I_be (N.of_nat (length name)) with
  | Ok wh, Ok pixel_format, Ok name_length =>
      wh ++ pixel_format ++ name_length ++ name
  | _, _, _ => []
  end.

(** The ServerInit message of [handle_client]. *)
Definition server_init (bo : Struct.byteorder) : bytes :=
  server_init_named bo Server.desktop_name.

(** What a server that names its desktop "Test VM" sends to a client that
    selects type 1. *)
Definition server_named_Test_VM : list Stream.arrival :=
  [Stream.Data Server.RFB_VERSION;
   Stream.Data [x01; x01];
   Stream.Data [x00; x00; x00; x00];
   Stream.Data (server_init_named Struct.LittleEndian
                  ["T"; "e"; "s"; "t"; " "; "V"; "M"]%byte)].

(** FramebufferUpdateRequest{incremental=0, x=0, y=0, w=1024, h=768}. *)
Definition fbur_1024_768 : bytes :=
  [x03; x00; x00; x00; x00; x00; x04; x00; x03; x00].

(** KeyEvent{down=1, keysym=0x41}. *)
Definition key_event_A : bytes :=
  [x04; x01; x00; x00; x00; x00; x00; x41].

(** FramebufferUpdate with no rectangle: type 0, one padding byte, a
    16-bit count of 0. *)
Definition empty_framebuffer_update : bytes := [x00; x00; x00; x00].

(** ['Test VM'], ['Horcrux Test VM'] and ['rux Test VM'] *)
Definition Test_VM : str := Eval cbv in
  Str.lit ["T"; "e"; "s"; "t"; " "; "V"; "M"]%byte.
Definition Horcrux_Test_VM : str := Eval cbv in Str.lit Server.desktop_name.
Definition rux_Test_VM : str := Eval cbv in
  Str.lit ["r"; "u"; "x"; " "; "T"; "e"; "s"; "t"; " "; "V"; "M"]%byte.

(** What the client reports as negotiated once the handshake is complete
    (its "Connection details" lines): resolution and desktop name. *)
Fixpoint negotiated (lines : list Client.line) : option (N * N * str) :=
  match lines with
  | [] => None
  | Client.ConnectionDetails _ width height name :: _ =>
      Some (width, height, name)
  | _ :: rest => negotiated rest
  end.

(** The fields of a ServerInit message as the wire format lays them out:
    width(2) height(2) pixel-format(16) name-length(4) name. *)
Definition server_init_fields (b : bytes) : option (N * N * bytes) :=
  match Struct.unpack_HH_be (Struct.slice b 0 4),
        Struct.unpack_I_be (Struct.slice b 20 24) with
  | Ok (width, height), Ok name_length =>
      Some (width, height, firstn (N.to_nat name_length) (skipn 24 b))
  | _, _ => None
  end.

(** The client and the server of the repository, connected. *)
Definition scenario (bo : Struct.byteorder) : Wire.world :=
  Wire.connection Client.test_vnc_handshake (Server.handle_client bo).

(** The server's handshake up to ServerInit, as a well-behaved client
    drives it: version echo, selection of type 1, ClientInit. *)
Definition client_side_of_handshake : list Stream.arrival :=
  [Stream.Data Server.RFB_VERSION; Stream.Data [x01]; Stream.Data [x01]].

(** The state in which the connected scripts come to rest. *)
Definition scenario_end (bo : Struct.byteorder) : Wire.world :=
  Wire.run 64 (scenario bo).

(** What the server does up to the end of its handshake when the client of
    the repository is at the other end. *)
Definition server_handshake_trace (bo : Struct.byteorder)
  : list (event Server.line) :=
  [ESend Server.RFB_VERSION;
   EPrint Server.SentRFBVersion;
   ERecv 12 None (Received Server.RFB_VERSION);
   EPrint (Server.ReceivedClientVersion (version_str Server.RFB_VERSION));
   ESend [x01; x01];
   EPrint Server.SentSecurityTypes;
   ERecv 1 None (Received [x01]);
   EPrint (Server.ClientSelectedSecurityType 1);
   ESend [x00; x00; x00; x00];
   EPrint Server.SentSecurityResultOK;
   ERecv 1 None (Received [x01]);
   EPrint (Server.ReceivedClientInit 1);
   ESend (server_init bo);
   EPrint (Server.SentServerInit 1024 768 Horcrux_Test_VM);
   EPrint Server.HandshakeComplete;
   EPrint Server.WaitingForClientMessages].

(** Whether the server goes on after reading [client_version]: it only
    looks at the length, and printing the version decodes it. *)
Definition server_accepts (client_version : bytes) : bool :=
  (length client_version =? 12)
  && match Str.decode_utf8 client_version with
     | Ok _ => true
     | Raised _ => false
     end.

(** The security types of the SecurityOfferList the server sends
    ([struct.pack('BB', 1, SECURITY_NONE)]: a count of 1, then type 1). *)
Definition offered : list N := [Server.SECURITY_NONE].

(** The lines one pass of the session loop prints after the "Received
    message type" line, by the first byte of what was read. *)
Definition dispatch_lines (msg_type : N) : list Server.line :=
  if (msg_type =? 0)%N then [Server.SetPixelFormatMessage]
  else if (msg_type =? 2)%N then [Server.SetEncodingsMessage]
  else if (msg_type =? 3)%N then
    [Server.FramebufferUpdateRequestMessage; Server.SentEmptyFramebufferUpdate]
  else if (msg_type =? 4)%N then [Server.KeyEventMessage]
  else if (msg_type =? 5)%N then [Server.PointerEventMessage]
  else if (msg_type =? 6)%N then [Server.ClientCutTextMessage]
  else [].

(** A FramebufferUpdateRequest and a KeyEvent that reach the server in
    one burst. *)
Definition two_messages : bytes := fbur_1024_768 ++ key_event_A.

(** What the server prints during a handshake with a well-behaved client. *)
Definition server_handshake_lines : list Server.line :=
  [Server.SentRFBVersion;
   Server.ReceivedClientVersion (version_str Server.RFB_VERSION);
   Server.SentSecurityTypes;
   Server.ClientSelectedSecurityType 1;
   Server.SentSecurityResultOK;
   Server.ReceivedClientInit 1;
   Server.SentServerInit 1024 768 Horcrux_Test_VM;
   Server.HandshakeComplete;
   Server.WaitingForClientMessages].

(** The server after a handshake, fed [bursts] and then closed upon. *)
Definition server_session (bursts : list Stream.arrival)
  : Stream.state Server.line (result unit) :=
  Stream.run 100
    (Stream.start (Server.handle_client Struct.LittleEndian)
                  (client_side_of_handshake ++ bursts)).

(** What the client has done once it has echoed the version and asked for
    the security types; [r] is what that [recv(1)] returned. *)
Definition client_version_trace (server_version : bytes) (r : recv_result)
  : list (event Client.line) :=
  [EPrint Client.Connecting;
   ESettimeout (Some 5%Q);
   EConnect;
   EPrint Client.Connected;
   ERecv 12 (Some 5%Q) (Received server_version);
   EPrint (Client.ServerVersion (version_str server_version));
   ESend server_version;
   EPrint (Client.SentClientVersion (version_str server_version));
   ERecv 1 (Some 5%Q) r].

(** What the client prints up to the security offer. *)
Definition client_lines_to_offer (server_version : bytes) (num_types : N)
  : list Client.line :=
  [Client.Connecting;
   Client.Connected;
   Client.ServerVersion (version_str server_version);
   Client.SentClientVersion (version_str server_version);
   Client.ReceivedSecurityTypes num_types].

(** Bytes that are still unread when the run stops: the rest of a burst,
    then the later arrivals. *)
Definition unread (left : bytes) (rest : list Stream.arrival)
  : list Stream.arrival :=
  match left with
  | [] => rest
  | _ :: _ => Stream.Data left :: rest
  end.

(** A refusal as a server would send it after a zero count: the length
    of the reason, the reason ("busy"), and one byte more. *)
Definition refusal_reason : bytes := ["b"; "u"; "s"; "y"]%byte.
Definition refusal : bytes := [x00; x00; x00; x04] ++ refusal_reason ++ [x07].

(** [1 in security_types] for the types received as [types]. *)
Definition offers_none (types : bytes) : bool :=
  existsb (N.eqb 1) (map Struct.u8 types).

(** The client's reads of the offered security types, one byte each. *)
Definition offer_events (types : bytes) : list (event Client.line) :=
  map (fun b => ERecv 1 (Some 5%Q) (Received [b])) types.

(** What the client has done once it has read the security result
    [result_bytes], after an offer of [count] types [types] among which it
    selected type 1. *)
Definition client_trace_to_result
    (server_version : bytes) (count : byte) (types result_bytes : bytes)
  : list (event Client.line) :=
  [EPrint Client.Connecting;
   ESettimeout (Some 5%Q);
   EConnect;
   EPrint Client.Connected;
   ERecv 12 (Some 5%Q) (Received server_version);
   EPrint (Client.ServerVersion (version_str server_version));
   ESend server_version;
   EPrint (Client.SentClientVersion (version_str server_version));
   ERecv 1 (Some 5%Q) (Received [count]);
   EPrint (Client.ReceivedSecurityTypes (Struct.u8 count))]
  ++ offer_events types
  ++ [EPrint (Client.AvailableSecurityTypes (map Struct.u8 types));
      ESend [x01];
      EPrint Client.SelectedSecurityNone;
      ERecv 4 (Some 5%Q) (Received result_bytes)].

(** An offer of VNC authentication (2) and None (1). *)
Definition offer_2_1 : bytes := [x02; x01].

(** A security result that says "failed" (1). *)
Definition result_failed : bytes := [x00; x00; x00; x01].

(** The first ten bytes of a ServerInit message. *)
Definition ten_bytes_of_server_init : bytes :=
  firstn 10 (server_init Struct.LittleEndian).

(** The buffer size of the [recv] the program is about to make, if that
    is its next action. *)
Definition about_to_recv {L A} (s : Stream.state L A) : option N :=
  match Stream.prog s with
  | Recv n _ => Some n
  | _ => None
  end.

(** The client's handshake is over once it has printed "VNC handshake
    completed successfully". *)
Definition handshake_completed (tr : list (event Client.line)) : Prop :=
  In Client.HandshakeCompleted (printed tr).

(** A program that fails on the spot: it returns [False], after at most
    one line of output and without touching the socket. *)
Definition quiet (p : proc Client.line (result bool)) : Prop :=
  match p with
  | Ret r => r = Ok false
  | Print _ (Ret r) => r = Ok false
  | _ => False
  end.

(** Up to the end of the handshake, every [recv] of [p] is made with the
    five-second timeout in force ([cur] is the timeout on entry), and [p]
    fails on the spot when a [recv] raises [socket.timeout]. *)
Fixpoint guarded (cur : option Q) (p : proc Client.line (result bool))
  : Prop :=
  match p with
  | Ret _ => True
  | Connect k => forall x, guarded cur (k x)
  | Settimeout t k => guarded t k
  | Sendall _ k => forall x, guarded cur (k x)
  | Recv _ k =>
      cur = Some 5%Q
      /\ quiet (k (RecvRaised SocketTimeout))
      /\ forall r, guarded cur (k r)
  | Print l k => l = Client.HandshakeCompleted \/ guarded cur k
  | Close _ => False
  | While _ _ => False
  end.

(** A peer that connects, reads the server's version and then neither
    sends nor closes. *)
Definition silent_client : M Client.line bool :=
  connect ;;
  server_version <- recv 12 ;;
  more <- recv 1 ;;
  ret true.

(** The invariant of the client's run. *)
Definition client_inv (s : Stream.state Client.line (result bool)) : Prop :=
  handshake_completed (Stream.trace s)
  \/ (guarded (Stream.timeout s) (Stream.prog s) /\ Stream.closed s = false).

(** A run that is stuck for good in a [recv] without timeout. *)
Definition blocked_for_ever {L A} (s : Stream.state L A) : Prop :=
  Stream.hung s = true
  /\ Stream.timeout s = None
  /\ Stream.returned s = None.

(** ** What the scripts do on every run *)

(** The payloads of the [sendall] calls, one by one. *)
Fixpoint sent_messages {L} (tr : list (event L)) : list bytes :=
  match tr with
  | [] => []
  | ESend d :: tr' => d :: sent_messages tr'
  | _ :: tr' => sent_messages tr'
  end.

(** [safe P J R p tr cur cl]: in every run of [p] that starts with the
    events [tr] behind it, the timeout [cur] in force and the socket closed
    or not ([cl]), whatever the socket hands back, the events satisfy [P]
    at every moment, and when [p] returns, the events, the state of the
    socket and the value returned satisfy [R].  [J] is the invariant of the
    [while True] loop: it holds when the loop is entered and every pass
    preserves it. *)
Fixpoint safe {L A} (P J : list (event L) -> Prop)
    (R : list (event L) -> bool -> A -> Prop)
    (p : proc L A) (tr : list (event L)) (cur : option Q) (cl : bool)
  : Prop :=
  P tr
  /\ match p with
     | Ret a => R tr cl a
     | Connect k => forall x, safe P J R (k x) (tr ++ [EConnect]) cur cl
     | Settimeout t k => safe P J R k (tr ++ [ESettimeout t]) t cl
     | Sendall d k =>
         (forall e, safe P J R (k (Some e)) tr cur cl)
         /\ safe P J R (k None) (tr ++ [ESend d]) cur cl
     | Recv n k => forall r, safe P J R (k r) (tr ++ [ERecv n cur r]) cur cl
     | Print l k => safe P J R k (tr ++ [EPrint l]) cur cl
     | Close k => safe P J R k (tr ++ [EClose]) cur true
     | While body k =>
         J tr
         /\ (forall tr' cur' cl',
               P tr' -> J tr' ->
               safe P J (fun tr'' _ _ => J tr'') body tr' cur' cl')
         /\ (forall tr' cur' cl' r,
               P tr' -> J tr' -> safe P J R (k r) tr' cur' cl')
     end.

(** [p] returns within [fuel] actions whatever the socket hands back: it
    has no [while True] loop, and every [recv] is made with a timeout in
    force (or on a socket that was closed, where it raises). *)
Fixpoint finishes {L A} (p : proc L A) (fuel : nat) (cur : option Q)
    (cl : bool) : Prop :=
  match p with
  | Ret _ => True
  | Connect k =>
      match fuel with
      | O => False
      | S f => forall x, finishes (k x) f cur cl
      end
  | Settimeout t k =>
      match fuel with O => False | S f => finishes k f t cl end
  | Sendall _ k =>
      match fuel with
      | O => False
      | S f => forall x, finishes (k x) f cur cl
      end
  | Recv _ k =>
      (cl = true \/ cur <> None)
      /\ match fuel with
         | O => False
         | S f => forall r, finishes (k r) f cur cl
         end
  | Print _ k =>
      match fuel with O => False | S f => finishes k f cur cl end
  | Close k =>
      match fuel with O => False | S f => finishes k f cur true end
  | While _ _ => False
  end.

(** Events that are reads only. *)
Definition reads {L} (es : list (event L)) : Prop :=
  Forall (fun e => match e with ERecv _ _ _ => True | _ => False end) es.

(** *** The client *)

(** The first six bytes of the client's FramebufferUpdateRequest: type 3,
    not incremental, x = 0, y = 0. *)
Definition FBUR_header : bytes := [x03; x00; x00; x00; x00; x00].

(** Everything the client can ever send, in order: the twelve bytes it
    received as the server's version, the selection of security type 1,
    the ClientInit byte 1, and one FramebufferUpdateRequest made of the
    header and the first four bytes of what it read as ServerInit. *)
Definition client_sends_ok (tr : list (event Client.line)) : Prop :=
  match sent_messages tr with
  | [] => True
  | version :: more =>
      In (ERecv 12 (Some 5%Q) (Received version)) tr
      /\ match more with
         | [] => True
         | selection :: more =>
             selection = [x01]
             /\ match more with
                | [] => True
                | client_init :: more =>
                    client_init = [x01]
                    /\ match more with
                       | [] => True
                       | request :: more =>
                           (exists server_init,
                              In (ERecv 24 (Some 5%Q) (Received server_init))
                                 tr
                              /\ request
                                 = FBUR_header ++ firstn 4 server_init)
                           /\ more = []
                       end
                end
         end
  end.

(** What a passing test implies: the client has read twelve bytes that
    pass its version test, the security result 0 and 24 bytes of
    ServerInit; it has sent these four messages and no other; it has
    printed that the handshake is complete. *)
Definition passes (tr : list (event Client.line)) : Prop :=
  exists server_version server_init : bytes,
    In (ERecv 12 (Some 5%Q) (Received server_version)) tr
    /\ length server_version = 12
    /\ client_accepts server_version = true
    /\ In (ERecv 4 (Some 5%Q) (Received [x00; x00; x00; x00])) tr
    /\ In (ERecv 24 (Some 5%Q) (Received server_init)) tr
    /\ length server_init = 24
    /\ sent_messages tr
       = [server_version; [x01]; [x01];
          FBUR_header ++ firstn 4 server_init]
    /\ handshake_completed tr.

(** What holds when [test_vnc_handshake] returns: it returns a boolean,
    [True] exactly when it has closed the socket, and [True] only after a
    complete handshake. *)
Definition client_returns (tr : list (event Client.line)) (cl : bool)
    (r : result bool) : Prop :=
  r = Ok cl /\ (cl = true -> passes tr).

(** The client's events up to the security offer it has read. *)
Definition client_offer_trace (server_version : bytes) (count : byte)
    (types : bytes) : list (event Client.line) :=
  [EPrint Client.Connecting;
   ESettimeout (Some 5%Q);
   EConnect;
   EPrint Client.Connected;
   ERecv 12 (Some 5%Q) (Received server_version);
   EPrint (Client.ServerVersion (version_str server_version));
   ESend server_version;
   EPrint (Client.SentClientVersion (version_str server_version));
   ERecv 1 (Some 5%Q) (Received [count]);
   EPrint (Client.ReceivedSecurityTypes (Struct.u8 count))]
  ++ offer_events types.

(** The width and the height the client unpacks from the first four
    bytes of what it read as ServerInit, and the lines it prints about
    these 24 bytes. *)
Definition server_init_size (server_init : bytes) : N * N :=
  match Struct.unpack_HH_be (Struct.slice server_init 0 4) with
  | Ok size => size
  | Raised _ => (0%N, 0%N)
  end.

Definition server_init_lines (server_init : bytes) : list Client.line :=
  let pixel_format := Struct.slice server_init 4 24 in
  match Struct.unpack_HH_be (Struct.slice server_init 0 4),
        Struct.unpack_BBBB (Struct.slice pixel_format 0 4),
        Struct.unpack_HHH_be (Struct.slice pixel_format 4 10),
        Struct.unpack_BBB (Struct.slice pixel_format 10 13) with
  | Ok (width, height), Ok (bits_per_pixel, depth, _, true_color),
    Ok (red_max, green_max, blue_max),
    Ok (red_shift, green_shift, blue_shift) =>
      [Client.FramebufferSize width height;
       Client.PixelFormat bits_per_pixel depth true_color;
       Client.RGB red_max green_max blue_max red_shift green_shift
                  blue_shift]
  | _, _, _, _ => []
  end.

(** What the client does from the security result 0 to the read that
    follows its FramebufferUpdateRequest. *)
Definition client_init_trace
    (server_version server_init len_bytes name : bytes)
    (name_length : N) (desktop_name : str) : list (event Client.line) :=
  [EPrint Client.SecurityResultOK;
   ESend [x01];
   EPrint (Client.SentClientInit 1);
   ERecv 24 (Some 5%Q) (Received server_init)]
  ++ map EPrint (server_init_lines server_init)
  ++ [ERecv 4 (Some 5%Q) (Received len_bytes);
      ERecv name_length (Some 5%Q) (Received name);
      EPrint (Client.DesktopName desktop_name);
      EPrint Client.HandshakeCompleted;
      EPrint (Client.ConnectionDetails (version_str server_version)
                (fst (server_init_size server_init))
                (snd (server_init_size server_init)) desktop_name);
      EPrint Client.TestingFramebufferUpdateRequest;
      ESend (FBUR_header ++ firstn 4 server_init);
      EPrint Client.SentFramebufferUpdateRequest;
      ESettimeout (Some 2%Q)].

(** Whether the read that follows the FramebufferUpdateRequest lets the
    test pass: everything does but a failure of the connection. *)
Definition response_ok (rest : list Stream.arrival) : bool :=
  match rest with
  | Stream.Fails e :: _ => exn_eqb e SocketTimeout
  | _ => true
  end.

(** That read and the end of the test, by what arrives. *)
Definition response_events (rest : list Stream.arrival)
  : list (event Client.line) :=
  let closing := [EClose; EPrint Client.ConnectionClosedCleanly] in
  match rest with
  | [] => ERecv 4 (Some 2%Q) (Received []) :: closing
  | Stream.Data d :: _ =>
      ERecv 4 (Some 2%Q) (Received (fst (take 4 d)))
      :: match fst (take 4 d) with
         | [] => []
         | b0 :: _ =>
             if (Struct.u8 b0 =? 0)%N
             then [EPrint Client.ReceivedFramebufferUpdate]
             else [EPrint (Client.ReceivedMessageType (Struct.u8 b0))]
         end
      ++ closing
  | Stream.Silence :: _ =>
      ERecv 4 (Some 2%Q) (RecvRaised SocketTimeout)
      :: EPrint Client.NoResponse :: closing
  | Stream.Fails e :: _ =>
      ERecv 4 (Some 2%Q) (RecvRaised e)
      :: match e with
         | SocketTimeout => EPrint Client.NoResponse :: closing
         | ConnectionRefusedError => [EPrint Client.ConnectionRefused]
         | _ => [EPrint (Client.Error e)]
         end
  end.

(** What is left unread after that read. *)
Definition response_left (rest : list Stream.arrival)
  : list Stream.arrival :=
  match rest with
  | [] => []
  | Stream.Data d :: rest' => unread (snd (take 4 d)) rest'
  | _ :: rest' => rest'
  end.

(** ["RFB 003."] as bytes. *)
Definition RFB_003_prefix : bytes :=
  ["R"; "F"; "B"; " "; "0"; "0"; "3"; "."]%byte.

(** What the server of the repository sends to a client that selects
    type 1, burst by burst. *)
Definition server_bursts (bo : Struct.byteorder) : list Stream.arrival :=
  [Stream.Data Server.RFB_VERSION;
   Stream.Data [x01; x01];
   Stream.Data [x00; x00; x00; x00];
   Stream.Data (server_init bo)].

(** *** The server *)

(** What [handle_client] has done when it returns: it returns normally,
    the socket is closed, and the last two things it did were to close it
    and to print "Connection closed". *)
Definition closed_at_end (tr : list (event Server.line)) (cl : bool)
    (r : result unit) : Prop :=
  r = Ok tt /\ cl = true
  /\ match rev tr with
     | EPrint Server.ConnectionClosed :: EClose :: _ => True
     | _ => False
     end.

(** Everything the server can ever send, in order: its version, the offer
    of security type 1, the security result 0, ServerInit, and then empty
    FramebufferUpdate messages. *)
Definition server_messages (bo : Struct.byteorder) (n : nat) : list bytes :=
  [Server.RFB_VERSION; [x01; x01]; [x00; x00; x00; x00]; server_init bo]
  ++ repeat empty_framebuffer_update n.

(** The messages sent so far are the first ones of that sequence. *)
Definition server_sends_ok (bo : Struct.byteorder)
    (tr : list (event Server.line)) : Prop :=
  exists n,
    sent_messages tr
    = firstn (length (sent_messages tr)) (server_messages bo n).

(** The server is in its session loop: the four messages of the handshake
    are out, and nothing else but empty FramebufferUpdate messages. *)
Definition in_session (bo : Struct.byteorder)
    (tr : list (event Server.line)) : Prop :=
  exists n, sent_messages tr = server_messages bo n.

(** What one pass of the session loop does after the "Received message
    type" line, by the first byte of what was read. *)
Definition dispatch_events (msg_type : N) : list (event Server.line) :=
  if (msg_type =? 3)%N then
    [EPrint Server.FramebufferUpdateRequestMessage;
     ESend empty_framebuffer_update;
     EPrint Server.SentEmptyFramebufferUpdate]
  else map EPrint (dispatch_lines msg_type).

(** An arrival after which the session loop goes round again: a burst
    that one [recv(1024)] takes whole, or a silence of a second. *)
Definition keeps_going (a : Stream.arrival) : bool :=
  match a with
  | Stream.Data ((_ :: _) as d) => length d <=? 1024
  | Stream.Silence => true
  | _ => false
  end.

(** What one pass of the session loop does, by what arrives. *)
Definition pass_events (a : Stream.arrival) : list (event Server.line) :=
  ESettimeout (Some 1%Q)
  :: match a with
     | Stream.Data ((b0 :: _) as d) =>
         ERecv 1024 (Some 1%Q) (Received d)
         :: EPrint (Server.ReceivedMessageType (Struct.u8 b0) (length d))
         :: dispatch_events (Struct.u8 b0)
     | Stream.Data [] =>
         [ERecv 1024 (Some 1%Q) (Received []);
          EPrint Server.ClientDisconnected]
     | Stream.Silence => [ERecv 1024 (Some 1%Q) (RecvRaised SocketTimeout)]
     | Stream.Fails e =>
         ERecv 1024 (Some 1%Q) (RecvRaised e)
         :: match e with
            | SocketTimeout => []
            | _ => [EPrint (Server.ErrorReceivingData e)]
            end
     end.

(** The events of the passes over [items], and the number of steps they
    take (a pass takes one step more than it has events: going round the
    loop). *)
Definition session_events (items : list Stream.arrival)
  : list (event Server.line) :=
  flat_map pass_events items.

Fixpoint session_steps (items : list Stream.arrival) : nat :=
  match items with
  | [] => 0
  | a :: rest => S (length (pass_events a)) + session_steps rest
  end.

(** The timeout in force after the passes over [items]. *)
Definition session_timeout (tmo : option Q) (items : list Stream.arrival)
  : option Q :=
  match items with
  | [] => tmo
  | _ :: _ => Some 1%Q
  end.

(** What [handle_client] does once the session loop has ended with [r]:
    its [except] and [finally] clauses. *)
Definition after_session (r : result unit) : M Server.line unit :=
  finally
    (try_catch (Ret r) (fun e => print (Server.ErrorHandlingClient e)))
    (close ;; print Server.ConnectionClosed).

(** [client_version.decode().strip()] as the server prints it. *)
Definition utf8_version_str (client_version : bytes) : str :=
  match Str.decode_utf8 client_version with
  | Ok decoded => Str.strip decoded
  | Raised _ => []
  end.

(** The server's handshake with a client that sends twelve bytes, selects
    [selection] and sends the ClientInit byte [client_init]. *)
Definition server_handshake_events (bo : Struct.byteorder)
    (client_version : bytes) (selection client_init : byte)
  : list (event Server.line) :=
  [ESend Server.RFB_VERSION;
   EPrint Server.SentRFBVersion;
   ERecv 12 None (Received client_version);
   EPrint (Server.ReceivedClientVersion (utf8_version_str client_version));
   ESend [x01; x01];
   EPrint Server.SentSecurityTypes;
   ERecv 1 None (Received [selection]);
   EPrint (Server.ClientSelectedSecurityType (Struct.u8 selection));
   ESend [x00; x00; x00; x00];
   EPrint Server.SentSecurityResultOK;
   ERecv 1 None (Received [client_init]);
   EPrint (Server.ReceivedClientInit (Struct.u8 client_init));
   ESend (server_init bo);
   EPrint (Server.SentServerInit 1024 768 Horcrux_Test_VM);
   EPrint Server.HandshakeComplete;
   EPrint Server.WaitingForClientMessages].

(** The FramebufferUpdate messages the passes over [items] send: one for
    each burst that begins with byte 3. *)
Definition responses (items : list Stream.arrival) : bytes :=
  flat_map (fun a =>
              match a with
              | Stream.Data (b0 :: _) =>
                  if (Struct.u8 b0 =? 3)%N then empty_framebuffer_update
                  else []
              | _ => []
              end) items.

(** What ends the session loop: the peer has closed, or the connection
    fails. *)
Definition ends_session (rest : list Stream.arrival) : bool :=
  match rest with
  | [] => true
  | Stream.Data [] :: _ => true
  | Stream.Fails e :: _ => negb (exn_eqb e SocketTimeout)
  | _ => false
  end.

(** The last pass of the session loop. *)
Definition last_pass (rest : list Stream.arrival)
  : list (event Server.line) :=
  match rest with
  | [] => pass_events (Stream.Data [])
  | a :: _ => pass_events a
  end.

(** Three bursts and a silence for the session loop. *)
Definition session_sample : list Stream.arrival :=
  [Stream.Data fbur_1024_768; Stream.Silence; Stream.Data key_event_A;
   Stream.Data two_messages].

(** *** The codec *)

(** A 16-bit number packed in the byte order of the host and unpacked in
    network order. *)
Definition host_to_network (bo : Struct.byteorder) (v : N) : N :=
  match bo with
  | Struct.BigEndian => v
  | Struct.LittleEndian => ((v mod 256) * 256 + v / 256)%N
  end.

(** ** The life of the server: [__init__], [start], [stop] and [main] *)

Module Lifecycle.

(** The listening side of [test_vnc_server.py] works on several sockets
    and starts threads, so it is embedded on its own: as functions that
    pass the [MockVNCServer] object along and record what the script does
    to the outside world.  A client socket is named by a number.  The
    threads run [handle_client], which touches neither [self.running] nor
    [self.clients]; here only their start is recorded.  [KeyboardInterrupt]
    (which is not an [Exception]) can come while the script waits in
    [bind] or in [accept]; starting a thread and closing the listening
    socket succeed. *)

(** The lines [start], [stop] and [main] print. *)
Inductive line : Type :=
| Banner
| Listening (host : bytes) (port : N)
| RFBVersion (version_str : str)
| WaitingForConnections
| ClientConnected (client : nat)
| ErrorAcceptingConnection (e : exn)
| ServerStopped
| ReceivedCtrlC
| Error (e : exn).

(** What the script does, in order.  [CloseClient c r]: [close()] on the
    client socket [c], and the exception it raised, if any. *)
Inductive action : Type :=
| Socket
| Setsockopt
| Bind (host : bytes) (port : N)
| Listen (backlog : N)
| Accept
| ThreadStart (client : nat)
| CloseClient (client : nat) (r : option exn)
| CloseServer
| PrintLine (l : line).

(** How a call ends: with a value, with an exception, with
    [KeyboardInterrupt], or never. *)
Inductive outcome (A : Type) : Type :=
| Returns (a : A)
| Raises (e : exn)
| Interrupted
| Blocks.
Arguments Returns {A} a.
Arguments Raises {A} e.
Arguments Interrupted {A}.
Arguments Blocks {A}.

(** What [accept] brings, call after call. *)
Inductive accepted : Type :=
| Connection (client : nat)
| Interrupt
| AcceptError (e : exn).

(** The world the script runs in: how [bind] ends, what the successive
    calls of [accept] bring (when the list is used up, [accept] waits for
    ever), and which client sockets raise on [close]. *)
Record world : Type := mk_world {
  bind_result : outcome unit;
  connections : list accepted;
  close_result : nat -> option exn
}.

(** The [MockVNCServer] object; [server_socket] tells whether the
    attribute exists. *)
Record server : Type := mk_server {
  host : bytes;
  port : N;
  running : bool;
  clients : list nat;
  server_socket : bool
}.

(** ['127.0.0.1'] *)
Definition localhost : bytes :=
  ["1"; "2"; "7"; "."; "0"; "."; "0"; "."; "1"]%byte.

(** [MockVNCServer(host, port)] *)
Definition init (host : bytes) (port : N) : server :=
  mk_server host port false [] false.

(** [self.stop()] *)
Definition stop (w : world) (s : server) (tr : list action)
  : server * list action :=
  let s := mk_server (host s) (port s) false (clients s) (server_socket s) in
  let tr := tr ++ map (fun c => CloseClient c (close_result w c)) (clients s) in
  let tr := if server_socket s then tr ++ [CloseServer] else tr in
  (s, tr ++ [PrintLine ServerStopped]).

(** The [while self.running] loop of [start]. *)
Fixpoint accept_loop (conns : list accepted) (s : server) (tr : list action)
  : outcome unit * server * list action :=
  if negb (running s) then (Returns tt, s, tr)
  else
    match conns with
    | [] => (Blocks, s, tr ++ [Accept])
    | Connection c :: rest =>
        accept_loop rest
          (mk_server (host s) (port s) (running s) (clients s ++ [c])
                     (server_socket s))
          (tr ++ [Accept; PrintLine (ClientConnected c); ThreadStart c])
    | Interrupt :: _ => (Returns tt, s, tr ++ [Accept])
    | AcceptError e :: rest =>
        accept_loop rest s
          (tr ++ [Accept; PrintLine (ErrorAcceptingConnection e)])
    end.

(** [self.start()] *)
Definition start (w : world) (s : server) (tr : list action)
  : outcome unit * server * list action :=
  let s := mk_server (host s) (port s) (running s) (clients s) true in
  let tr := tr ++ [Socket; Setsockopt] in
  let '(r, s, tr) :=
    match bind_result w with
    | Returns _ =>
        let tr := tr ++ [Bind (host s) (port s); Listen 5] in
        let s := mk_server (host s) (port s) true (clients s)
                           (server_socket s) in
        let tr := tr ++ [PrintLine (Listening (host s) (port s));
                         PrintLine (RFBVersion (utf8_version_str Server.RFB_VERSION));
                         PrintLine WaitingForConnections] in
        accept_loop (connections w) s tr
    | Raises e => (Raises e, s, tr ++ [Bind (host s) (port s)])
    | Interrupted => (Interrupted, s, tr ++ [Bind (host s) (port s)])
    | Blocks => (Blocks, s, tr ++ [Bind (host s) (port s)])
    end in
  match r with
  | Blocks => (Blocks, s, tr)
  | _ => let (s, tr) := stop w s tr in (r, s, tr)
  end.

(** [main()]; [argv_port] is [int(sys.argv[1])] when an argument is
    given. *)
Definition main (w : world) (argv_port : option (result N))
  : outcome unit * list action :=
  let tr := [PrintLine Banner] in
  match match argv_port with
        | None => Ok 5900%N
        | Some r => r
        end with
  | Raised e => (Raises e, tr)
  | Ok port =>
      let s := init localhost port in
      let '(r, s, tr) := start w s tr in
      match r with
      | Blocks => (Blocks, tr)
      | _ =>
          let tr := match r with
                    | Interrupted => tr ++ [PrintLine ReceivedCtrlC]
                    | Raises e => tr ++ [PrintLine (Error e)]
                    | _ => tr
                    end in
          let (s, tr) := stop w s tr in
          (Returns tt, tr)
      end
  end.

(** The client sockets among what [accept] brought. *)
Fixpoint accepted_clients (conns : list accepted) : list nat :=
  match conns with
  | [] => []
  | Connection c :: rest => c :: accepted_clients rest
  | _ :: rest => accepted_clients rest
  end.

(** Whether [accept] was never interrupted. *)
Fixpoint uninterrupted (conns : list accepted) : bool :=
  match conns with
  | [] => true
  | Interrupt :: _ => false
  | _ :: rest => uninterrupted rest
  end.

(** What the accept loop does with connections and errors of [accept]. *)
Fixpoint accept_actions (conns : list accepted) : list action :=
  match conns with
  | [] => []
  | Connection c :: rest =>
      [Accept; PrintLine (ClientConnected c); ThreadStart c]
      ++ accept_actions rest
  | Interrupt :: rest => Accept :: accept_actions rest
  | AcceptError e :: rest =>
      [Accept; PrintLine (ErrorAcceptingConnection e)] ++ accept_actions rest
  end.

(** The actions of one call of [stop] on the clients [cs]. *)
Definition stop_actions (w : world) (cs : list nat) : list action :=
  map (fun c => CloseClient c (close_result w c)) cs
  ++ [CloseServer; PrintLine ServerStopped].

(** What [start] does before it waits for connections. *)
Definition startup (port : N) : list action :=
  [Socket; Setsockopt; Bind localhost port; Listen 5;
   PrintLine (Listening localhost port);
   PrintLine (RFBVersion (utf8_version_str Server.RFB_VERSION));
   PrintLine WaitingForConnections].

(** How often an action occurs. *)
Fixpoint occurrences (P : action -> bool) (tr : list action) : nat :=
  match tr with
  | [] => 0
  | a :: rest => (if P a then 1 else 0) + occurrences P rest
  end.

Definition is_stopped (a : action) : bool :=
  match a with PrintLine ServerStopped => true | _ => false end.

Definition is_close_server (a : action) : bool :=
  match a with CloseServer => true | _ => false end.

Definition is_thread_start (a : action) : bool :=
  match a with ThreadStart _ => true | _ => false end.

(** Two connections, a failed [accept] between them, then Ctrl+C. *)
Definition two_clients : world :=
  mk_world (Returns tt)
           [Connection 1; AcceptError OtherError; Connection 2; Interrupt]
           (fun _ => None).

End Lifecycle.

(** The refusal "busy" delivered in two pieces, as TCP may deliver it: the
    length (4) and the first two bytes of the reason in one burst, the last
    two bytes of the reason in the next. *)
Definition refusal_first_piece : bytes :=
  [x00; x00; x00; x04] ++ ["b"; "u"]%byte.
Definition refusal_second_piece : bytes := ["s"; "y"]%byte.

(** [b"Test VM"] *)
Definition Test_VM_bytes : bytes := ["T"; "e"; "s"; "t"; " "; "V"; "M"]%byte.

(** * Properties *)

Arguments take : simpl never.
Arguments Stream.deliver {L A} s n k r inc /.
Arguments Stream.start {L A} p inc /.
Arguments Str.decode_utf8 : simpl never.
Arguments Str.decode_ascii : simpl never.
Arguments Str.strip : simpl never.
Arguments Str.startswith : simpl never.
Arguments Struct.unpack_I_be : simpl never.


(** ** The codec *)

Lemma u8_byte_of (v : N) : (v < 256)%N -> Struct.u8 (Struct.byte_of v) = v.
Proof.
  intros Hv. unfold Struct.u8, Struct.byte_of.
  destruct (Byte.of_N v) as [b|] eqn:E.
  - now apply Byte.to_of_N.
  - apply Byte.of_N_None_iff in E. lia.
Qed.

(** What [struct.pack('!I', v)] produces, [struct.unpack('!I', _)] reads
    back. *)
Lemma unpack_pack_I_be (v : N) (b : bytes) :
  Struct.pack_I_be v = Ok b -> Struct.unpack_I_be b = Ok v.
Proof.
  unfold Struct.pack_I_be.
  destruct (N.ltb_spec v 4294967296) as [Hv|]; [| discriminate].
  intros [= <-]. unfold Struct.unpack_I_be.
  rewrite !u8_byte_of
    by (try apply N.mod_lt; try apply N.Div0.div_lt_upper_bound; lia).
  f_equal.
  replace (v / 65536)%N with (v / 256 / 256)%N
    by (now rewrite N.Div0.div_div).
  replace (v / 16777216)%N with (v / 256 / 256 / 256)%N
    by (now rewrite !N.Div0.div_div).
  zify. Z.to_euclidean_division_equations. lia.
Qed.

(** The messages the scripts build with [struct.pack]. *)
Example framebuffer_update_request_bytes :
  Client.pack_BBHHHH 3 0 0 0 1024 768 = Ok fbur_1024_768.
Proof. reflexivity. Qed.

Example empty_framebuffer_update_bytes :
  Server.pack_BxH_be 0 0 = Ok empty_framebuffer_update.
Proof. reflexivity. Qed.

Example server_init_length (bo : Struct.byteorder) :
  length (server_init bo) = 39.
Proof. destruct bo; reflexivity. Qed.

(** The pixel format depends on the byte order of the server's host. *)
Example pixel_format_little_endian :
  Server.pack_pixel_format Struct.LittleEndian 32 24 0 1 255 255 255 16 8 0
  = Ok [x20; x18; x00; x01; xff; x00; xff; x00; xff; x00; x10; x08; x00;
        x00; x00; x00].
Proof. reflexivity. Qed.

Example pixel_format_big_endian :
  Server.pack_pixel_format Struct.BigEndian 32 24 0 1 255 255 255 16 8 0
  = Ok [x20; x18; x00; x01; x00; xff; x00; xff; x00; xff; x10; x08; x00;
        x00; x00; x00].
Proof. reflexivity. Qed.

(** Strict UTF-8: two-byte "e acute" decodes; an overlong NUL, a
    surrogate and a truncated sequence do not. *)
Example decode_utf8_examples :
  Str.decode_utf8 [xc3; xa9] = Ok [233%N]
  /\ Str.decode_utf8 [xc0; x80] = Raised UnicodeDecodeError
  /\ Str.decode_utf8 [xed; xa0; x80] = Raised UnicodeDecodeError
  /\ Str.decode_utf8 [xe2; x82] = Raised UnicodeDecodeError.
Proof. repeat split. Qed.

Example version_str_of_RFB_VERSION :
  version_str Server.RFB_VERSION
  = Str.lit ["R"; "F"; "B"; " "; "0"; "0"; "3"; "."; "0"; "0"; "8"]%byte.
Proof. reflexivity. Qed.

(** ** Running: general facts *)

Lemma stream_run_add {L A} (n m : nat) (s : Stream.state L A) :
  Stream.run (n + m) s = Stream.run m (Stream.run n s).
Proof.
  revert s; induction n as [|n IH]; intros s; simpl; [reflexivity|].
  destruct (Stream.step s) as [s'|] eqn:E; [apply IH|].
  destruct m; simpl; [reflexivity | now rewrite E].
Qed.

Lemma stream_run_halted {L A} (n : nat) (s : Stream.state L A) :
  Stream.step s = None -> Stream.run n s = s.
Proof. intros H; destruct n; simpl; [reflexivity | now rewrite H]. Qed.

Lemma stream_run_past {L A} (n k : nat) (s : Stream.state L A) :
  Stream.step (Stream.run n s) = None ->
  Stream.run (n + k) s = Stream.run n s.
Proof. intros H. rewrite stream_run_add. now apply stream_run_halted. Qed.

Lemma wire_run_add (n m : nat) (w : Wire.world) :
  Wire.run (n + m) w = Wire.run m (Wire.run n w).
Proof.
  revert w; induction n as [|n IH]; intros w; simpl; [reflexivity|].
  destruct (Wire.step w) as [w'|] eqn:E; [apply IH|].
  destruct m; simpl; [reflexivity | now rewrite E].
Qed.

Lemma wire_run_halted (n : nat) (w : Wire.world) :
  Wire.step w = None -> Wire.run n w = w.
Proof. intros H; destruct n; simpl; [reflexivity | now rewrite H]. Qed.

Lemma wire_run_past (n k : nat) (w : Wire.world) :
  Wire.step (Wire.run n w) = None ->
  Wire.run (n + k) w = Wire.run n w.
Proof. intros H. rewrite wire_run_add. now apply wire_run_halted. Qed.

Lemma take_all (n : N) (d : bytes) :
  length d <= N.to_nat n -> take n d = (d, []).
Proof.
  intros H. unfold take.
  replace (N.min n (N.of_nat (length d))) with (N.of_nat (length d)) by lia.
  rewrite Nat2N.id. now rewrite firstn_all, skipn_all.
Qed.

Lemma take_app (n : N) (a b : bytes) :
  length a = N.to_nat n -> take n (a ++ b) = (a, b).
Proof.
  intros H. unfold take.
  replace (N.min n (N.of_nat (length (a ++ b)))) with n
    by (rewrite length_app; lia).
  rewrite <- H.
  now rewrite firstn_app, firstn_all, Nat.sub_diag, skipn_app, skipn_all,
    Nat.sub_diag, app_nil_r.
Qed.

Lemma take_one (x : byte) (d : bytes) : take 1 (x :: d) = ([x], d).
Proof. change (x :: d) with ([x] ++ d). now apply take_app. Qed.

Lemma sent_bytes_app {L} (a b : list (event L)) :
  sent_bytes (a ++ b) = sent_bytes a ++ sent_bytes b.
Proof.
  induction a as [|e a IH]; simpl; [reflexivity|].
  destruct e; simpl; rewrite ?IH, ?app_assoc; reflexivity.
Qed.

Lemma printed_app {L} (a b : list (event L)) :
  printed (a ++ b) = printed a ++ printed b.
Proof.
  induction a as [|e a IH]; simpl; [reflexivity|].
  destruct e; simpl; rewrite ?IH; reflexivity.
Qed.

Lemma recv_calls_app {L} (a b : list (event L)) :
  recv_calls (a ++ b) = recv_calls a ++ recv_calls b.
Proof.
  induction a as [|e a IH]; simpl; [reflexivity|].
  destruct e; simpl; rewrite ?IH; reflexivity.
Qed.

(** The trace only grows. *)
Lemma stream_step_trace {L A} (s s' : Stream.state L A) :
  Stream.step s = Some s' ->
  exists es, Stream.trace s' = Stream.trace s ++ es.
Proof.
  unfold Stream.step. intros H.
  destruct (Stream.prog s);
    repeat match type of H with
           | context [if ?c then _ else _] => destruct c
           | context [match ?x with _ => _ end] => destruct x
           end;
    inversion H; subst; simpl;
    solve [eexists; reflexivity | exists []; now rewrite app_nil_r].
Qed.

Lemma stream_run_trace {L A} (n : nat) (s : Stream.state L A) :
  exists es, Stream.trace (Stream.run n s) = Stream.trace s ++ es.
Proof.
  revert s; induction n as [|n IH]; intros s; simpl.
  - exists []. now rewrite app_nil_r.
  - destruct (Stream.step s) as [s'|] eqn:E.
    + destruct (stream_step_trace _ E) as [es Hes].
      destruct (IH s') as [es' Hes'].
      exists (es ++ es'). now rewrite Hes', Hes, app_assoc.
    + exists []. now rewrite app_nil_r.
Qed.

(** What has been sent stays sent. *)
Lemma stream_sent_extends {L A} (n : nat) (s : Stream.state L A) :
  exists more,
    sent_bytes (Stream.trace (Stream.run n s))
    = sent_bytes (Stream.trace s) ++ more.
Proof.
  destruct (stream_run_trace n s) as [es H].
  exists (sent_bytes es). now rewrite H, sent_bytes_app.
Qed.

(** The connected scripts come to rest after 64 steps, whatever the byte
    order of the server's host. *)
Lemma scenario_halts (bo : Struct.byteorder) (k : nat) :
  Wire.run (64 + k) (scenario bo) = Wire.run 64 (scenario bo).
Proof.
  apply wire_run_past. destruct bo; vm_compute; reflexivity.
Qed.

(** ** Scenario A: the handshake of the two scripts *)

(** C1, as the code has it: the server offers [[1]], the client selects 1,
    the server answers with security result 0 and sends a ServerInit of
    width 1024, height 768 and desktop name "Horcrux Test VM"; the client
    completes its handshake, returns [True] and reports a framebuffer of
    1024 x 768.  (The name the client reports is left open here.) *)
Theorem scenario_A_handshake_completes (bo : Struct.byteorder) (k : nat) :
  let w := Wire.run (64 + k) (scenario bo) in
  sent_bytes (Wire.trace (Wire.server w))
    = Server.RFB_VERSION ++ [x01; x01] ++ [x00; x00; x00; x00]
      ++ server_init bo ++ empty_framebuffer_update
  /\ server_init_fields (server_init bo)
     = Some (1024%N, 768%N, Server.desktop_name)
  /\ Str.decode_utf8 Server.desktop_name = Ok Horcrux_Test_VM
  /\ sent_bytes (Wire.trace (Wire.client w))
     = Server.RFB_VERSION ++ [x01] ++ [x01] ++ fbur_1024_768
  /\ Wire.returned (Wire.client w) = Some (Ok true)
  /\ In (Client.FramebufferSize 1024 768)
        (printed (Wire.trace (Wire.client w)))
  /\ In Client.HandshakeCompleted (printed (Wire.trace (Wire.client w)))
  /\ exists name,
       negotiated (printed (Wire.trace (Wire.client w)))
       = Some (1024%N, 768%N, name).
Proof.
  cbv zeta. rewrite scenario_halts.
  destruct bo; vm_compute; repeat split; auto 40; eexists; reflexivity.
Qed.

(** C1, as stated, fails: the desktop name the server sends is
    "Horcrux Test VM", and the name the client reports at the end of the
    handshake is "rux Test VM"; neither is "Test VM". *)
Lemma scenario_A_desktop_name_is_not_Test_VM :
  Wire.returned (Wire.client (scenario_end Struct.LittleEndian))
    = Some (Ok true)
  /\ Str.decode_utf8 Server.desktop_name = Ok Horcrux_Test_VM
  /\ negotiated (printed (Wire.trace (Wire.client (scenario_end Struct.LittleEndian))))
     = Some (1024%N, 768%N, rux_Test_VM)
  /\ negotiated (printed (Wire.trace (Wire.client (scenario_end Struct.LittleEndian))))
     <> Some (1024%N, 768%N, Test_VM).
Proof.
  vm_compute. repeat split; discriminate.
Qed.

(** How the client comes by "rux Test VM": the 24 bytes it reads as the
    fixed part of ServerInit already contain the four bytes of the name
    length, so the four bytes it reads next and decodes as the length are
    "Horc", and its last read returns the rest of the name.  On a
    little-endian server the colour maxima, packed in host order and read
    in network order, come out as 65280. *)
Example client_reads_the_name_length_from_the_name :
  In (ERecv 24 (Some 5%Q)
        (Received (firstn 24 (server_init Struct.LittleEndian))))
     (Wire.trace (Wire.client (scenario_end Struct.LittleEndian)))
  /\ In (ERecv 4 (Some 5%Q) (Received ["H"; "o"; "r"; "c"]%byte))
        (Wire.trace (Wire.client (scenario_end Struct.LittleEndian)))
  /\ In (ERecv 1215263331 (Some 5%Q)
           (Received ["r"; "u"; "x"; " "; "T"; "e"; "s"; "t"; " "; "V"; "M"]%byte))
        (Wire.trace (Wire.client (scenario_end Struct.LittleEndian)))
  /\ In (Client.RGB 65280 65280 65280 16 8 0)
        (printed (Wire.trace (Wire.client (scenario_end Struct.LittleEndian)))).
Proof.
  vm_compute. repeat split; auto 60.
Qed.

(** The same happens with any name of four bytes or more: were the
    desktop called "Test VM", the client would report " VM". *)
Example client_misreads_Test_VM :
  negotiated
    (printed
       (Stream.trace
          (Stream.run 100
             (Stream.start Client.test_vnc_handshake server_named_Test_VM))))
  = Some (1024%N, 768%N, Str.lit [" "; "V"; "M"]%byte).
Proof. vm_compute. reflexivity. Qed.

(** ** The server's handshake *)

Ltac stream_halt := try (rewrite stream_run_halted by reflexivity); cbn.

(** C2, as the code has it: the server looks only at the length of the
    version it receives.  Whatever [recv(12)] returned, the server sends
    its SecurityOfferList next exactly when it got twelve bytes that decode
    as UTF-8, whatever protocol version they spell; otherwise the handshake
    ends there, the connection is closed and nothing more is sent. *)
Theorem server_checks_only_the_version_length
    (bo : Struct.byteorder) (client_version : bytes)
    (rest : list Stream.arrival) (k : nat) :
  length client_version <= 12 ->
  let s := Stream.run (6 + k)
             (Stream.start (Server.handle_client bo)
                           (Stream.Data client_version :: rest)) in
  exists more,
    sent_bytes (Stream.trace s)
    = Server.RFB_VERSION
      ++ (if server_accepts client_version then [x01; x01] ++ more else [])
    /\ (if server_accepts client_version then True
        else Stream.returned s = Some (Ok tt) /\ Stream.closed s = true).
Proof.
  intros Hlen s; subst s. unfold server_accepts.
  cbn. rewrite take_all by (cbn; lia). cbn.
  destruct (length client_version =? 12) eqn:E12; cbn.
  - destruct (Str.decode_utf8 client_version) as [decoded|e] eqn:Ed; cbn.
    + match goal with
      | |- context [Stream.run k ?s0] =>
          destruct (stream_sent_extends k s0) as [more Hmore];
          exists more; rewrite Hmore
      end.
      split; [reflexivity | exact I].
    + exists []. stream_halt. repeat split.
  - exists []. stream_halt. repeat split.
Qed.

(** The server goes on with a client that answers "RFB 003.003". *)
Lemma server_checks_only_the_version_length_witness :
  length RFB_003_003 <= 12
  /\ exists more,
       sent_bytes
         (Stream.trace
            (Stream.run (6 + 0)
               (Stream.start (Server.handle_client Struct.LittleEndian)
                             [Stream.Data RFB_003_003])))
       = Server.RFB_VERSION
         ++ (if server_accepts RFB_003_003 then [x01; x01] ++ more else [])
       /\ (if server_accepts RFB_003_003 then True
           else Stream.returned
                  (Stream.run (6 + 0)
                     (Stream.start (Server.handle_client Struct.LittleEndian)
                                   [Stream.Data RFB_003_003]))
                = Some (Ok tt)
                /\ Stream.closed
                     (Stream.run (6 + 0)
                        (Stream.start (Server.handle_client Struct.LittleEndian)
                                      [Stream.Data RFB_003_003]))
                   = true).
Proof.
  split; [vm_compute; lia |].
  apply (@server_checks_only_the_version_length
           Struct.LittleEndian RFB_003_003 [] 0).
  vm_compute; lia.
Defined.

(** C2, as stated, fails: the server has sent "RFB 003.008"; a client that
    answers "RFB 003.003" is sent the SecurityOfferList all the same. *)
Lemma server_accepts_mismatched_version :
  RFB_003_003 <> Server.RFB_VERSION
  /\ sent_bytes
       (Stream.trace
          (Stream.run 6
             (Stream.start (Server.handle_client Struct.LittleEndian)
                           [Stream.Data RFB_003_003])))
     = Server.RFB_VERSION ++ [x01; x01]
  /\ Stream.returned
       (Stream.run 6
          (Stream.start (Server.handle_client Struct.LittleEndian)
                        [Stream.Data RFB_003_003]))
     = None.
Proof.
  split; [discriminate | vm_compute; split; reflexivity].
Qed.

(** C3, as the code has it: the server does not compare the selection with
    what it offered.  After a twelve-byte version, whatever [recv(1)]
    returned, the server sends security result 0 exactly when it got one
    byte, whichever security type that byte names; otherwise the handshake
    ends there and no result is sent. *)
Theorem server_accepts_any_security_selection
    (bo : Struct.byteorder) (client_version security_selection : bytes)
    (rest : list Stream.arrival) (k : nat) :
  server_accepts client_version = true ->
  length security_selection <= 1 ->
  let s := Stream.run (10 + k)
             (Stream.start (Server.handle_client bo)
                (Stream.Data client_version
                 :: Stream.Data security_selection :: rest)) in
  exists more,
    sent_bytes (Stream.trace s)
    = Server.RFB_VERSION ++ [x01; x01]
      ++ (if length security_selection =? 1
          then [x00; x00; x00; x00] ++ more else [])
    /\ (if length security_selection =? 1 then True
        else Stream.returned s = Some (Ok tt) /\ Stream.closed s = true).
Proof.
  intros Hv Hlen s; subst s. unfold server_accepts in Hv.
  apply andb_prop in Hv. destruct Hv as [H12 Hdec].
  destruct (Str.decode_utf8 client_version) as [decoded|] eqn:Ed;
    [clear Hdec | discriminate].
  cbn. rewrite take_all by (apply Nat.eqb_eq in H12; rewrite H12; cbn; lia).
  cbn. rewrite H12. cbn. rewrite Ed. cbn.
  rewrite take_all by (cbn; lia). cbn.
  destruct security_selection as [|b [|b' tl]]; cbn in Hlen |- *.
  - exists []. stream_halt. repeat split.
  - match goal with
    | |- context [Stream.run k ?s0] =>
        destruct (stream_sent_extends k s0) as [more Hmore];
        exists more; rewrite Hmore
    end.
    split; [reflexivity | exact I].
  - lia.
Qed.

(** The server answers 0 to a client that selects VNC authentication. *)
Lemma server_accepts_any_security_selection_witness :
  server_accepts Server.RFB_VERSION = true
  /\ length [x02] <= 1
  /\ exists more,
       sent_bytes
         (Stream.trace
            (Stream.run (10 + 0)
               (Stream.start (Server.handle_client Struct.BigEndian)
                  [Stream.Data Server.RFB_VERSION; Stream.Data [x02]])))
       = Server.RFB_VERSION ++ [x01; x01]
         ++ (if length [x02] =? 1 then [x00; x00; x00; x00] ++ more else [])
       /\ (if length [x02] =? 1 then True
           else Stream.returned
                  (Stream.run (10 + 0)
                     (Stream.start (Server.handle_client Struct.BigEndian)
                        [Stream.Data Server.RFB_VERSION; Stream.Data [x02]]))
                = Some (Ok tt)
                /\ Stream.closed
                     (Stream.run (10 + 0)
                        (Stream.start (Server.handle_client Struct.BigEndian)
                           [Stream.Data Server.RFB_VERSION; Stream.Data [x02]]))
                   = true).
Proof.
  split; [reflexivity |]. split; [simpl; lia |].
  apply (@server_accepts_any_security_selection
           Struct.BigEndian Server.RFB_VERSION [x02] [] 0).
  - reflexivity.
  - simpl; lia.
Defined.

(** C3, as stated, fails: the server offered only type 1; a client that
    selects type 2 is sent the success result and the handshake goes on
    (the server next waits for ClientInit). *)
Lemma server_accepts_unoffered_security_type :
  ~ In (Struct.u8 x02) offered
  /\ sent_bytes
       (Stream.trace
          (Stream.run 10
             (Stream.start (Server.handle_client Struct.LittleEndian)
                [Stream.Data Server.RFB_VERSION; Stream.Data [x02];
                 Stream.Silence])))
     = Server.RFB_VERSION ++ [x01; x01] ++ [x00; x00; x00; x00]
  /\ printed
       (Stream.trace
          (Stream.run 10
             (Stream.start (Server.handle_client Struct.LittleEndian)
                [Stream.Data Server.RFB_VERSION; Stream.Data [x02];
                 Stream.Silence])))
     = [Server.SentRFBVersion;
        Server.ReceivedClientVersion (version_str Server.RFB_VERSION);
        Server.SentSecurityTypes;
        Server.ClientSelectedSecurityType 2;
        Server.SentSecurityResultOK].
Proof.
  split.
  - intros [H | []]. discriminate H.
  - vm_compute. split; reflexivity.
Qed.

(** ** The session loop of the server *)

Ltac iteration_done :=
  stream_halt; rewrite <- ?app_assoc;
  repeat split; eexists; split; [reflexivity |]; cbn; rewrite ?app_nil_r;
  repeat split.

(** C9, as the code has it: one pass of the session loop sets the one-second
    timeout, performs a single [recv] of up to 1024 bytes and dispatches
    once, on the first byte of whatever that read returned; the line it logs
    carries the length of the whole read, the bytes after the first are not
    decoded, and the loop goes on.  This holds from any state of an open
    socket, so for every pass. *)
Theorem session_iteration_dispatches_once_per_read
    (b0 : byte) (tail : bytes) (rest : list Stream.arrival)
    (tmo : option Q) (tr : list (event Server.line)) (k : nat) :
  length (b0 :: tail) <= 1024 ->
  let s := Stream.run (6 + k)
             (Stream.mk_state Server.session_iteration
                (Stream.Data (b0 :: tail) :: rest) tmo false tr) in
  Stream.returned s = Some (Ok Continue)
  /\ Stream.incoming s = rest
  /\ exists es,
       Stream.trace s = tr ++ es
       /\ recv_calls es = [(1024%N, Some 1%Q)]
       /\ received_bytes es = b0 :: tail
       /\ printed es
          = Server.ReceivedMessageType (Struct.u8 b0) (length (b0 :: tail))
            :: dispatch_lines (Struct.u8 b0)
       /\ sent_bytes es
          = if (Struct.u8 b0 =? 3)%N then empty_framebuffer_update else [].
Proof.
  intros Hlen s; subst s. unfold dispatch_lines.
  cbn. rewrite take_all by (cbn in *; lia). cbn.
  remember (Struct.u8 b0) as t eqn:Et. clear Et.
  destruct (N.eqb_spec t 0) as [-> | H0]; cbn; [iteration_done |].
  destruct (N.eqb_spec t 2) as [-> | H2]; cbn; [iteration_done |].
  destruct (N.eqb_spec t 3) as [-> | H3]; cbn; [iteration_done |].
  destruct (N.eqb_spec t 4) as [-> | H4]; cbn; [iteration_done |].
  destruct (N.eqb_spec t 5) as [-> | H5]; cbn; [iteration_done |].
  destruct (N.eqb_spec t 6) as [-> | H6]; cbn; iteration_done.
Qed.

(** The pass of the loop that reads a whole FramebufferUpdateRequest and a
    whole KeyEvent at once. *)
Lemma session_iteration_dispatches_once_per_read_witness :
  length (x03 :: tl two_messages) <= 1024
  /\ let s := Stream.run (6 + 0)
                (Stream.mk_state Server.session_iteration
                   [Stream.Data (x03 :: tl two_messages)] None false []) in
     Stream.returned s = Some (Ok Continue)
     /\ Stream.incoming s = []
     /\ exists es,
          Stream.trace s = [] ++ es
          /\ recv_calls es = [(1024%N, Some 1%Q)]
          /\ received_bytes es = x03 :: tl two_messages
          /\ printed es
             = Server.ReceivedMessageType (Struct.u8 x03)
                 (length (x03 :: tl two_messages))
               :: dispatch_lines (Struct.u8 x03)
          /\ sent_bytes es
             = if (Struct.u8 x03 =? 3)%N then empty_framebuffer_update else [].
Proof.
  split; [vm_compute; lia |].
  apply (@session_iteration_dispatches_once_per_read
           x03 (tl two_messages) [] None [] 0).
  vm_compute; lia.
Defined.

(** C9, as stated, fails: a FramebufferUpdateRequest followed by a KeyEvent
    in one burst is taken by a single [recv] of 18 bytes and dispatched
    once, as message type 3; the KeyEvent is never dispatched.  In two
    bursts the same bytes are dispatched twice. *)
Lemma session_loop_coalesces_two_messages :
  In (ERecv 1024 (Some 1%Q) (Received two_messages))
     (Stream.trace (server_session [Stream.Data two_messages]))
  /\ printed (Stream.trace (server_session [Stream.Data two_messages]))
     = server_handshake_lines
       ++ [Server.ReceivedMessageType 3 18;
           Server.FramebufferUpdateRequestMessage;
           Server.SentEmptyFramebufferUpdate;
           Server.ClientDisconnected;
           Server.ConnectionClosed]
  /\ ~ In Server.KeyEventMessage
         (printed (Stream.trace (server_session [Stream.Data two_messages])))
  /\ Stream.returned (server_session [Stream.Data two_messages])
     = Some (Ok tt)
  /\ printed
       (Stream.trace
          (server_session
             [Stream.Data fbur_1024_768; Stream.Data key_event_A]))
     = server_handshake_lines
       ++ [Server.ReceivedMessageType 3 10;
           Server.FramebufferUpdateRequestMessage;
           Server.SentEmptyFramebufferUpdate;
           Server.ReceivedMessageType 4 8;
           Server.KeyEventMessage;
           Server.ClientDisconnected;
           Server.ConnectionClosed].
Proof.
  vm_compute. repeat split; auto 40.
  intros H; repeat (destruct H as [H | H]; [discriminate H |]); exact H.
Qed.

(** ** Scenario B: a FramebufferUpdateRequest *)

(** C6: in the run of the two scripts the established client sends
    FramebufferUpdateRequest{0, 0, 0, 1024, 768}; the server reads it,
    answers with the four bytes of a FramebufferUpdate without rectangles
    (type 0, padding, count 0), which the client receives, and goes round
    its loop again to the next [recv].  The pass of the loop that handles
    the request ends with "continue" from any state, and a server whose
    client stays connected is still in its loop after further timeouts and
    messages. *)
Theorem scenario_B_empty_framebuffer_update (bo : Struct.byteorder) (k : nat) :
  (let w := Wire.run (64 + k) (scenario bo) in
   In (ESend fbur_1024_768) (Wire.trace (Wire.client w))
   /\ Wire.trace (Wire.server w)
      = server_handshake_trace bo
        ++ [ESettimeout (Some 1%Q);
            ERecv 1024 (Some 1%Q) (Received fbur_1024_768);
            EPrint (Server.ReceivedMessageType 3 10);
            EPrint Server.FramebufferUpdateRequestMessage;
            ESend empty_framebuffer_update;
            EPrint Server.SentEmptyFramebufferUpdate;
            ESettimeout (Some 1%Q);
            ERecv 1024 (Some 1%Q) (Received []);
            EPrint Server.ClientDisconnected;
            EClose;
            EPrint Server.ConnectionClosed]
   /\ In (ERecv 4 (Some 2%Q) (Received empty_framebuffer_update))
         (Wire.trace (Wire.client w)))
  /\ (forall rest tmo tr,
        let s := Stream.run (6 + k)
                   (Stream.mk_state Server.session_iteration
                      (Stream.Data fbur_1024_768 :: rest) tmo false tr) in
        Stream.returned s = Some (Ok Continue)
        /\ Stream.incoming s = rest
        /\ sent_bytes (Stream.trace s)
           = sent_bytes tr ++ empty_framebuffer_update)
  /\ (let s := Stream.run 36
                 (Stream.start (Server.handle_client bo)
                    (client_side_of_handshake
                     ++ [Stream.Data fbur_1024_768; Stream.Silence;
                         Stream.Data key_event_A; Stream.Silence])) in
      Stream.returned s = None
      /\ Stream.closed s = false
      /\ Stream.incoming s = []
      /\ skipn 9 (printed (Stream.trace s))
         = [Server.ReceivedMessageType 3 10;
            Server.FramebufferUpdateRequestMessage;
            Server.SentEmptyFramebufferUpdate;
            Server.ReceivedMessageType 4 8;
            Server.KeyEventMessage]).
Proof.
  split; [| split].
  - cbv zeta. rewrite scenario_halts.
    destruct bo; vm_compute; repeat split; auto 60.
  - intros rest tmo tr s; subst s. cbn.
    rewrite take_all by (vm_compute; lia). cbn. stream_halt.
    rewrite !sent_bytes_app, !app_nil_r. repeat split.
  - destruct bo; vm_compute; repeat split.
Qed.

(** ** The client's handshake *)

Ltac stream_extend k :=
  match goal with
  | |- context [Stream.run k ?s0] =>
      let es := fresh "es" in
      let Hes := fresh "Hes" in
      destruct (stream_run_trace k s0) as [es Hes]; cbn in Hes;
      rewrite <- ?app_assoc in Hes; cbn in Hes
  end.

(** C10, as the code has it: the client goes on exactly when the twelve
    bytes are ASCII and their decoding, stripped of leading and trailing
    white space, begins with "RFB 003." (any minor version).  When it goes
    on, it sends back the very bytes it received and then asks for the
    security types; when it does not, it returns [False] and has sent
    nothing. *)
Theorem client_version_check
    (server_version after : bytes) (rest : list Stream.arrival) (k : nat) :
  length server_version = 12 ->
  let s := Stream.run (9 + k)
             (Stream.start Client.test_vnc_handshake
                (Stream.Data (server_version ++ after) :: rest)) in
  if client_accepts server_version
  then exists r es,
         Stream.trace s = client_version_trace server_version r ++ es
  else Stream.returned s = Some (Ok false)
       /\ sent_bytes (Stream.trace s) = []
       /\ recv_calls (Stream.trace s) = [(12%N, Some 5%Q)].
Proof.
  intros Hlen s; subst s.
  unfold client_accepts, client_version_trace, version_str.
  cbn. rewrite take_app by (rewrite Hlen; reflexivity). cbn.
  rewrite Hlen. cbn.
  destruct (Str.decode_ascii server_version) as [decoded|e] eqn:Ed; cbn.
  - destruct (Str.startswith (Str.strip decoded) Client.RFB_003) eqn:Es; cbn.
    + destruct after as [|a after]; cbn;
        [destruct rest as [|[d| |e] rest]; cbn;
         try (destruct (take 1 d) as [got left]; cbn)
        | rewrite take_one; cbn];
        stream_extend k; eexists _, _; exact Hes.
    + stream_halt. repeat split.
  - destruct e; cbn; stream_halt; repeat split.
Qed.

(** The client goes on with "RFB 003.003". *)
Lemma client_version_check_witness :
  length RFB_003_003 = 12
  /\ if client_accepts RFB_003_003
     then exists r es,
            Stream.trace
              (Stream.run (9 + 0)
                 (Stream.start Client.test_vnc_handshake
                               [Stream.Data RFB_003_003]))
            = client_version_trace RFB_003_003 r ++ es
     else Stream.returned
            (Stream.run (9 + 0)
               (Stream.start Client.test_vnc_handshake
                             [Stream.Data RFB_003_003]))
          = Some (Ok false)
          /\ sent_bytes
               (Stream.trace
                  (Stream.run (9 + 0)
                     (Stream.start Client.test_vnc_handshake
                                   [Stream.Data RFB_003_003])))
             = []
          /\ recv_calls
               (Stream.trace
                  (Stream.run (9 + 0)
                     (Stream.start Client.test_vnc_handshake
                                   [Stream.Data RFB_003_003])))
             = [(12%N, Some 5%Q)].
Proof.
  split; [reflexivity |].
  apply (@client_version_check RFB_003_003 [] [] 0). reflexivity.
Defined.

(** C10, as stated, fails: the ASCII decoding of the twelve bytes
    " RFB 003.08\n" begins with a space, not with "RFB 003.", and yet the
    client goes on: it sends the twelve bytes back and asks for the
    security types. *)
Lemma client_accepts_padded_version :
  length padded_version = 12
  /\ decoding_begins_with_RFB_003 padded_version = false
  /\ sent_bytes
       (Stream.trace
          (Stream.run 9
             (Stream.start Client.test_vnc_handshake
                           [Stream.Data padded_version])))
     = padded_version
  /\ recv_calls
       (Stream.trace
          (Stream.run 9
             (Stream.start Client.test_vnc_handshake
                           [Stream.Data padded_version])))
     = [(12%N, Some 5%Q); (1%N, Some 5%Q)].
Proof.
  vm_compute. repeat split.
Qed.

(** Case analysis on whatever the run is waiting for: the next arrival,
    what a [recv] cut off it, the outcome of a decoder or of a test. *)
Ltac split_stuck :=
  match goal with
  | |- context [match ?x with _ => _ end] => is_var x; destruct x
  | |- context [take ?n ?d] =>
      let got := fresh "got" in
      let left := fresh "left" in
      destruct (take n d) as [got left]
  | |- context [Str.decode_utf8 ?b] => destruct (Str.decode_utf8 b)
  | |- context [Struct.unpack_I_be ?b] => destruct (Struct.unpack_I_be b)
  | |- context [Struct.unpack_B ?b] => destruct (Struct.unpack_B b)
  | |- context [if (?a =? ?b)%N then _ else _] => destruct (a =? b)%N eqn:?
  end.

Ltac crank :=
  repeat (cbn; first [progress stream_halt | split_stuck]); cbn.

(** After an offer of zero security types the client fails and sends
    nothing more, whatever arrives next; it reads at most twice. *)
Lemma client_refused_general
    (server_version after : bytes) (rest : list Stream.arrival) (k : nat) :
  length server_version = 12 ->
  client_accepts server_version = true ->
  let s := Stream.run (14 + k)
             (Stream.start Client.test_vnc_handshake
                (Stream.Data server_version
                 :: Stream.Data (x00 :: after) :: rest)) in
  Stream.returned s = Some (Ok false)
  /\ sent_bytes (Stream.trace s) = server_version
  /\ length (recv_calls (Stream.trace s)) <= 4.
Proof.
  intros Hlen Hacc s; subst s. unfold client_accepts in Hacc.
  destruct (Str.decode_ascii server_version) as [decoded|] eqn:Ed;
    [| discriminate].
  cbn. rewrite take_all by (rewrite Hlen; cbn; lia). cbn.
  rewrite Hlen. cbn. rewrite Ed. cbn. rewrite Hacc. cbn.
  change (x00 :: after) with ([x00] ++ after).
  rewrite take_app by reflexivity. cbn.
  crank; rewrite ?app_nil_r; repeat split; cbn; lia.
Qed.

Lemma unpack_I_be_length (b : bytes) (v : N) :
  Struct.unpack_I_be b = Ok v -> length b = 4.
Proof.
  destruct b as [|b0 [|b1 [|b2 [|b3 [|b4 b]]]]]; simpl; intros H;
    (discriminate H || reflexivity).
Qed.

(** When the reason string follows the zero count, the client reads its
    four-byte length and then the string itself, and nothing after it. *)
Lemma client_refused_reads_reason
    (server_version len_bytes reason extra : bytes) (reason_length : N)
    (rest : list Stream.arrival) (k : nat) :
  length server_version = 12 ->
  client_accepts server_version = true ->
  Struct.unpack_I_be len_bytes = Ok reason_length ->
  length reason = N.to_nat reason_length ->
  let s := Stream.run (14 + k)
             (Stream.start Client.test_vnc_handshake
                (Stream.Data server_version
                 :: Stream.Data (x00 :: len_bytes ++ reason ++ extra)
                 :: rest)) in
  received_bytes (Stream.trace s)
    = server_version ++ [x00] ++ len_bytes ++ reason
  /\ Stream.incoming s = unread extra rest
  /\ recv_calls (Stream.trace s)
     = [(12%N, Some 5%Q); (1%N, Some 5%Q); (4%N, Some 5%Q);
        (reason_length, Some 5%Q)]
  /\ forall text,
       Str.decode_utf8 reason = Ok text ->
       printed (Stream.trace s)
       = client_lines_to_offer server_version 0
         ++ [Client.ConnectionFailed text].
Proof.
  intros Hlen Hacc Hunpack Hreason s; subst s.
  unfold client_accepts in Hacc. unfold client_lines_to_offer, version_str.
  destruct (Str.decode_ascii server_version) as [decoded|] eqn:Ed;
    [| discriminate].
  pose proof (unpack_I_be_length _ Hunpack) as Hlen4.
  cbn. rewrite take_all by (rewrite Hlen; cbn; lia). cbn.
  rewrite Hlen. cbn. rewrite Ed. cbn. rewrite Hacc. cbn.
  change (x00 :: len_bytes ++ reason ++ extra)
    with ([x00] ++ len_bytes ++ reason ++ extra).
  rewrite take_app by reflexivity. cbn.
  destruct len_bytes as [|b0 len_bytes]; [discriminate Hlen4 |].
  cbn. change (b0 :: len_bytes ++ reason ++ extra)
         with ((b0 :: len_bytes) ++ reason ++ extra).
  rewrite take_app by (rewrite Hlen4; reflexivity). cbn.
  rewrite Hunpack. cbn.
  destruct (N.eqb_spec reason_length 0) as [-> | Hnz]; cbn.
  - destruct reason; [| discriminate Hreason].
    cbn. replace (Str.decode_utf8 []) with (@Ok str []) by reflexivity.
    cbn. stream_halt. rewrite !app_nil_r.
    repeat split. intros text Ht. cbv in Ht. now inversion Ht.
  - destruct reason as [|r0 reason]; [cbn in Hreason; lia |].
    cbn. change (r0 :: reason ++ extra) with ((r0 :: reason) ++ extra).
    rewrite take_app by exact Hreason. cbn.
    destruct (Str.decode_utf8 (r0 :: reason)) as [text0|e] eqn:Et; cbn.
    + stream_halt. rewrite !app_nil_r.
      repeat split. intros text Ht. now inversion Ht.
    + destruct e; cbn; stream_halt; rewrite !app_nil_r;
        repeat split; intros text Ht; discriminate Ht.
Qed.

(** When only a part of the reason has arrived with its length, the one
    [recv(reason_length)] returns that part: the client reports it as the
    reason and reads nothing of what arrives later. *)
Lemma client_refused_reads_part
    (server_version len_bytes part : bytes) (reason_length : N)
    (rest : list Stream.arrival) (k : nat) :
  length server_version = 12 ->
  client_accepts server_version = true ->
  Struct.unpack_I_be len_bytes = Ok reason_length ->
  part <> [] ->
  length part < N.to_nat reason_length ->
  let s := Stream.run (14 + k)
             (Stream.start Client.test_vnc_handshake
                (Stream.Data server_version
                 :: Stream.Data (x00 :: len_bytes ++ part)
                 :: rest)) in
  received_bytes (Stream.trace s)
    = server_version ++ [x00] ++ len_bytes ++ part
  /\ Stream.incoming s = rest
  /\ recv_calls (Stream.trace s)
     = [(12%N, Some 5%Q); (1%N, Some 5%Q); (4%N, Some 5%Q);
        (reason_length, Some 5%Q)]
  /\ forall text,
       Str.decode_utf8 part = Ok text ->
       printed (Stream.trace s)
       = client_lines_to_offer server_version 0
         ++ [Client.ConnectionFailed text].
Proof.
  intros Hlen Hacc Hunpack Hpart Hshort s; subst s.
  unfold client_accepts in Hacc. unfold client_lines_to_offer, version_str.
  destruct (Str.decode_ascii server_version) as [decoded|] eqn:Ed;
    [| discriminate].
  pose proof (unpack_I_be_length _ Hunpack) as Hlen4.
  cbn. rewrite take_all by (rewrite Hlen; cbn; lia). cbn.
  rewrite Hlen. cbn. rewrite Ed. cbn. rewrite Hacc. cbn.
  change (x00 :: len_bytes ++ part) with ([x00] ++ len_bytes ++ part).
  rewrite take_app by reflexivity. cbn.
  destruct len_bytes as [|b0 len_bytes]; [discriminate Hlen4 |].
  cbn. change (b0 :: len_bytes ++ part) with ((b0 :: len_bytes) ++ part).
  rewrite take_app by (rewrite Hlen4; reflexivity). cbn.
  rewrite Hunpack. cbn.
  destruct (N.eqb_spec reason_length 0) as [-> | Hnz]; [cbn in Hshort; lia |].
  destruct part as [|r0 part]; [now elim Hpart |].
  cbn. rewrite take_all by lia. cbn.
  destruct (Str.decode_utf8 (r0 :: part)) as [text0|e] eqn:Et; cbn.
  - stream_halt. rewrite !app_nil_r.
    repeat split. intros text Ht. now inversion Ht.
  - destruct e; cbn; stream_halt; rewrite !app_nil_r;
      repeat split; intros text Ht; discriminate Ht.
Qed.

(** C4, as the code has it: for every security offer whose count is 0 the
    client fails: it returns [False] and sends nothing from the offer on, in
    particular no ClientInit (all it has ever sent is the version echo),
    whatever follows the count.  For the reason it makes one [recv(4)] and
    one [recv(reason_length)], no more.  When the length and the whole reason
    have arrived with the count, these two reads take exactly the length and
    the reason string; when only a part of the reason has arrived with the
    length, they take that part, and what arrives later stays unread. *)
Theorem client_refused_by_empty_offer
    (server_version after : bytes) (rest : list Stream.arrival) (k : nat) :
  length server_version = 12 ->
  client_accepts server_version = true ->
  let s := Stream.run (14 + k)
             (Stream.start Client.test_vnc_handshake
                (Stream.Data server_version
                 :: Stream.Data (x00 :: after) :: rest)) in
  Stream.returned s = Some (Ok false)
  /\ sent_bytes (Stream.trace s) = server_version
  /\ length (recv_calls (Stream.trace s)) <= 4
  /\ (forall len_bytes reason extra reason_length,
       after = len_bytes ++ reason ++ extra ->
       Struct.unpack_I_be len_bytes = Ok reason_length ->
       length reason = N.to_nat reason_length ->
       received_bytes (Stream.trace s)
         = server_version ++ [x00] ++ len_bytes ++ reason
       /\ Stream.incoming s = unread extra rest
       /\ recv_calls (Stream.trace s)
          = [(12%N, Some 5%Q); (1%N, Some 5%Q); (4%N, Some 5%Q);
             (reason_length, Some 5%Q)]
       /\ forall text,
            Str.decode_utf8 reason = Ok text ->
            printed (Stream.trace s)
            = client_lines_to_offer server_version 0
              ++ [Client.ConnectionFailed text])
  /\ (forall len_bytes part reason_length,
       after = len_bytes ++ part ->
       Struct.unpack_I_be len_bytes = Ok reason_length ->
       part <> [] ->
       length part < N.to_nat reason_length ->
       received_bytes (Stream.trace s)
         = server_version ++ [x00] ++ len_bytes ++ part
       /\ Stream.incoming s = rest
       /\ recv_calls (Stream.trace s)
          = [(12%N, Some 5%Q); (1%N, Some 5%Q); (4%N, Some 5%Q);
             (reason_length, Some 5%Q)]
       /\ forall text,
            Str.decode_utf8 part = Ok text ->
            printed (Stream.trace s)
            = client_lines_to_offer server_version 0
              ++ [Client.ConnectionFailed text]).
Proof.
  intros Hlen Hacc s.
  destruct (@client_refused_general server_version after rest k Hlen Hacc)
    as (H1 & H2 & H3).
  split; [exact H1 |]. split; [exact H2 |]. split; [exact H3 |].
  split.
  - intros len_bytes reason extra reason_length -> Hl Hr.
    exact (@client_refused_reads_reason server_version len_bytes reason
             extra reason_length rest k Hlen Hacc Hl Hr).
  - intros len_bytes part reason_length -> Hl Hp Hs.
    exact (@client_refused_reads_part server_version len_bytes part
             reason_length rest k Hlen Hacc Hl Hp Hs).
Qed.

(** A client that is told "0 types, busy" fails without sending more than
    its version echo, and leaves the byte after the reason unread. *)
Lemma client_refused_by_empty_offer_witness :
  length Server.RFB_VERSION = 12
  /\ client_accepts Server.RFB_VERSION = true
  /\ Stream.returned
       (Stream.run (14 + 0)
          (Stream.start Client.test_vnc_handshake
             [Stream.Data Server.RFB_VERSION; Stream.Data (x00 :: refusal)]))
     = Some (Ok false)
  /\ sent_bytes
       (Stream.trace
          (Stream.run (14 + 0)
             (Stream.start Client.test_vnc_handshake
                [Stream.Data Server.RFB_VERSION;
                 Stream.Data (x00 :: refusal)])))
     = Server.RFB_VERSION
  /\ Stream.incoming
       (Stream.run (14 + 0)
          (Stream.start Client.test_vnc_handshake
             [Stream.Data Server.RFB_VERSION; Stream.Data (x00 :: refusal)]))
     = [Stream.Data [x07]].
Proof.
  split; [reflexivity |]. split; [reflexivity |].
  destruct (@client_refused_by_empty_offer
              Server.RFB_VERSION refusal [] 0 eq_refl eq_refl)
    as (H1 & H2 & _ & H4 & _).
  split; [exact H1 |]. split; [exact H2 |].
  destruct (H4 [x00; x00; x00; x04] refusal_reason [x07] 4%N
               eq_refl eq_refl eq_refl) as (_ & R2 & _).
  exact R2.
Defined.

(** C4, as stated, fails: the reason "busy" is announced with its length 4,
    but only "bu" has arrived with the length, "sy" comes in the next
    segment.  The single [recv(4)] of line 54 returns "bu": the client
    reports the reason "bu", returns [False], and "sy" is never read. *)
Lemma client_reads_part_of_refusal_reason :
  let s := Stream.run 14
             (Stream.start Client.test_vnc_handshake
                [Stream.Data Server.RFB_VERSION;
                 Stream.Data (x00 :: refusal_first_piece);
                 Stream.Data refusal_second_piece]) in
  [x00; x00; x00; x04] ++ refusal_reason
    = refusal_first_piece ++ refusal_second_piece
  /\ Stream.returned s = Some (Ok false)
  /\ received_bytes (Stream.trace s)
     = Server.RFB_VERSION ++ [x00] ++ refusal_first_piece
  /\ printed (Stream.trace s)
     = client_lines_to_offer Server.RFB_VERSION 0
       ++ [Client.ConnectionFailed (Str.lit ["b"; "u"]%byte)]
  /\ Stream.incoming s = [Stream.Data refusal_second_piece].
Proof. vm_compute. repeat split. Qed.

(** The loop that reads the offered security types takes one step for each
    byte of the burst [types] and appends the types to its list. *)
Lemma run_recv_security_types
    (G : list N -> M Client.line bool)
    (H : result bool -> proc Client.line (result bool))
    (rest : list Stream.arrival) (m : nat) (types : bytes) :
  forall (security_types : list N) (tr : list (event Client.line)),
    Stream.run (length types + m)
      (Stream.mk_state
         (pbind (bind (Client.recv_security_types (length types)
                         security_types) G) H)
         (match types with
          | [] => rest
          | _ :: _ => Stream.Data types :: rest
          end)
         (Some 5%Q) false tr)
    = Stream.run m
        (Stream.mk_state
           (pbind (G (security_types ++ map Struct.u8 types)) H)
           rest (Some 5%Q) false (tr ++ offer_events types)).
Proof.
  unfold bind.
  induction types as [|b types IH]; intros security_types tr.
  - cbn. now rewrite !app_nil_r.
  - change (length (b :: types) + m) with (S (length types + m)).
    cbn [Stream.run]. unfold Stream.step at 1. cbn.
    rewrite take_one. cbn. rewrite IH.
    now rewrite <- !app_assoc.
Qed.

Lemma offers_none_nonempty (count : byte) (types : bytes) :
  N.to_nat (Struct.u8 count) = length types ->
  offers_none types = true ->
  (Struct.u8 count =? 0)%N = false.
Proof.
  intros Hcount Hnone. apply N.eqb_neq. intros E. rewrite E in Hcount.
  destruct types; [discriminate Hnone | discriminate Hcount].
Qed.

(** The client's run up to the loop that reads the offered types. *)
Ltac client_to_offer Hlen Ed Hacc Hcount Hnone :=
  cbn; rewrite take_all by (rewrite Hlen; cbn; lia); cbn;
  rewrite Hlen; cbn; rewrite Ed; cbn; rewrite Hacc; cbn;
  rewrite take_one; cbn;
  rewrite (offers_none_nonempty _ _ Hcount Hnone); cbn;
  rewrite Hcount.

(** After a security result of 0 the client sends ClientInit. *)
Lemma client_result_ok
    (server_version : bytes) (count : byte)
    (types result_bytes after : bytes)
    (rest : list Stream.arrival) (k : nat) :
  length server_version = 12 ->
  client_accepts server_version = true ->
  N.to_nat (Struct.u8 count) = length types ->
  offers_none types = true ->
  Struct.unpack_I_be result_bytes = Ok 0%N ->
  exists es,
    Stream.trace
      (Stream.run (20 + length types + k)
         (Stream.start Client.test_vnc_handshake
            (Stream.Data server_version :: Stream.Data (count :: types)
             :: Stream.Data (result_bytes ++ after) :: rest)))
    = client_trace_to_result server_version count types result_bytes
      ++ [EPrint Client.SecurityResultOK; ESend [x01];
          EPrint (Client.SentClientInit 1)]
      ++ es.
Proof.
  intros Hlen Hacc Hcount Hnone Hunpack.
  unfold client_accepts in Hacc. unfold client_trace_to_result, version_str.
  destruct (Str.decode_ascii server_version) as [decoded|] eqn:Ed;
    [| discriminate].
  pose proof (unpack_I_be_length _ Hunpack) as Hlen4.
  replace (20 + length types + k)
    with (10 + (length types + (7 + (3 + k)))) by lia.
  rewrite (stream_run_add 10).
  remember (length types + (7 + (3 + k))) as f eqn:Ef.
  client_to_offer Hlen Ed Hacc Hcount Hnone.
  subst f. rewrite run_recv_security_types.
  rewrite (stream_run_add 7). remember (3 + k) as f eqn:Ef.
  cbn. unfold offers_none in Hnone. rewrite Hnone. cbn.
  rewrite take_app by (rewrite Hlen4; reflexivity). cbn.
  rewrite Hunpack. cbn.
  match goal with
  | |- context [Stream.run f ?s0] =>
      destruct (stream_run_trace f s0) as [es Hes]; cbn in Hes
  end.
  exists es. rewrite Hes. now rewrite <- !app_assoc.
Qed.

(** The client's run from the offered types to the security result. *)
Ltac client_to_result Hnone Hlen4 :=
  rewrite run_recv_security_types; cbn;
  unfold offers_none in Hnone; rewrite Hnone; cbn;
  first [rewrite take_app by (rewrite Hlen4; reflexivity)
        | rewrite take_all by (rewrite Hlen4; cbn; lia)];
  cbn.

(** After a nonzero security result the client fails; it sends nothing
    more and reads at most twice, whatever arrives. *)
Lemma client_result_failed
    (server_version : bytes) (count : byte)
    (types result_bytes after : bytes) (security_result : N)
    (rest : list Stream.arrival) (k : nat) :
  length server_version = 12 ->
  client_accepts server_version = true ->
  N.to_nat (Struct.u8 count) = length types ->
  offers_none types = true ->
  Struct.unpack_I_be result_bytes = Ok security_result ->
  security_result <> 0%N ->
  let s := Stream.run (20 + length types + k)
             (Stream.start Client.test_vnc_handshake
                (Stream.Data server_version :: Stream.Data (count :: types)
                 :: Stream.Data (result_bytes ++ after) :: rest)) in
  Stream.returned s = Some (Ok false)
  /\ exists es,
       Stream.trace s
       = client_trace_to_result server_version count types result_bytes
         ++ EPrint (Client.SecurityHandshakeFailed security_result) :: es
       /\ sent_bytes es = []
       /\ length (recv_calls es) <= 2.
Proof.
  intros Hlen Hacc Hcount Hnone Hunpack Hnz s; subst s.
  unfold client_accepts in Hacc. unfold client_trace_to_result, version_str.
  destruct (Str.decode_ascii server_version) as [decoded|] eqn:Ed;
    [| discriminate].
  pose proof (unpack_I_be_length _ Hunpack) as Hlen4.
  apply N.eqb_neq in Hnz.
  replace (20 + length types + k)
    with (10 + (length types + (10 + k))) by lia.
  rewrite (stream_run_add 10).
  remember (length types + (10 + k)) as f eqn:Ef.
  client_to_offer Hlen Ed Hacc Hcount Hnone.
  subst f. client_to_result Hnone Hlen4.
  rewrite Hunpack. cbn. rewrite Hnz.
  crank.
  all: split; [reflexivity |].
  all: eexists; split; [rewrite <- !app_assoc; cbn; reflexivity |].
  all: cbn; split; [reflexivity | lia].
Qed.

(** When the reason string follows a nonzero result, the client reads its
    four-byte length and then the string itself, and nothing after it. *)
Lemma client_result_failed_reads_reason
    (server_version : bytes) (count : byte)
    (types result_bytes len_bytes reason extra : bytes)
    (security_result reason_length : N)
    (rest : list Stream.arrival) (k : nat) :
  length server_version = 12 ->
  client_accepts server_version = true ->
  N.to_nat (Struct.u8 count) = length types ->
  offers_none types = true ->
  Struct.unpack_I_be result_bytes = Ok security_result ->
  security_result <> 0%N ->
  Struct.unpack_I_be len_bytes = Ok reason_length ->
  length reason = N.to_nat reason_length ->
  let s := Stream.run (20 + length types + k)
             (Stream.start Client.test_vnc_handshake
                (Stream.Data server_version :: Stream.Data (count :: types)
                 :: Stream.Data (result_bytes ++ len_bytes ++ reason ++ extra)
                 :: rest)) in
  exists es,
    Stream.trace s
    = client_trace_to_result server_version count types result_bytes
      ++ EPrint (Client.SecurityHandshakeFailed security_result) :: es
    /\ recv_calls es = [(4%N, Some 5%Q); (reason_length, Some 5%Q)]
    /\ received_bytes es = len_bytes ++ reason
    /\ Stream.incoming s = unread extra rest.
Proof.
  intros Hlen Hacc Hcount Hnone Hunpack Hnz Hunpack' Hreason s; subst s.
  unfold client_accepts in Hacc. unfold client_trace_to_result, version_str.
  destruct (Str.decode_ascii server_version) as [decoded|] eqn:Ed;
    [| discriminate].
  pose proof (unpack_I_be_length _ Hunpack) as Hlen4.
  pose proof (unpack_I_be_length _ Hunpack') as Hlen4'.
  apply N.eqb_neq in Hnz.
  replace (20 + length types + k)
    with (10 + (length types + (10 + k))) by lia.
  rewrite (stream_run_add 10).
  remember (length types + (10 + k)) as f eqn:Ef.
  client_to_offer Hlen Ed Hacc Hcount Hnone.
  subst f. client_to_result Hnone Hlen4.
  rewrite Hunpack. cbn. rewrite Hnz.
  destruct len_bytes as [|b0 len_bytes]; [discriminate Hlen4' |].
  cbn. change (b0 :: len_bytes ++ reason ++ extra)
         with ((b0 :: len_bytes) ++ reason ++ extra).
  rewrite take_app by (rewrite Hlen4'; reflexivity). cbn.
  rewrite Hunpack'. cbn.
  destruct (N.eqb_spec reason_length 0) as [-> | Hnz']; cbn.
  - destruct reason; [| discriminate Hreason].
    cbn. replace (Str.decode_utf8 []) with (@Ok str []) by reflexivity.
    cbn. stream_halt.
    eexists; split; [rewrite <- !app_assoc; cbn; reflexivity |].
    cbn. rewrite !app_nil_r. repeat split.
  - destruct reason as [|r0 reason]; [cbn in Hreason; lia |].
    cbn. change (r0 :: reason ++ extra) with ((r0 :: reason) ++ extra).
    rewrite take_app by exact Hreason. cbn.
    destruct (Str.decode_utf8 (r0 :: reason)) as [text0|e] eqn:Et; cbn;
      stream_halt;
      (eexists; split; [rewrite <- !app_assoc; cbn; reflexivity |]); cbn;
      rewrite !app_nil_r; repeat split.
Qed.

(** When only a part of the reason has arrived with its length, the one
    [recv(reason_length)] returns that part, and the client reads nothing
    of what arrives later. *)
Lemma client_result_failed_reads_part
    (server_version : bytes) (count : byte)
    (types result_bytes len_bytes part : bytes)
    (security_result reason_length : N)
    (rest : list Stream.arrival) (k : nat) :
  length server_version = 12 ->
  client_accepts server_version = true ->
  N.to_nat (Struct.u8 count) = length types ->
  offers_none types = true ->
  Struct.unpack_I_be result_bytes = Ok security_result ->
  security_result <> 0%N ->
  Struct.unpack_I_be len_bytes = Ok reason_length ->
  part <> [] ->
  length part < N.to_nat reason_length ->
  let s := Stream.run (20 + length types + k)
             (Stream.start Client.test_vnc_handshake
                (Stream.Data server_version :: Stream.Data (count :: types)
                 :: Stream.Data (result_bytes ++ len_bytes ++ part)
                 :: rest)) in
  exists es,
    Stream.trace s
    = client_trace_to_result server_version count types result_bytes
      ++ EPrint (Client.SecurityHandshakeFailed security_result) :: es
    /\ recv_calls es = [(4%N, Some 5%Q); (reason_length, Some 5%Q)]
    /\ received_bytes es = len_bytes ++ part
    /\ Stream.incoming s = rest.
Proof.
  intros Hlen Hacc Hcount Hnone Hunpack Hnz Hunpack' Hpart Hshort s; subst s.
  unfold client_accepts in Hacc. unfold client_trace_to_result, version_str.
  destruct (Str.decode_ascii server_version) as [decoded|] eqn:Ed;
    [| discriminate].
  pose proof (unpack_I_be_length _ Hunpack) as Hlen4.
  pose proof (unpack_I_be_length _ Hunpack') as Hlen4'.
  apply N.eqb_neq in Hnz.
  replace (20 + length types + k)
    with (10 + (length types + (10 + k))) by lia.
  rewrite (stream_run_add 10).
  remember (length types + (10 + k)) as f eqn:Ef.
  client_to_offer Hlen Ed Hacc Hcount Hnone.
  subst f. client_to_result Hnone Hlen4.
  rewrite Hunpack. cbn. rewrite Hnz.
  destruct len_bytes as [|b0 len_bytes]; [discriminate Hlen4' |].
  cbn. change (b0 :: len_bytes ++ part) with ((b0 :: len_bytes) ++ part).
  rewrite take_app by (rewrite Hlen4'; reflexivity). cbn.
  rewrite Hunpack'. cbn.
  destruct (N.eqb_spec reason_length 0) as [-> | Hnz'];
    [cbn in Hshort; lia |].
  destruct part as [|r0 part]; [now elim Hpart |].
  cbn. rewrite take_all by lia. cbn.
  destruct (Str.decode_utf8 (r0 :: part)) as [text0|e] eqn:Et; cbn;
    stream_halt;
    (eexists; split; [rewrite <- !app_assoc; cbn; reflexivity |]); cbn;
    rewrite !app_nil_r; repeat split.
Qed.

(** C5, as the code has it: once the client has selected type 1 from the
    offer, when the four-byte security result is 0 it goes on to send
    ClientInit; for every nonzero result it returns [False], sends nothing,
    and makes at most two reads, one [recv(4)] for a length and one
    [recv(reason_length)] for the reason.  When the length and the whole
    reason have arrived with the result, these two reads take exactly the
    length and the reason string and leave what comes after them unread;
    when only a part of the reason has arrived with the length, they take
    that part, and what arrives later stays unread. *)
Theorem client_security_result
    (server_version : bytes) (count : byte)
    (types result_bytes after : bytes) (security_result : N)
    (rest : list Stream.arrival) (k : nat) :
  length server_version = 12 ->
  client_accepts server_version = true ->
  N.to_nat (Struct.u8 count) = length types ->
  offers_none types = true ->
  Struct.unpack_I_be result_bytes = Ok security_result ->
  let s := Stream.run (20 + length types + k)
             (Stream.start Client.test_vnc_handshake
                (Stream.Data server_version :: Stream.Data (count :: types)
                 :: Stream.Data (result_bytes ++ after) :: rest)) in
  if (security_result =? 0)%N then
    exists es,
      Stream.trace s
      = client_trace_to_result server_version count types result_bytes
        ++ [EPrint Client.SecurityResultOK; ESend [x01];
            EPrint (Client.SentClientInit 1)]
        ++ es
  else
    Stream.returned s = Some (Ok false)
    /\ exists es,
         Stream.trace s
         = client_trace_to_result server_version count types result_bytes
           ++ EPrint (Client.SecurityHandshakeFailed security_result) :: es
         /\ sent_bytes es = []
         /\ length (recv_calls es) <= 2
         /\ (forall len_bytes reason extra reason_length,
              after = len_bytes ++ reason ++ extra ->
              Struct.unpack_I_be len_bytes = Ok reason_length ->
              length reason = N.to_nat reason_length ->
              recv_calls es = [(4%N, Some 5%Q); (reason_length, Some 5%Q)]
              /\ received_bytes es = len_bytes ++ reason
              /\ Stream.incoming s = unread extra rest)
         /\ (forall len_bytes part reason_length,
              after = len_bytes ++ part ->
              Struct.unpack_I_be len_bytes = Ok reason_length ->
              part <> [] ->
              length part < N.to_nat reason_length ->
              recv_calls es = [(4%N, Some 5%Q); (reason_length, Some 5%Q)]
              /\ received_bytes es = len_bytes ++ part
              /\ Stream.incoming s = rest).
Proof.
  intros Hlen Hacc Hcount Hnone Hunpack s.
  destruct (N.eqb_spec security_result 0) as [-> | Hnz].
  - exact (@client_result_ok server_version count types result_bytes after
             rest k Hlen Hacc Hcount Hnone Hunpack).
  - destruct (@client_result_failed server_version count types result_bytes
                after security_result rest k Hlen Hacc Hcount Hnone Hunpack
                Hnz)
      as (Hret & es & Htr & Hsent & Hcalls).
    split; [exact Hret |].
    exists es.
    split; [exact Htr |]. split; [exact Hsent |]. split; [exact Hcalls |].
    split.
    + intros len_bytes reason extra reason_length -> Hl Hr.
      destruct (@client_result_failed_reads_reason server_version count
                  types result_bytes len_bytes reason extra security_result
                  reason_length rest k Hlen Hacc Hcount Hnone Hunpack Hnz
                  Hl Hr)
        as (es' & Htr' & R1 & R2 & R3).
      rewrite Htr in Htr'.
      apply app_inv_head in Htr'. injection Htr' as ->.
      split; [exact R1 |]. split; [exact R2 | exact R3].
    + intros len_bytes part reason_length -> Hl Hp Hs.
      destruct (@client_result_failed_reads_part server_version count
                  types result_bytes len_bytes part security_result
                  reason_length rest k Hlen Hacc Hcount Hnone Hunpack Hnz
                  Hl Hp Hs)
        as (es' & Htr' & R1 & R2 & R3).
      rewrite Htr in Htr'.
      apply app_inv_head in Htr'. injection Htr' as ->.
      split; [exact R1 |]. split; [exact R2 | exact R3].
Qed.

(** A client that was offered types 2 and 1 and is told "failed, busy"
    after its selection fails without sending ClientInit, and leaves the
    byte after the reason unread. *)
Lemma client_security_result_witness :
  length Server.RFB_VERSION = 12
  /\ client_accepts Server.RFB_VERSION = true
  /\ N.to_nat (Struct.u8 x02) = length offer_2_1
  /\ offers_none offer_2_1 = true
  /\ Struct.unpack_I_be result_failed = Ok 1%N
  /\ Stream.returned
       (Stream.run (20 + length offer_2_1 + 0)
          (Stream.start Client.test_vnc_handshake
             [Stream.Data Server.RFB_VERSION; Stream.Data (x02 :: offer_2_1);
              Stream.Data (result_failed ++ refusal)]))
     = Some (Ok false)
  /\ sent_bytes
       (Stream.trace
          (Stream.run (20 + length offer_2_1 + 0)
             (Stream.start Client.test_vnc_handshake
                [Stream.Data Server.RFB_VERSION;
                 Stream.Data (x02 :: offer_2_1);
                 Stream.Data (result_failed ++ refusal)])))
     = Server.RFB_VERSION ++ [x01]
  /\ Stream.incoming
       (Stream.run (20 + length offer_2_1 + 0)
          (Stream.start Client.test_vnc_handshake
             [Stream.Data Server.RFB_VERSION; Stream.Data (x02 :: offer_2_1);
              Stream.Data (result_failed ++ refusal)]))
     = [Stream.Data [x07]].
Proof.
  split; [reflexivity |]. split; [reflexivity |]. split; [reflexivity |].
  split; [reflexivity |]. split; [reflexivity |].
  pose proof (@client_security_result
                Server.RFB_VERSION x02 offer_2_1 result_failed refusal 1%N
                [] 0 eq_refl eq_refl eq_refl eq_refl eq_refl) as H.
  cbv beta iota zeta in H.
  change ((1 =? 0)%N) with false in H. cbv iota in H.
  destruct H as (H1 & es & Htr & Hsent & _ & Hreads & _).
  split; [exact H1 |].
  split.
  - rewrite Htr, sent_bytes_app. cbn [sent_bytes]. rewrite Hsent.
    vm_compute. reflexivity.
  - destruct (Hreads [x00; x00; x00; x04] refusal_reason [x07] 4%N
                eq_refl eq_refl eq_refl) as (_ & _ & R3).
    exact R3.
Defined.

(** C5, as stated, fails: after the security result 1 the reason "busy" is
    announced with its length 4, but only "bu" has arrived with the length,
    "sy" comes in the next segment.  The single [recv(4)] of line 80
    returns "bu": the client reports the reason "bu", returns [False], and
    "sy", half of the one reason string, is never read. *)
Lemma client_reads_part_of_failure_reason :
  let s := Stream.run 22
             (Stream.start Client.test_vnc_handshake
                [Stream.Data Server.RFB_VERSION;
                 Stream.Data (x02 :: offer_2_1);
                 Stream.Data (result_failed ++ refusal_first_piece);
                 Stream.Data refusal_second_piece]) in
  [x00; x00; x00; x04] ++ refusal_reason
    = refusal_first_piece ++ refusal_second_piece
  /\ Stream.returned s = Some (Ok false)
  /\ Stream.trace s
     = client_trace_to_result Server.RFB_VERSION x02 offer_2_1 result_failed
       ++ [EPrint (Client.SecurityHandshakeFailed 1);
           ERecv 4 (Some 5%Q) (Received [x00; x00; x00; x04]);
           ERecv 4 (Some 5%Q) (Received ["b"; "u"]%byte);
           EPrint (Client.Reason (Str.lit ["b"; "u"]%byte))]
  /\ Stream.incoming s = [Stream.Data refusal_second_piece].
Proof. vm_compute. repeat split. Qed.

(** ** Scenario C: a truncated ServerInit *)

(** C7: when the read of the 24-byte ServerInit prefix returns fewer than
    24 bytes (the peer closed after 10, say), the client stops there: it
    reports the invalid length (the "truncated frame" failure), returns
    [False], and neither reads further nor reports any framebuffer
    parameter.  It has returned, so it does not hang. *)
Theorem client_truncated_server_init
    (server_version : bytes) (count : byte)
    (types result_bytes partial : bytes)
    (rest : list Stream.arrival) (k : nat) :
  length server_version = 12 ->
  client_accepts server_version = true ->
  N.to_nat (Struct.u8 count) = length types ->
  offers_none types = true ->
  Struct.unpack_I_be result_bytes = Ok 0%N ->
  length partial < 24 ->
  let s := Stream.run (20 + length types + k)
             (Stream.start Client.test_vnc_handshake
                (Stream.Data server_version :: Stream.Data (count :: types)
                 :: Stream.Data result_bytes :: Stream.Data partial
                 :: rest)) in
  Stream.returned s = Some (Ok false)
  /\ Stream.hung s = false
  /\ Stream.incoming s = rest
  /\ Stream.trace s
     = client_trace_to_result server_version count types result_bytes
       ++ [EPrint Client.SecurityResultOK;
           ESend [x01];
           EPrint (Client.SentClientInit 1);
           ERecv 24 (Some 5%Q) (Received partial);
           EPrint (Client.InvalidServerInitLength (length partial))].
Proof.
  intros Hlen Hacc Hcount Hnone Hunpack Hshort s; subst s.
  unfold client_accepts in Hacc. unfold client_trace_to_result, version_str.
  destruct (Str.decode_ascii server_version) as [decoded|] eqn:Ed;
    [| discriminate].
  pose proof (unpack_I_be_length _ Hunpack) as Hlen4.
  replace (20 + length types + k)
    with (10 + (length types + (10 + k))) by lia.
  rewrite (stream_run_add 10).
  remember (length types + (10 + k)) as f eqn:Ef.
  client_to_offer Hlen Ed Hacc Hcount Hnone.
  subst f. client_to_result Hnone Hlen4.
  rewrite Hunpack. cbn.
  rewrite take_all by (cbn; lia). cbn.
  destruct (Nat.eqb_spec (length partial) 24) as [E | _]; [lia |].
  cbn. stream_halt. rewrite <- !app_assoc. repeat split.
Qed.

(** The server closes after ten bytes of ServerInit. *)
Lemma client_truncated_server_init_witness :
  length Server.RFB_VERSION = 12
  /\ client_accepts Server.RFB_VERSION = true
  /\ N.to_nat (Struct.u8 x01) = length [x01]
  /\ offers_none [x01] = true
  /\ Struct.unpack_I_be [x00; x00; x00; x00] = Ok 0%N
  /\ length ten_bytes_of_server_init < 24
  /\ Stream.returned
       (Stream.run (20 + length [x01] + 0)
          (Stream.start Client.test_vnc_handshake
             [Stream.Data Server.RFB_VERSION; Stream.Data [x01; x01];
              Stream.Data [x00; x00; x00; x00];
              Stream.Data ten_bytes_of_server_init]))
     = Some (Ok false)
  /\ In (Client.InvalidServerInitLength 10)
        (printed
           (Stream.trace
              (Stream.run (20 + length [x01] + 0)
                 (Stream.start Client.test_vnc_handshake
                    [Stream.Data Server.RFB_VERSION; Stream.Data [x01; x01];
                     Stream.Data [x00; x00; x00; x00];
                     Stream.Data ten_bytes_of_server_init])))).
Proof.
  split; [reflexivity |]. split; [reflexivity |]. split; [reflexivity |].
  split; [reflexivity |]. split; [reflexivity |].
  split; [vm_compute; lia |].
  destruct (@client_truncated_server_init
              Server.RFB_VERSION x01 [x01] [x00; x00; x00; x00]
              ten_bytes_of_server_init [] 0
              eq_refl eq_refl eq_refl eq_refl eq_refl)
    as (H1 & _ & _ & H3).
  - vm_compute; lia.
  - split; [exact H1 |]. rewrite H3. vm_compute. auto 20.
Defined.

(** ** Timeouts *)

Lemma guarded_loop (G : list N -> M Client.line bool)
    (H : result bool -> proc Client.line (result bool)) :
  (forall acc, guarded (Some 5%Q) (pbind (G acc) H)) ->
  (forall e, guarded (Some 5%Q) (H (Raised e))) ->
  quiet (H (Raised SocketTimeout)) ->
  forall n acc,
    guarded (Some 5%Q) (pbind (bind (Client.recv_security_types n acc) G) H).
Proof.
  intros Hok Herr Hq. induction n as [|n IH]; intros acc; cbn.
  - apply Hok.
  - split; [reflexivity |]. split; [exact Hq |].
    intros [d | e]; cbn; [| apply Herr].
    destruct (Struct.unpack_B d) as [t | e]; cbn; [apply IH | apply Herr].
Qed.

Ltac guard_step :=
  match goal with
  | |- forall _, _ => intro
  | |- _ /\ _ => split
  | |- True => exact I
  | |- _ = _ => reflexivity
  | |- _ = Client.HandshakeCompleted \/ _ => first [left; reflexivity | right]
  | |- guarded _ (pbind (bind (Client.recv_security_types _ _) _) _) =>
      apply guarded_loop
  | |- context [match ?x with _ => _ end] => destruct x
  end.

(** The client sets its timeout before it connects and handles a timeout
    of any handshake read by failing. *)
Lemma client_guarded : guarded None Client.test_vnc_handshake.
Proof.
  unfold Client.test_vnc_handshake.
  repeat (cbn; guard_step).
Qed.

Lemma client_inv_step (s s' : Stream.state Client.line (result bool)) :
  client_inv s -> Stream.step s = Some s' -> client_inv s'.
Proof.
  intros [Hdone | [Hg Hc]] Hstep.
  - left. destruct (stream_step_trace _ Hstep) as [es Hes].
    unfold handshake_completed in *. rewrite Hes, printed_app.
    apply in_or_app. now left.
  - unfold Stream.step in Hstep. rewrite Hc in Hstep.
    destruct s as [p inc tmo cl tr]. cbn in *. subst cl.
    destruct p; cbn in Hg.
    + discriminate Hstep.
    + inversion Hstep; subst. right. cbn. auto.
    + inversion Hstep; subst. right. cbn. auto.
    + inversion Hstep; subst. right. cbn. auto.
    + destruct Hg as (Ht & Hq & Hk).
      destruct (bufsize =? 0)%N;
        [inversion Hstep; subst; right; cbn; auto |].
      destruct inc as [|[d | | e] inc].
      * inversion Hstep; subst. right. cbn. auto.
      * destruct (take bufsize d) as [got left].
        inversion Hstep; subst. right. cbn. auto.
      * rewrite Ht in Hstep. inversion Hstep; subst. right. cbn. auto.
      * inversion Hstep; subst. right. cbn. auto.
    + inversion Hstep; subst. destruct Hg as [-> | Hg].
      * left. unfold handshake_completed. cbn.
        rewrite printed_app. apply in_or_app. right. now left.
      * right. cbn. auto.
    + contradiction.
    + contradiction.
Qed.

Lemma client_inv_run (n : nat) (s : Stream.state Client.line (result bool)) :
  client_inv s -> client_inv (Stream.run n s).
Proof.
  revert s; induction n as [|n IH]; intros s Hs; simpl; [exact Hs |].
  destruct (Stream.step s) as [s'|] eqn:E; [| exact Hs].
  apply IH. exact (client_inv_step Hs E).
Qed.

Lemma client_inv_start (inc : list Stream.arrival) :
  client_inv (Stream.start Client.test_vnc_handshake inc).
Proof. right. split; [exact client_guarded | reflexivity]. Qed.

Lemma guarded_read (s : Stream.state Client.line (result bool)) :
  guarded (Stream.timeout s) (Stream.prog s) ->
  Stream.closed s = false ->
  Stream.hung s = false
  /\ forall bufsize,
       about_to_recv s = Some bufsize ->
       Stream.timeout s = Some 5%Q
       /\ forall rest,
            bufsize <> 0%N ->
            Stream.incoming s = Stream.Silence :: rest ->
            Stream.returned (Stream.run 2 s) = Some (Ok false)
            /\ exists lines,
                 Stream.trace (Stream.run 2 s)
                 = Stream.trace s
                   ++ ERecv bufsize (Some 5%Q) (RecvRaised SocketTimeout)
                      :: map EPrint lines.
Proof.
  destruct s as [p inc tmo cl tr]. unfold about_to_recv, Stream.hung.
  cbn [Stream.prog Stream.timeout Stream.closed Stream.incoming Stream.trace].
  intros Hg ->.
  destruct p; try (split; [reflexivity | discriminate]).
  cbn in Hg. destruct Hg as (-> & Hq & _).
  split.
  - unfold Stream.step; cbn.
    destruct (bufsize =? 0)%N; [reflexivity |].
    destruct inc as [|[d | | e] inc]; try reflexivity;
      try (now destruct (take bufsize d)).
  - intros n [= <-]. split; [reflexivity |].
    intros rest Hnz ->. apply N.eqb_neq in Hnz.
    assert (E1 : Stream.step
                   (Stream.mk_state (Recv bufsize k) (Stream.Silence :: rest)
                                    (Some 5%Q) false tr)
                 = Some (Stream.mk_state (k (RecvRaised SocketTimeout)) rest
                           (Some 5%Q) false
                           (tr ++ [ERecv bufsize (Some 5%Q)
                                         (RecvRaised SocketTimeout)])))
      by (unfold Stream.step; cbn; rewrite Hnz; reflexivity).
    simpl Stream.run. rewrite E1.
    destruct (k (RecvRaised SocketTimeout)) as [r | | | | | l q | |];
      cbn in Hq; try contradiction.
    + cbn. split; [now rewrite Hq | exists []; reflexivity].
    + destruct q; try contradiction. subst.
      cbn. split; [reflexivity |]. exists [l]. now rewrite <- app_assoc.
Qed.

(** C8, as the code has it.  In the client role every read of the
    handshake is made under the five-second timeout the client sets before
    it connects: the client never blocks for ever, and a read that times
    out makes it return [False] at once, after one line of output at most
    and without further reads or writes.  In the server role no timeout is
    set before the session loop: each of the three reads of the handshake
    blocks for ever when the client stays silent. *)
Theorem handshake_timeouts :
  (forall (inc : list Stream.arrival) (n : nat),
     let s := Stream.run n (Stream.start Client.test_vnc_handshake inc) in
     ~ handshake_completed (Stream.trace s) ->
     Stream.hung s = false
     /\ forall bufsize,
          about_to_recv s = Some bufsize ->
          Stream.timeout s = Some 5%Q
          /\ forall rest,
               bufsize <> 0%N ->
               Stream.incoming s = Stream.Silence :: rest ->
               Stream.returned (Stream.run 2 s) = Some (Ok false)
               /\ exists lines,
                    Stream.trace (Stream.run 2 s)
                    = Stream.trace s
                      ++ ERecv bufsize (Some 5%Q) (RecvRaised SocketTimeout)
                         :: map EPrint lines)
  /\ (forall (bo : Struct.byteorder) (client_version : bytes)
             (security_selection : byte) (rest : list Stream.arrival)
             (k : nat),
        server_accepts client_version = true ->
        blocked_for_ever
          (Stream.run (2 + k)
             (Stream.start (Server.handle_client bo)
                           (Stream.Silence :: rest)))
        /\ blocked_for_ever
             (Stream.run (6 + k)
                (Stream.start (Server.handle_client bo)
                   (Stream.Data client_version :: Stream.Silence :: rest)))
        /\ blocked_for_ever
             (Stream.run (10 + k)
                (Stream.start (Server.handle_client bo)
                   (Stream.Data client_version
                    :: Stream.Data [security_selection]
                    :: Stream.Silence :: rest)))).
Proof.
  split.
  - intros inc n s Hnot.
    destruct (client_inv_run n (client_inv_start inc)) as [Hdone | [Hg Hc]];
      [contradiction |].
    exact (guarded_read _ Hg Hc).
  - intros bo client_version security_selection rest k Hv.
    unfold server_accepts in Hv.
    apply andb_prop in Hv. destruct Hv as [H12 Hdec].
    destruct (Str.decode_utf8 client_version) as [decoded|] eqn:Ed;
      [clear Hdec | discriminate].
    assert (Hlen : length client_version <= N.to_nat 12)
      by (apply Nat.eqb_eq in H12; rewrite H12; cbn; lia).
    unfold blocked_for_ever.
    split; [| split].
    + cbn. stream_halt. repeat split.
    + cbn. rewrite take_all by exact Hlen. cbn. rewrite H12. cbn.
      rewrite Ed. cbn. stream_halt. repeat split.
    + cbn. rewrite take_all by exact Hlen. cbn. rewrite H12. cbn.
      rewrite Ed. cbn. rewrite take_one. cbn. stream_halt. repeat split.
Qed.

(** The client has echoed the version and the server stays silent: the
    read of the security types times out and the client returns [False].
    A server whose client stays silent after the version is stuck. *)
Lemma handshake_timeouts_witness :
  ~ handshake_completed
      (Stream.trace
         (Stream.run 8
            (Stream.start Client.test_vnc_handshake
               [Stream.Data Server.RFB_VERSION; Stream.Silence])))
  /\ about_to_recv
       (Stream.run 8
          (Stream.start Client.test_vnc_handshake
             [Stream.Data Server.RFB_VERSION; Stream.Silence]))
     = Some 1%N
  /\ Stream.incoming
       (Stream.run 8
          (Stream.start Client.test_vnc_handshake
             [Stream.Data Server.RFB_VERSION; Stream.Silence]))
     = [Stream.Silence]
  /\ Stream.returned
       (Stream.run 2
          (Stream.run 8
             (Stream.start Client.test_vnc_handshake
                [Stream.Data Server.RFB_VERSION; Stream.Silence])))
     = Some (Ok false)
  /\ server_accepts Server.RFB_VERSION = true
  /\ blocked_for_ever
       (Stream.run (6 + 0)
          (Stream.start (Server.handle_client Struct.LittleEndian)
             [Stream.Data Server.RFB_VERSION; Stream.Silence])).
Proof.
  destruct handshake_timeouts as [Hclient Hserver].
  assert (Hnot : ~ handshake_completed
                     (Stream.trace
                        (Stream.run 8
                           (Stream.start Client.test_vnc_handshake
                              [Stream.Data Server.RFB_VERSION;
                               Stream.Silence])))).
  { vm_compute. intros H.
    repeat (destruct H as [H | H]; [discriminate H |]). exact H. }
  split; [exact Hnot |]. split; [reflexivity |]. split; [reflexivity |].
  split.
  - destruct (Hclient [Stream.Data Server.RFB_VERSION; Stream.Silence] 8 Hnot)
      as [_ Hread].
    destruct (Hread 1%N eq_refl) as [_ Htimeout].
    destruct (Htimeout [] ltac:(discriminate) eq_refl) as [Hret _].
    exact Hret.
  - split; [reflexivity |].
    destruct (Hserver Struct.LittleEndian Server.RFB_VERSION x01 [] 0 eq_refl)
      as (_ & H2 & _).
    exact H2.
Defined.

(** C8, as stated, fails for the server role: its handshake reads are made
    on a socket without timeout.  With a client that connects and says
    nothing, the server waits in [recv(12)] for ever: no timeout is in
    force, nothing can happen any more, and the connection stays open. *)
Lemma server_handshake_read_blocks_for_ever :
  blocked_for_ever
    (Stream.run 2
       (Stream.start (Server.handle_client Struct.LittleEndian)
                     [Stream.Silence]))
  /\ about_to_recv
       (Stream.run 2
          (Stream.start (Server.handle_client Struct.LittleEndian)
                        [Stream.Silence]))
     = Some 12%N
  /\ Wire.deadlocked
       (Wire.run 20
          (Wire.connection silent_client
                           (Server.handle_client Struct.LittleEndian)))
     = true
  /\ Wire.timeout
       (Wire.server
          (Wire.run 20
             (Wire.connection silent_client
                              (Server.handle_client Struct.LittleEndian))))
     = None
  /\ Wire.closed
       (Wire.server
          (Wire.run 20
             (Wire.connection silent_client
                              (Server.handle_client Struct.LittleEndian))))
     = false
  /\ recv_calls
       (Wire.trace
          (Wire.server
             (Wire.run 20
                (Wire.connection silent_client
                                 (Server.handle_client Struct.LittleEndian)))))
     = [].
Proof.
  vm_compute. repeat split.
Qed.

(** * Further properties of the two scripts *)

Arguments Struct.slice : simpl never.
Arguments Client.pack_BBHHHH : simpl never.
Arguments client_sends_ok : simpl never.
Arguments client_returns : simpl never.
Arguments closed_at_end : simpl never.
Arguments server_sends_ok : simpl never.
Arguments in_session : simpl never.

(** ** The codec, once more *)

Lemma u8_lt (x : byte) : (Struct.u8 x < 256)%N.
Proof. pose proof (Byte.to_N_bounded x). unfold Struct.u8. lia. Qed.

Lemma byte_of_u8 (x : byte) : Struct.byte_of (Struct.u8 x) = x.
Proof. unfold Struct.byte_of, Struct.u8. now rewrite Byte.of_to_N. Qed.

Lemma u8_hi (v : N) :
  (v < 65536)%N -> Struct.u8 (Struct.byte_of (v / 256)) = (v / 256)%N.
Proof.
  intros H. apply u8_byte_of. apply N.Div0.div_lt_upper_bound. lia.
Qed.

Lemma u8_lo (v : N) : Struct.u8 (Struct.byte_of (v mod 256)) = (v mod 256)%N.
Proof. apply u8_byte_of. apply N.mod_lt. lia. Qed.

Lemma hi_lo (v : N) : ((v / 256) * 256 + v mod 256)%N = v.
Proof. rewrite N.mul_comm. symmetry. apply N.div_mod. lia. Qed.

Lemma pack_H_be_ok (v : N) (b : bytes) :
  Struct.pack_H_be v = Ok b ->
  (v < 65536)%N /\ b = [Struct.byte_of (v / 256); Struct.byte_of (v mod 256)].
Proof.
  unfold Struct.pack_H_be. destruct (N.ltb_spec v 65536); [| discriminate].
  intros [= <-]. auto.
Qed.

Lemma pack_H_be_u8 (a b : byte) :
  Struct.pack_H_be (Struct.u8 a * 256 + Struct.u8 b) = Ok [a; b].
Proof.
  pose proof (u8_lt a). pose proof (u8_lt b). unfold Struct.pack_H_be.
  destruct (N.ltb_spec (Struct.u8 a * 256 + Struct.u8 b) 65536); [| lia].
  replace ((Struct.u8 a * 256 + Struct.u8 b) / 256)%N with (Struct.u8 a)
    by (apply N.div_unique with (r := Struct.u8 b); lia).
  replace ((Struct.u8 a * 256 + Struct.u8 b) mod 256)%N with (Struct.u8 b)
    by (apply N.mod_unique with (q := Struct.u8 a); lia).
  now rewrite !byte_of_u8.
Qed.

(** The FramebufferUpdateRequest the client builds from the width and the
    height it has unpacked carries the very four bytes it unpacked them
    from. *)
Lemma pack_fbur_of_unpacked (b : bytes) (width height : N) :
  Struct.unpack_HH_be b = Ok (width, height) ->
  Client.pack_BBHHHH 3 0 0 0 width height = Ok (FBUR_header ++ b).
Proof.
  destruct b as [|a [|b [|c [|d [|e tl]]]]]; cbn; intros E; try discriminate.
  injection E as <- <-. unfold Client.pack_BBHHHH.
  now rewrite !pack_H_be_u8.
Qed.

Lemma u8_zero (x : byte) : Struct.u8 x = 0%N -> x = x00.
Proof. intros E. rewrite <- (byte_of_u8 x), E. reflexivity. Qed.

Lemma unpack_I_be_zero (b : bytes) :
  Struct.unpack_I_be b = Ok 0%N -> b = [x00; x00; x00; x00].
Proof.
  destruct b as [|a [|b [|c [|d [|e tl]]]]]; cbn; intros E; try discriminate.
  injection E as E.
  rewrite (u8_zero a), (u8_zero b), (u8_zero c), (u8_zero d) by lia.
  reflexivity.
Qed.

Lemma unpack_B_lt (b : bytes) (v : N) :
  Struct.unpack_B b = Ok v -> (v < 256)%N.
Proof.
  destruct b as [|x [|y b]]; cbn; intros E; try discriminate.
  injection E as <-. apply u8_lt.
Qed.

Lemma decode_ascii_cons (x : byte) (rest : bytes) :
  (Struct.u8 x < 128)%N ->
  Str.decode_ascii (x :: rest)
  = match Str.decode_ascii rest with
    | Ok s => Ok (Struct.u8 x :: s)
    | Raised e => Raised e
    end.
Proof.
  intros H. apply N.ltb_lt in H.
  change (Str.decode_ascii (x :: rest))
    with (if (Struct.u8 x <? 128)%N
          then match Str.decode_ascii rest with
               | Ok s => Ok (Struct.u8 x :: s)
               | Raised e => Raised e
               end
          else Raised UnicodeDecodeError).
  now rewrite H.
Qed.

(** X14.  The pixel format does not survive the trip on every host.  The server
    packs the pixel format without a byte-order prefix (line 128), so the
    three colour maxima are laid out in the byte order of its host; the
    client unpacks them with ['!HHH'] (line 106).  The one-byte fields come
    back as they were; the maxima come back unchanged from a big-endian
    server and with their two bytes swapped from a little-endian one. *)
Theorem pixel_format_read_in_network_order
    (bo : Struct.byteorder)
    (bits_per_pixel depth big_endian true_color
     red_max green_max blue_max red_shift green_shift blue_shift : N)
    (pixel_format : bytes) :
  Server.pack_pixel_format bo bits_per_pixel depth big_endian true_color
    red_max green_max blue_max red_shift green_shift blue_shift
  = Ok pixel_format ->
  length pixel_format = 16
  /\ Struct.unpack_BBBB (Struct.slice pixel_format 0 4)
     = Ok (bits_per_pixel, depth, big_endian, true_color)
  /\ Struct.unpack_HHH_be (Struct.slice pixel_format 4 10)
     = Ok (host_to_network bo red_max, host_to_network bo green_max,
           host_to_network bo blue_max)
  /\ Struct.unpack_BBB (Struct.slice pixel_format 10 13)
     = Ok (red_shift, green_shift, blue_shift).
Proof.
  unfold Server.pack_pixel_format, Struct.pack_H_native, Struct.pack_B.
  intros H. destruct bo.
  all: repeat match type of H with
              | context [(?v <? ?c)%N] =>
                  destruct (N.ltb_spec v c); [| discriminate H]
              end.
  all: injection H as <-; unfold Struct.slice; cbn;
    rewrite ?u8_hi, ?u8_lo, ?hi_lo, ?u8_byte_of by assumption;
    repeat split.
Qed.

(** The pixel format of the server, packed on a little-endian host: the
    client reads the maxima 255 as 65280. *)
Lemma pixel_format_read_in_network_order_witness :
  Struct.unpack_HHH_be
    (Struct.slice
       [x20; x18; x00; x01; xff; x00; xff; x00; xff; x00; x10; x08; x00;
        x00; x00; x00] 4 10)
  = Ok (65280%N, 65280%N, 65280%N).
Proof.
  destruct (@pixel_format_read_in_network_order
              Struct.LittleEndian 32 24 0 1 255 255 255 16 8 0
              [x20; x18; x00; x01; xff; x00; xff; x00; xff; x00; x10; x08;
               x00; x00; x00; x00] eq_refl) as (_ & _ & H & _).
  exact H.
Defined.

(** X15.  The client accepts every minor version: twelve ASCII bytes that
    begin with "RFB 003." pass the test of lines 36-39 whatever the four
    bytes after the prefix are (white space included, which [strip]
    removes). *)
Theorem client_accepts_every_minor_version (a b c d : byte) :
  (Struct.u8 a < 128)%N -> (Struct.u8 b < 128)%N ->
  (Struct.u8 c < 128)%N -> (Struct.u8 d < 128)%N ->
  client_accepts (RFB_003_prefix ++ [a; b; c; d]) = true.
Proof.
  intros Ha Hb Hc Hd. unfold client_accepts, RFB_003_prefix. cbn [app].
  rewrite !decode_ascii_cons by (assumption || (vm_compute; reflexivity)).
  change (Str.decode_ascii []) with (@Ok str []).
  cbv beta iota.
  unfold Str.strip, Str.rstrip.
  remember (Struct.u8 a) as ua. remember (Struct.u8 b) as ub.
  remember (Struct.u8 c) as uc. remember (Struct.u8 d) as ud.
  change (Struct.u8 "R") with 82%N.
  cbn [Str.lstrip]. change (Str.isspace 82) with false. cbv iota.
  cbn [rev app Str.lstrip].
  destruct (Str.isspace ud); [| reflexivity].
  destruct (Str.isspace uc); [| reflexivity].
  destruct (Str.isspace ub); [| reflexivity].
  destruct (Str.isspace ua); reflexivity.
Qed.

(** "RFB 003.889" followed by a line feed (the version of Apple Remote
    Desktop). *)
Lemma client_accepts_every_minor_version_witness :
  client_accepts (RFB_003_prefix ++ ["8"; "8"; "9"; x0a]%byte) = true.
Proof.
  apply (@client_accepts_every_minor_version "8" "8" "9" x0a);
    vm_compute; reflexivity.
Defined.


(** ** Reasoning about every run *)

Lemma sent_messages_app {L} (a b : list (event L)) :
  sent_messages (a ++ b) = sent_messages a ++ sent_messages b.
Proof.
  induction a as [|e a IH]; simpl; [reflexivity|].
  destruct e; simpl; rewrite ?IH; reflexivity.
Qed.

Lemma reads_sent_messages {L} (es : list (event L)) :
  reads es -> sent_messages es = [].
Proof.
  induction 1 as [|e es He _ IH]; [reflexivity |].
  destruct e; try contradiction. exact IH.
Qed.

Lemma printed_In {L} (l : L) (tr : list (event L)) :
  In (EPrint l) tr -> In l (printed tr).
Proof.
  induction tr as [|e tr IH]; [intros [] |].
  intros [-> | H]; [now left |].
  destruct e; cbn; auto.
Qed.

Lemma safe_now {L A} (P J : list (event L) -> Prop)
    (R : list (event L) -> bool -> A -> Prop)
    (p : proc L A) tr cur cl :
  safe P J R p tr cur cl -> P tr.
Proof. destruct p; cbn; tauto. Qed.

Lemma safe_pbind {L A B} (P J : list (event L) -> Prop)
    (R : list (event L) -> bool -> A -> Prop)
    (S : list (event L) -> bool -> B -> Prop)
    (f : B -> proc L A) :
  (forall b tr cur cl, P tr -> S tr cl b -> safe P J R (f b) tr cur cl) ->
  forall (m : proc L B) tr cur cl,
    safe P J S m tr cur cl -> safe P J R (pbind m f) tr cur cl.
Proof.
  intros Hf m. induction m; intros tr cur cl [Hi Hm]; cbn.
  - now apply Hf.
  - split; [exact Hi |]. intros x. eapply H; [exact Hf | apply Hm].
  - split; [exact Hi |]. eapply IHm; [exact Hf | apply Hm].
  - split; [exact Hi |]. destruct Hm as [Hm1 Hm2].
    split; [intros e |]; eapply H; eauto.
  - split; [exact Hi |]. intros r. eapply H; [exact Hf | apply Hm].
  - split; [exact Hi |]. eapply IHm; [exact Hf | apply Hm].
  - split; [exact Hi |]. eapply IHm; [exact Hf | apply Hm].
  - split; [exact Hi |]. destruct Hm as (Hj & Hbody & Hk).
    split; [exact Hj |]. split; [exact Hbody |].
    intros tr' cur' cl' r Hi' Hj'. eapply H; [exact Hf | now apply Hk].
Qed.

Lemma safe_step {L A} (P J : list (event L) -> Prop)
    (R : list (event L) -> bool -> A -> Prop) (s s' : Stream.state L A) :
  safe P J R (Stream.prog s) (Stream.trace s) (Stream.timeout s)
       (Stream.closed s) ->
  Stream.step s = Some s' ->
  safe P J R (Stream.prog s') (Stream.trace s') (Stream.timeout s')
       (Stream.closed s').
Proof.
  destruct s as [p inc tmo cl tr]. unfold Stream.step. cbn.
  intros Hp Hstep.
  destruct p; cbn in Hp; destruct Hp as [Hi Hp].
  - discriminate.
  - inversion Hstep; subst; cbn. apply Hp.
  - inversion Hstep; subst; cbn. apply Hp.
  - destruct cl; inversion Hstep; subst; cbn; apply Hp.
  - destruct cl; [inversion Hstep; subst; cbn; apply Hp |].
    destruct (bufsize =? 0)%N; [inversion Hstep; subst; cbn; apply Hp |].
    destruct inc as [|[d | | e] inc].
    + inversion Hstep; subst; cbn; apply Hp.
    + destruct (take bufsize d) as [got left].
      inversion Hstep; subst; cbn; apply Hp.
    + destruct tmo; inversion Hstep; subst; cbn; apply Hp.
    + inversion Hstep; subst; cbn; apply Hp.
  - inversion Hstep; subst; cbn. apply Hp.
  - inversion Hstep; subst; cbn. apply Hp.
  - inversion Hstep; subst; cbn [Stream.prog Stream.trace Stream.timeout
                                  Stream.closed].
    destruct Hp as (Hj & Hbody & Hk).
    unfold unfold_while.
    apply safe_pbind with (S := fun tr'' _ _ => J tr''); [| now apply Hbody].
    intros [[|] | e] tr' cur' cl' Hi' Hj'.
    + cbn. auto.
    + now apply Hk.
    + now apply Hk.
Qed.

Lemma safe_run {L A} (P J : list (event L) -> Prop)
    (R : list (event L) -> bool -> A -> Prop) (n : nat) :
  forall s : Stream.state L A,
    safe P J R (Stream.prog s) (Stream.trace s) (Stream.timeout s)
         (Stream.closed s) ->
    safe P J R (Stream.prog (Stream.run n s)) (Stream.trace (Stream.run n s))
         (Stream.timeout (Stream.run n s)) (Stream.closed (Stream.run n s)).
Proof.
  induction n as [|n IH]; intros s Hs; simpl; [exact Hs |].
  destruct (Stream.step s) as [s'|] eqn:E; [| exact Hs].
  apply IH. exact (safe_step _ _ _ _ Hs E).
Qed.

(** What [safe] promises of the runs of [p] on a fresh socket: [P] at
    every moment, [R] on return. *)
Lemma safe_always {L A} (P J : list (event L) -> Prop)
    (R : list (event L) -> bool -> A -> Prop)
    (p : proc L A) (inc : list Stream.arrival) (n : nat) :
  safe P J R p [] None false ->
  P (Stream.trace (Stream.run n (Stream.start p inc))).
Proof.
  intros Hp. eapply safe_now.
  exact (@safe_run _ _ P J R n (Stream.start p inc) Hp).
Qed.

Lemma safe_returned {L A} (P J : list (event L) -> Prop)
    (R : list (event L) -> bool -> A -> Prop)
    (p : proc L A) (inc : list Stream.arrival) (n : nat) (a : A) :
  safe P J R p [] None false ->
  Stream.returned (Stream.run n (Stream.start p inc)) = Some a ->
  R (Stream.trace (Stream.run n (Stream.start p inc)))
    (Stream.closed (Stream.run n (Stream.start p inc))) a.
Proof.
  intros Hp Hr.
  pose proof (@safe_run _ _ P J R n (Stream.start p inc) Hp) as H.
  unfold Stream.returned in Hr.
  destruct (Stream.prog (Stream.run n (Stream.start p inc))); try discriminate.
  injection Hr as ->. apply H.
Qed.

Lemma finishes_mono {L A} (p : proc L A) :
  forall n m cur cl, n <= m -> finishes p n cur cl -> finishes p m cur cl.
Proof.
  induction p; intros n m cur cl Hle Hp; cbn in *; auto.
  all: try (destruct Hp as [Hc Hp]; split; [exact Hc |]).
  all: destruct n as [|n]; [contradiction |];
       destruct m as [|m]; [lia |];
       eauto with arith.
Qed.

Lemma finishes_step {L A} (s : Stream.state L A) (n : nat) :
  finishes (Stream.prog s) n (Stream.timeout s) (Stream.closed s) ->
  Stream.returned s = None ->
  exists s' n',
    n = S n' /\ Stream.step s = Some s'
    /\ finishes (Stream.prog s') n' (Stream.timeout s') (Stream.closed s').
Proof.
  destruct s as [p inc tmo cl tr]. unfold Stream.step, Stream.returned. cbn.
  intros Hp Hr.
  destruct p; cbn in Hp; try discriminate; try contradiction.
  all: try (destruct Hp as [Hc Hp]).
  all: destruct n as [|n]; [contradiction |].
  - eexists _, n. repeat split. cbn. apply Hp.
  - eexists _, n. repeat split. cbn. apply Hp.
  - destruct cl; eexists _, n; repeat split; cbn; apply Hp.
  - destruct cl; [eexists _, n; repeat split; cbn; apply Hp |].
    destruct Hc as [Hc | Hc]; [discriminate |].
    destruct (bufsize =? 0)%N; [eexists _, n; repeat split; cbn; apply Hp |].
    destruct inc as [|[d | | e] inc].
    + eexists _, n; repeat split; cbn; apply Hp.
    + destruct (take bufsize d) as [got left].
      eexists _, n; repeat split; cbn; apply Hp.
    + destruct tmo; [| contradiction].
      eexists _, n; repeat split; cbn; apply Hp.
    + eexists _, n; repeat split; cbn; apply Hp.
  - eexists _, n. repeat split. cbn. apply Hp.
  - eexists _, n. repeat split. cbn. apply Hp.
Qed.

Lemma returned_halts {L A} (s : Stream.state L A) (a : A) :
  Stream.returned s = Some a -> Stream.step s = None.
Proof.
  unfold Stream.returned, Stream.step.
  destruct (Stream.prog s); try discriminate. reflexivity.
Qed.

(** A program that [finishes] within [n] actions has returned after [n]
    steps. *)
Lemma finishes_run {L A} (n : nat) :
  forall s : Stream.state L A,
    finishes (Stream.prog s) n (Stream.timeout s) (Stream.closed s) ->
    exists a, Stream.returned (Stream.run n s) = Some a.
Proof.
  induction n as [|n IH]; intros s Hs.
  - destruct s as [p inc tmo cl tr]. cbn in *.
    destruct p; cbn in Hs; try contradiction; try (now destruct Hs).
    eexists; reflexivity.
  - destruct (Stream.returned s) as [a|] eqn:Er.
    + exists a. rewrite stream_run_halted; [exact Er |].
      exact (returned_halts _ Er).
    + destruct (finishes_step _ _ Hs Er) as (s' & n' & [= <-] & Hstep & Hs').
      simpl. rewrite Hstep. now apply IH.
Qed.

(** ** Every run of the client *)

Lemma safe_loop (P J : list (event Client.line) -> Prop)
    (R : list (event Client.line) -> bool -> result bool -> Prop)
    (G : list N -> M Client.line bool)
    (H : result bool -> proc Client.line (result bool))
    (tr0 : list (event Client.line)) (cur : option Q) (cl : bool) :
  (forall acc es,
     reads es -> safe P J R (pbind (G acc) H) (tr0 ++ es) cur cl) ->
  (forall e es,
     reads es -> safe P J R (H (Raised e)) (tr0 ++ es) cur cl) ->
  forall n acc,
    safe P J R (pbind (bind (Client.recv_security_types n acc) G) H)
         tr0 cur cl.
Proof.
  intros Hok Herr n.
  enough (forall acc es, reads es ->
            safe P J R (pbind (bind (Client.recv_security_types n acc) G) H)
                 (tr0 ++ es) cur cl) as E.
  { intros acc. specialize (E acc [] (Forall_nil _)).
    now rewrite app_nil_r in E. }
  induction n as [|n IH]; intros acc es Hes; cbn.
  - now apply Hok.
  - assert (Hes' : forall r,
               reads (es ++ [ERecv 1 cur r : event Client.line])).
    { intros r. apply Forall_app. split; [exact Hes |].
      constructor; [exact I | constructor]. }
    split; [exact (safe_now _ _ _ _ _ _ _ (Herr OtherError es Hes)) |].
    intros [d | e]; cbn; rewrite <- app_assoc; [| now apply Herr].
    destruct (Struct.unpack_B d) as [t | e]; cbn;
      [now apply IH | now apply Herr].
Qed.

Lemma finishes_loop (G : list N -> M Client.line bool)
    (H : result bool -> proc Client.line (result bool))
    (d : nat) (t : Q) :
  (forall acc, finishes (pbind (G acc) H) d (Some t) false) ->
  (forall e, finishes (H (Raised e)) d (Some t) false) ->
  forall n acc,
    finishes (pbind (bind (Client.recv_security_types n acc) G) H)
             (n + d) (Some t) false.
Proof.
  intros Hok Herr. induction n as [|n IH]; intros acc; cbn.
  - apply Hok.
  - split; [right; discriminate |].
    intros [data | e]; cbn.
    + destruct (Struct.unpack_B data) as [x | e]; cbn; [apply IH |].
      apply finishes_mono with (n := d); [lia | apply Herr].
    + apply finishes_mono with (n := d); [lia | apply Herr].
Qed.

Ltac find_in :=
  cbn [In];
  first [ left; reflexivity
        | right; find_in
        | apply in_or_app; right; find_in ].

(** The messages sent along a trace that contains the reads of the
    offered security types. *)
Ltac sent_so_far :=
  repeat (rewrite sent_messages_app; cbn [sent_messages app]);
  rewrite ?reads_sent_messages by assumption;
  cbn [sent_messages app].

Ltac client_sends :=
  unfold client_sends_ok; cbn [sent_messages app]; sent_so_far;
  rewrite <- ?app_assoc; cbn [app];
  repeat match goal with
         | |- True => exact I
         | |- _ /\ _ => split
         | |- _ = _ => reflexivity
         | |- In _ _ => find_in
         | |- exists _, _ => eexists
         end.

Ltac client_step :=
  match goal with
  | |- client_sends_ok _ => solve [client_sends]
  | |- client_returns _ true _ => fail 1
  | |- client_returns _ false (Ok false) =>
      split; [reflexivity | intros E; discriminate E]
  | |- forall _, _ => intro
  | |- _ /\ _ => split
  | |- True => exact I
  | |- safe _ _ _ (pbind (bind (Client.recv_security_types _ _) _) _) _ _ _ =>
      apply safe_loop
  | Hu : Struct.unpack_HH_be ?b = Ok (?w, ?h)
    |- context [Client.pack_BBHHHH 3 0 0 0 ?w ?h] =>
      rewrite (pack_fbur_of_unpacked _ Hu)
  | |- context [match ?x with _ => _ end] => destruct x eqn:?
  end.

(** On every path through [test_vnc_handshake]: what is sent is in order,
    the function returns a boolean, and it returns [True] only at the end
    of the path that goes through the whole handshake and closes the
    socket. *)
Lemma client_safe :
  safe client_sends_ok (fun _ => False) client_returns
       Client.test_vnc_handshake [] None false.
Proof.
  unfold Client.test_vnc_handshake.
  repeat (cbn; client_step).
  all: cbn; split; [reflexivity | intros _].
  all: repeat match goal with
              | E : negb _ = false |- _ => apply negb_false_iff in E
              end.
  all: match goal with
       | Hv : (length ?v =? 12) = true,
         Hd : Str.decode_ascii ?v = Ok ?a,
         Hs : Str.startswith (Str.strip ?a) Client.RFB_003 = true,
         Hr : Struct.unpack_I_be ?res = Ok ?z,
         Hz : (?z =? 0)%N = true,
         Hi : (length ?si =? 24) = true,
         He : reads ?es |- _ =>
           apply Nat.eqb_eq in Hv, Hi; apply N.eqb_eq in Hz; subst z;
           apply unpack_I_be_zero in Hr; subst res;
           exists v, si;
           repeat match goal with
                  | |- _ /\ _ => split
                  end
       end.
  all: rewrite <- ?app_assoc; cbn [app].
  all: try assumption.
  all: try find_in.
  all: try (unfold client_accepts;
            match goal with
            | Hd : Str.decode_ascii _ = Ok _ |- _ => rewrite Hd
            end; assumption).
  all: try (apply printed_In; find_in).
  all: cbn [sent_messages app]; sent_so_far; reflexivity.
Qed.

Ltac finish_step :=
  match goal with
  | |- forall _, _ => intro
  | |- _ /\ _ => split
  | |- True => exact I
  | |- _ \/ _ <> None => right; discriminate
  | |- true = true \/ _ => left; reflexivity
  | E : Struct.unpack_B _ = Ok ?t
    |- finishes (pbind (bind (Client.recv_security_types (N.to_nat ?t) _) _) _)
                _ _ _ =>
      apply finishes_mono with (n := N.to_nat t + 35);
      [apply unpack_B_lt in E; lia | apply finishes_loop]
  | |- context [Struct.unpack_B ?b] => destruct (Struct.unpack_B b) eqn:?
  | |- context [match ?x with _ => _ end] => destruct x
  end.

(** Every path through [test_vnc_handshake] is at most 300 actions long
    (the offer has at most 255 types), and each of its reads is made under
    a timeout. *)
Lemma client_finishes : finishes Client.test_vnc_handshake 300 None false.
Proof.
  unfold Client.test_vnc_handshake.
  repeat (cbn; finish_step).
Qed.

(** X1.  [test_vnc_handshake] always returns, and it returns a boolean:
    whatever arrives on the socket (bytes in any bursts, silences, errors,
    end of file), after at most 300 actions the function has returned
    [True] or [False]; no exception escapes it and it never blocks for
    ever.  It returns [True] exactly when it has closed the socket: on
    every failing path the socket is left open. *)
Theorem client_always_returns (inc : list Stream.arrival) (k : nat) :
  let s := Stream.run (300 + k)
             (Stream.start Client.test_vnc_handshake inc) in
  exists b : bool,
    Stream.returned s = Some (Ok b)
    /\ Stream.closed s = b
    /\ Stream.hung s = false.
Proof.
  intros s; subst s.
  destruct (@finishes_run _ _ 300
              (Stream.start Client.test_vnc_handshake inc) client_finishes)
    as [r Hr].
  rewrite stream_run_past by exact (returned_halts _ Hr).
  destruct (@safe_returned _ _ _ _ _ _ _ _ _ client_safe Hr) as [-> _].
  eexists. split; [exact Hr |]. split; [reflexivity |].
  unfold Stream.hung. unfold Stream.returned in Hr.
  now destruct (Stream.prog
                  (Stream.run 300
                     (Stream.start Client.test_vnc_handshake inc))).
Qed.

(** X2.  A passing test means a handshake.  Whenever [test_vnc_handshake]
    returns [True], it has read twelve bytes that pass its version test, a
    security result of 0 and 24 bytes of ServerInit; it has sent exactly
    four messages (the twelve bytes again, the selection 1, the ClientInit
    byte 1, and a FramebufferUpdateRequest whose width and height are the
    first four bytes of the ServerInit it read); and it has printed that
    the handshake is complete. *)
Theorem client_pass_means_handshake (inc : list Stream.arrival) (n : nat) :
  let s := Stream.run n (Stream.start Client.test_vnc_handshake inc) in
  Stream.returned s = Some (Ok true) ->
  passes (Stream.trace s) /\ Stream.closed s = true.
Proof.
  intros s Hr; subst s.
  destruct (@safe_returned _ _ _ _ _ _ _ _ _ client_safe Hr) as [E Hp].
  injection E as E. split; [apply Hp |]; now symmetry.
Qed.

(** The client passes against what the server of the repository sends. *)
Lemma client_pass_means_handshake_witness :
  Stream.returned
    (Stream.run 100
       (Stream.start Client.test_vnc_handshake
                     (server_bursts Struct.LittleEndian)))
  = Some (Ok true)
  /\ passes
       (Stream.trace
          (Stream.run 100
             (Stream.start Client.test_vnc_handshake
                           (server_bursts Struct.LittleEndian)))).
Proof.
  split; [vm_compute; reflexivity |].
  apply (@client_pass_means_handshake
           (server_bursts Struct.LittleEndian) 100).
  vm_compute; reflexivity.
Defined.

(** X3.  What the client never sends.  At every moment of every run, the
    messages the client has sent are the first ones of: the twelve bytes
    it received as the server's version, [01], [01], and one
    FramebufferUpdateRequest (type 3, not incremental, x = y = 0) whose
    last four bytes are the first four of the 24 it read as ServerInit.
    It never sends a fifth message, and never a selection other than
    type 1. *)
Theorem client_sends_only (inc : list Stream.arrival) (n : nat) :
  client_sends_ok
    (Stream.trace (Stream.run n (Stream.start Client.test_vnc_handshake inc))).
Proof. exact (@safe_always _ _ _ _ _ _ inc n client_safe). Qed.


(** ** The client, path by path *)

Lemma sent_offer_events (types : bytes) :
  sent_bytes (offer_events types) = [].
Proof. induction types as [|b types IH]; [reflexivity | exact IH]. Qed.

Lemma printed_offer_events (types : bytes) :
  printed (offer_events types) = [].
Proof. induction types as [|b types IH]; [reflexivity | exact IH]. Qed.

(** X4.  A short version.  When the first read returns fewer than twelve
    bytes (none at all when the server closes at once), the client prints
    the length it got and returns [False]; it has sent nothing and reads
    nothing more. *)
Theorem client_short_version
    (server_version : bytes) (rest : list Stream.arrival) (k : nat) :
  length server_version < 12 ->
  let s := Stream.run (6 + k)
             (Stream.start Client.test_vnc_handshake
                (Stream.Data server_version :: rest)) in
  Stream.returned s = Some (Ok false)
  /\ Stream.incoming s = rest
  /\ Stream.closed s = false
  /\ Stream.trace s
     = [EPrint Client.Connecting;
        ESettimeout (Some 5%Q);
        EConnect;
        EPrint Client.Connected;
        ERecv 12 (Some 5%Q) (Received server_version);
        EPrint (Client.InvalidServerVersionLength (length server_version))].
Proof.
  intros Hlen s; subst s.
  cbn. rewrite take_all by (cbn; lia). cbn.
  destruct (Nat.eqb_spec (length server_version) 12) as [E | _]; [lia |].
  cbn. stream_halt. repeat split.
Qed.

(** A server that sends "RFB" and closes. *)
Lemma client_short_version_witness :
  length ["R"; "F"; "B"]%byte < 12
  /\ Stream.returned
       (Stream.run (6 + 0)
          (Stream.start Client.test_vnc_handshake
             [Stream.Data ["R"; "F"; "B"]%byte]))
     = Some (Ok false).
Proof.
  split; [vm_compute; lia |].
  destruct (@client_short_version ["R"; "F"; "B"]%byte [] 0) as (H & _).
  - vm_compute; lia.
  - exact H.
Defined.

(** The loop that reads the offered types, when the burst [types] holds
    fewer types than the count announced: after the burst, [j] types are
    still to be read. *)
Lemma run_recv_security_types_short
    (G : list N -> M Client.line bool)
    (H : result bool -> proc Client.line (result bool))
    (rest : list Stream.arrival) (m j : nat) (types : bytes) :
  forall (security_types : list N) (tr : list (event Client.line)),
    Stream.run (length types + m)
      (Stream.mk_state
         (pbind (bind (Client.recv_security_types (length types + j)
                         security_types) G) H)
         (unread types rest) (Some 5%Q) false tr)
    = Stream.run m
        (Stream.mk_state
           (pbind (bind (Client.recv_security_types j
                           (security_types ++ map Struct.u8 types)) G) H)
           rest (Some 5%Q) false (tr ++ offer_events types)).
Proof.
  unfold bind.
  induction types as [|b types IH]; intros security_types tr.
  - cbn. now rewrite !app_nil_r.
  - change (length (b :: types) + m) with (S (length types + m)).
    change (length (b :: types) + j) with (S (length types + j)).
    cbn [Stream.run]. unfold Stream.step at 1. cbn.
    rewrite take_one. cbn. rewrite IH.
    now rewrite <- !app_assoc.
Qed.

(** X5.  An offer without type 1.  When the server offers one or more
    security types and "None" (1) is not among them, the client reads the
    whole offer, prints it, and returns [False]: it selects nothing, so all
    it has ever sent is the version echo. *)
Theorem client_without_security_none
    (server_version : bytes) (count : byte) (types : bytes)
    (rest : list Stream.arrival) (k : nat) :
  length server_version = 12 ->
  client_accepts server_version = true ->
  N.to_nat (Struct.u8 count) = length types ->
  types <> [] ->
  offers_none types = false ->
  let s := Stream.run (12 + length types + k)
             (Stream.start Client.test_vnc_handshake
                (Stream.Data server_version :: Stream.Data (count :: types)
                 :: rest)) in
  Stream.returned s = Some (Ok false)
  /\ Stream.incoming s = rest
  /\ Stream.closed s = false
  /\ Stream.trace s
     = client_offer_trace server_version count types
       ++ [EPrint (Client.AvailableSecurityTypes (map Struct.u8 types));
           EPrint Client.SecurityNoneNotAvailable]
  /\ sent_bytes (Stream.trace s) = server_version.
Proof.
  intros Hlen Hacc Hcount Hne Hnone s.
  assert (Hnz : (Struct.u8 count =? 0)%N = false).
  { apply N.eqb_neq. intros E. rewrite E in Hcount.
    destruct types; [now apply Hne | discriminate Hcount]. }
  assert (E : s = Stream.mk_state (Ret (Ok false)) rest (Some 5%Q) false
                    (client_offer_trace server_version count types
                     ++ [EPrint (Client.AvailableSecurityTypes
                                   (map Struct.u8 types));
                         EPrint Client.SecurityNoneNotAvailable])).
  { subst s. unfold client_accepts in Hacc.
    unfold client_offer_trace, version_str.
    destruct (Str.decode_ascii server_version) as [decoded|] eqn:Ed;
      [| discriminate].
    replace (12 + length types + k)
      with (10 + (length types + (2 + k))) by lia.
    rewrite (stream_run_add 10).
    remember (length types + (2 + k)) as f eqn:Ef.
    cbn. rewrite take_all by (rewrite Hlen; cbn; lia). cbn.
    rewrite Hlen. cbn. rewrite Ed. cbn. rewrite Hacc. cbn.
    rewrite take_one. cbn. rewrite Hnz. cbn. rewrite Hcount.
    subst f. rewrite run_recv_security_types. cbn.
    unfold offers_none in Hnone. rewrite Hnone. cbn.
    stream_halt. now rewrite <- !app_assoc. }
  rewrite E. cbn [Stream.returned Stream.prog Stream.incoming Stream.closed
                  Stream.trace].
  repeat split.
  unfold client_offer_trace.
  rewrite !sent_bytes_app, sent_offer_events. cbn.
  now rewrite !app_nil_r.
Qed.

(** A server that offers VNC authentication (2) only. *)
Lemma client_without_security_none_witness :
  length Server.RFB_VERSION = 12
  /\ client_accepts Server.RFB_VERSION = true
  /\ N.to_nat (Struct.u8 x01) = length [x02]
  /\ offers_none [x02] = false
  /\ Stream.returned
       (Stream.run (12 + length [x02] + 0)
          (Stream.start Client.test_vnc_handshake
             [Stream.Data Server.RFB_VERSION; Stream.Data [x01; x02]]))
     = Some (Ok false)
  /\ sent_bytes
       (Stream.trace
          (Stream.run (12 + length [x02] + 0)
             (Stream.start Client.test_vnc_handshake
                [Stream.Data Server.RFB_VERSION; Stream.Data [x01; x02]])))
     = Server.RFB_VERSION.
Proof.
  split; [reflexivity |]. split; [reflexivity |]. split; [reflexivity |].
  split; [reflexivity |].
  destruct (@client_without_security_none
              Server.RFB_VERSION x01 [x02] [] 0
              eq_refl eq_refl eq_refl ltac:(discriminate) eq_refl)
    as (H1 & _ & _ & _ & H5).
  split; [exact H1 | exact H5].
Defined.

(** X6.  A truncated offer.  When the server announces more security types
    than it sends before it closes, the read after the last type returns
    [b''], [struct.unpack] raises, and the client reports the error and
    returns [False]; it has selected nothing. *)
Theorem client_truncated_offer
    (server_version : bytes) (count : byte) (types : bytes) (k : nat) :
  length server_version = 12 ->
  client_accepts server_version = true ->
  length types < N.to_nat (Struct.u8 count) ->
  let s := Stream.run (12 + length types + k)
             (Stream.start Client.test_vnc_handshake
                [Stream.Data server_version; Stream.Data (count :: types)]) in
  Stream.returned s = Some (Ok false)
  /\ Stream.closed s = false
  /\ Stream.trace s
     = client_offer_trace server_version count types
       ++ [ERecv 1 (Some 5%Q) (Received []);
           EPrint (Client.Error StructError)]
  /\ sent_bytes (Stream.trace s) = server_version.
Proof.
  intros Hlen Hacc Hcount s.
  assert (Hnz : (Struct.u8 count =? 0)%N = false).
  { apply N.eqb_neq. intros E. rewrite E in Hcount. cbn in Hcount. lia. }
  assert (E : s = Stream.mk_state (Ret (Ok false)) [] (Some 5%Q) false
                    (client_offer_trace server_version count types
                     ++ [ERecv 1 (Some 5%Q) (Received []);
                         EPrint (Client.Error StructError)])).
  { subst s. unfold client_accepts in Hacc.
    unfold client_offer_trace, version_str.
    destruct (Str.decode_ascii server_version) as [decoded|] eqn:Ed;
      [| discriminate].
    replace (12 + length types + k)
      with (10 + (length types + (2 + k))) by lia.
    rewrite (stream_run_add 10).
    remember (length types + (2 + k)) as f eqn:Ef.
    cbn. rewrite take_all by (rewrite Hlen; cbn; lia). cbn.
    rewrite Hlen. cbn. rewrite Ed. cbn. rewrite Hacc. cbn.
    rewrite take_one. cbn. rewrite Hnz. cbn.
    replace (N.to_nat (Struct.u8 count))
      with (length types + S (N.to_nat (Struct.u8 count) - length types - 1))
      by lia.
    subst f.
    change (match types with
            | [] => []
            | _ :: _ => [Stream.Data types]
            end) with (unread types []).
    rewrite run_recv_security_types_short. cbn.
    stream_halt. now rewrite <- !app_assoc. }
  rewrite E. cbn [Stream.returned Stream.prog Stream.incoming Stream.closed
                  Stream.trace].
  repeat split.
  unfold client_offer_trace.
  rewrite !sent_bytes_app, sent_offer_events. cbn.
  now rewrite !app_nil_r.
Qed.

(** A server that announces two types, sends one and closes. *)
Lemma client_truncated_offer_witness :
  length Server.RFB_VERSION = 12
  /\ client_accepts Server.RFB_VERSION = true
  /\ length [x01] < N.to_nat (Struct.u8 x02)
  /\ Stream.returned
       (Stream.run (12 + length [x01] + 0)
          (Stream.start Client.test_vnc_handshake
             [Stream.Data Server.RFB_VERSION; Stream.Data [x02; x01]]))
     = Some (Ok false).
Proof.
  split; [reflexivity |]. split; [reflexivity |].
  split; [vm_compute; lia |].
  destruct (@client_truncated_offer Server.RFB_VERSION x02 [x01] 0
              eq_refl eq_refl) as (H1 & _).
  - vm_compute; lia.
  - exact H1.
Defined.

Lemma length_24 (b : bytes) :
  length b = 24 ->
  exists b0 b1 b2 b3 b4 b5 b6 b7 b8 b9 b10 b11 b12 b13 b14 b15 b16 b17 b18
         b19 b20 b21 b22 b23,
    b = [b0; b1; b2; b3; b4; b5; b6; b7; b8; b9; b10; b11; b12; b13; b14;
         b15; b16; b17; b18; b19; b20; b21; b22; b23].
Proof.
  intros H.
  do 24 (destruct b as [|? b]; [discriminate H |]).
  destruct b; [| discriminate H].
  repeat eexists.
Qed.

(** The whole run of a client whose handshake goes through. *)
Lemma client_handshake_run
    (server_version : bytes) (count : byte)
    (types result_bytes server_init len_bytes name : bytes)
    (name_length : N) (desktop_name : str)
    (rest : list Stream.arrival) (k : nat) :
  length server_version = 12 ->
  client_accepts server_version = true ->
  N.to_nat (Struct.u8 count) = length types ->
  offers_none types = true ->
  Struct.unpack_I_be result_bytes = Ok 0%N ->
  length server_init = 24 ->
  Struct.unpack_I_be len_bytes = Ok name_length ->
  length name <= N.to_nat name_length ->
  (name = [] -> name_length = 0%N) ->
  Str.decode_utf8 name = Ok desktop_name ->
  Stream.run (40 + length types + k)
    (Stream.start Client.test_vnc_handshake
       (Stream.Data server_version :: Stream.Data (count :: types)
        :: Stream.Data result_bytes
        :: Stream.Data (server_init ++ len_bytes ++ name)
        :: rest))
  = Stream.mk_state (Ret (Ok (response_ok rest))) (response_left rest)
      (Some 2%Q) (response_ok rest)
      (client_trace_to_result server_version count types result_bytes
       ++ client_init_trace server_version server_init len_bytes name
            name_length desktop_name
       ++ response_events rest).
Proof.
  intros Hlen Hacc Hcount Hnone Hunpack Hsi Hlb Hname Hempty Hdec.
  unfold client_accepts in Hacc.
  unfold client_trace_to_result, client_init_trace, server_init_lines,
    server_init_size, version_str.
  destruct (Str.decode_ascii server_version) as [decoded|] eqn:Ed;
    [| discriminate].
  pose proof (unpack_I_be_length _ Hunpack) as Hlen4.
  pose proof (unpack_I_be_length _ Hlb) as Hlen4'.
  replace (40 + length types + k)
    with (10 + (length types + (30 + k))) by lia.
  rewrite (stream_run_add 10).
  remember (length types + (30 + k)) as f eqn:Ef.
  client_to_offer Hlen Ed Hacc Hcount Hnone.
  subst f. client_to_result Hnone Hlen4.
  rewrite Hunpack. cbn.
  rewrite take_app by (rewrite Hsi; reflexivity). cbn.
  rewrite Hsi. cbn.
  destruct (length_24 _ Hsi)
    as (b0 & b1 & b2 & b3 & b4 & b5 & b6 & b7 & b8 & b9 & b10 & b11 & b12
        & b13 & b14 & b15 & b16 & b17 & b18 & b19 & b20 & b21 & b22 & b23
        & ->).
  unfold Struct.slice. cbn.
  destruct len_bytes as [|l0 len_bytes]; [discriminate Hlen4' |].
  cbn. change (l0 :: len_bytes ++ name) with ((l0 :: len_bytes) ++ name).
  rewrite take_app by (rewrite Hlen4'; reflexivity). cbn.
  rewrite Hlb. cbn.
  rewrite (@pack_fbur_of_unpacked [b0; b1; b2; b3] _ _ eq_refl).
  assert (Hname' :
            (name_length =? 0)%N = true /\ name = [] /\ desktop_name = []
            \/ (name_length =? 0)%N = false
               /\ take name_length name = (name, [])
               /\ exists n0 name', name = n0 :: name').
  { destruct (N.eqb_spec name_length 0) as [-> | Hnz].
    - left. destruct name; [| cbn in Hname; lia].
      cbv in Hdec. injection Hdec as <-. auto.
    - right. split; [reflexivity |].
      split; [apply take_all; lia |].
      destruct name as [|n0 name']; [now specialize (Hempty eq_refl) | eauto]. }
  destruct Hname' as [(-> & -> & ->) | (-> & Htake & n0 & name' & ->)].
  - replace (Str.decode_utf8 []) with (@Ok str []) by reflexivity.
    unfold response_events, response_left, response_ok, unread.
    crank; now rewrite <- !app_assoc.
  - cbn. rewrite Htake. cbn. rewrite Hdec.
    unfold response_events, response_left, response_ok, unread.
    crank; now rewrite <- !app_assoc.
Qed.

Lemma negotiated_app (a b : list Client.line) :
  negotiated (a ++ b)
  = match negotiated a with
    | Some x => Some x
    | None => negotiated b
    end.
Proof.
  induction a as [|l a IH]; [reflexivity |].
  destruct l; cbn; try exact IH; reflexivity.
Qed.



(** The ServerInit message of the server is 24 bytes followed by the
    name; the last four of the 24 are the length of the name. *)
Lemma server_init_named_layout (bo : Struct.byteorder) (name : bytes) :
  (N.of_nat (length name) < 4294967296)%N ->
  exists fixed,
    server_init_named bo name = fixed ++ name
    /\ length fixed = 24
    /\ server_init_size fixed = (1024%N, 768%N)
    /\ Struct.unpack_I_be (Struct.slice fixed 20 24)
       = Ok (N.of_nat (length name)).
Proof.
  intros Hfit.
  destruct (Struct.pack_I_be (N.of_nat (length name))) as [nl|] eqn:Enl.
  2: { unfold Struct.pack_I_be in Enl. apply N.ltb_lt in Hfit.
       rewrite Hfit in Enl. discriminate Enl. }
  pose proof (unpack_pack_I_be _ Enl) as Hback.
  pose proof (unpack_I_be_length _ Hback) as Hlen4.
  unfold server_init_named. rewrite Enl.
  destruct nl as [|n0 [|n1 [|n2 [|n3 [|n4 nl]]]]]; try discriminate Hlen4.
  destruct bo; cbn;
    match goal with
    | |- exists fixed, ?m = _ /\ _ => exists (firstn 24 m)
    end;
    cbn [firstn]; (split; [reflexivity |]); (split; [reflexivity |]);
    (split; [reflexivity |]);
    unfold Struct.slice; cbn [firstn skipn]; exact Hback.
Qed.




(** ** Every run of the server *)

Lemma in_session_ok (bo : Struct.byteorder) (tr : list (event Server.line)) :
  in_session bo tr -> server_sends_ok bo tr.
Proof. intros [n H]. exists n. rewrite H. now rewrite firstn_all. Qed.

Lemma in_session_quiet (bo : Struct.byteorder)
    (tr : list (event Server.line)) (e : event Server.line) :
  sent_messages [e] = [] -> in_session bo tr -> in_session bo (tr ++ [e]).
Proof.
  intros He [n H]. exists n. now rewrite sent_messages_app, He, app_nil_r.
Qed.

Lemma in_session_update (bo : Struct.byteorder)
    (tr : list (event Server.line)) :
  in_session bo tr -> in_session bo (tr ++ [ESend empty_framebuffer_update]).
Proof.
  intros [n H]. exists (S n). rewrite sent_messages_app, H.
  unfold server_messages. rewrite <- app_assoc. f_equal.
  change (sent_messages [ESend empty_framebuffer_update])
    with (repeat empty_framebuffer_update 1).
  rewrite <- repeat_app. f_equal. lia.
Qed.

Ltac session_inv :=
  repeat first [ assumption
               | apply in_session_update
               | apply in_session_quiet; [reflexivity |] ].

Ltac server_step :=
  match goal with
  | |- forall _, _ => intro
  | |- _ /\ _ => split
  | |- True => exact I
  | |- in_session _ _ => first [ exists 0; reflexivity | solve [session_inv] ]
  | |- server_sends_ok _ _ =>
      first [ exists 0; reflexivity
            | apply in_session_ok; solve [session_inv] ]
  | |- closed_at_end _ _ (Ok ?u) =>
      unfold closed_at_end; rewrite ?rev_unit; destruct u; cbn; auto
  | |- closed_at_end _ _ _ =>
      unfold closed_at_end; rewrite ?rev_unit; cbn; auto
  | |- context [match ?x with _ => _ end] => destruct x
  end.

(** On every path through [handle_client]: what is sent is in order, each
    pass of the session loop keeps it so, and the function returns only
    through its [finally] clause. *)
Lemma server_safe (bo : Struct.byteorder) :
  safe (server_sends_ok bo) (in_session bo) closed_at_end
       (Server.handle_client bo) [] None false.
Proof.
  unfold Server.handle_client, Server.session_iteration.
  destruct bo.
  all: repeat (cbn; server_step).
Qed.

Lemma rev_two {X} (l rest : list X) (a b : X) :
  rev l = a :: b :: rest -> l = rev rest ++ [b; a].
Proof.
  intros H. rewrite <- (rev_involutive l), H. cbn.
  now rewrite <- app_assoc.
Qed.

(** X8.  The server always closes the connection.  Whenever
    [handle_client] returns (however the handshake or the session ended:
    a short read, a decoding error, end of file, a failure of the
    connection), it returns normally, the socket is closed, and the last
    two things it did were to close the socket and to print "Connection
    closed". *)
Theorem server_returns_closed
    (bo : Struct.byteorder) (inc : list Stream.arrival) (n : nat)
    (r : result unit) :
  let s := Stream.run n (Stream.start (Server.handle_client bo) inc) in
  Stream.returned s = Some r ->
  r = Ok tt
  /\ Stream.closed s = true
  /\ exists before,
       Stream.trace s
       = before ++ [EClose; EPrint Server.ConnectionClosed].
Proof.
  intros s Hr; subst s.
  destruct (@safe_returned _ _ _ _ _ _ _ _ _ (server_safe bo) Hr)
    as (H1 & H2 & H3).
  split; [exact H1 |]. split; [exact H2 |].
  destruct (rev (Stream.trace
                   (Stream.run n
                      (Stream.start (Server.handle_client bo) inc))))
    as [|[| | | | l |] [|[| | | | |] rest]] eqn:E;
    try contradiction; destruct l; try contradiction.
  exists (rev rest). exact (rev_two _ E).
Qed.

(** A client that connects and closes at once. *)
Lemma server_returns_closed_witness :
  Stream.returned
    (Stream.run 10
       (Stream.start (Server.handle_client Struct.LittleEndian) []))
  = Some (Ok tt)
  /\ Stream.closed
       (Stream.run 10
          (Stream.start (Server.handle_client Struct.LittleEndian) []))
     = true.
Proof.
  split; [vm_compute; reflexivity |].
  destruct (@server_returns_closed Struct.LittleEndian [] 10 (Ok tt))
    as (_ & H & _).
  - vm_compute; reflexivity.
  - exact H.
Defined.

(** X9.  What the server never sends.  At every moment of every run,
    whatever the client does, the messages the server has sent are the
    first ones of: "RFB 003.008\n", the offer [01 01], the security result
    [00 00 00 00], the ServerInit message, and then empty FramebufferUpdate
    messages.  In particular it never reports a failed security handshake
    and never sends a rectangle. *)
Theorem server_sends_only
    (bo : Struct.byteorder) (inc : list Stream.arrival) (n : nat) :
  server_sends_ok bo
    (Stream.trace (Stream.run n (Stream.start (Server.handle_client bo) inc))).
Proof. exact (@safe_always _ _ _ _ _ _ inc n (server_safe bo)). Qed.

(** ** The server, path by path *)

Arguments Server.session_iteration : simpl never.

Lemma pass_of_session_loop (K : result unit -> proc Server.line (result unit))
    (a : Stream.arrival) (rest : list Stream.arrival) (tmo : option Q)
    (tr : list (event Server.line)) (m : nat) :
  keeps_going a = true ->
  Stream.run (S (length (pass_events a)) + m)
    (Stream.mk_state (While Server.session_iteration K) (a :: rest) tmo
                     false tr)
  = Stream.run m
      (Stream.mk_state (While Server.session_iteration K) rest (Some 1%Q)
                       false (tr ++ pass_events a)).
Proof.
  intros Ha. destruct a as [[|b0 tail] | | e]; try discriminate Ha.
  - change ((length (b0 :: tail) <=? 1024) = true) in Ha.
    apply Nat.leb_le in Ha.
    unfold pass_events, dispatch_events, dispatch_lines.
    remember (b0 :: tail) as d eqn:Ed.
    assert (Ht : take 1024 d = (d, []))
      by (apply take_all; change (N.to_nat 1024) with 1024; lia).
    remember (Struct.u8 b0) as t eqn:Et.
    unfold Server.session_iteration.
    destruct (N.eqb_spec t 3) as [-> | H3].
    + cbn. rewrite Ht. subst d. cbn. rewrite <- Et. cbn.
      now rewrite <- !app_assoc.
    + destruct (N.eqb_spec t 0) as [-> | H0];
      [| destruct (N.eqb_spec t 2) as [-> | H2];
      [| destruct (N.eqb_spec t 4) as [-> | H4];
      [| destruct (N.eqb_spec t 5) as [-> | H5];
      [| destruct (N.eqb_spec t 6) as [-> | H6]]]]].
      all: cbn; rewrite Ht; subst d; cbn; rewrite <- Et; cbn.
      all: repeat match goal with
                  | Hn : ?t <> ?c |- context [(?t =? ?c)%N] =>
                      rewrite (proj2 (N.eqb_neq t c) Hn)
                  end; cbn.
      all: now rewrite <- !app_assoc.
  - unfold Server.session_iteration. cbn. now rewrite <- !app_assoc.
Qed.

Lemma session_loop_run (K : result unit -> proc Server.line (result unit))
    (items : list Stream.arrival) :
  forall (rest : list Stream.arrival) (tmo : option Q)
         (tr : list (event Server.line)) (m : nat),
    forallb keeps_going items = true ->
    Stream.run (session_steps items + m)
      (Stream.mk_state (While Server.session_iteration K) (items ++ rest)
                       tmo false tr)
    = Stream.run m
        (Stream.mk_state (While Server.session_iteration K) rest
                         (session_timeout tmo items) false
                         (tr ++ session_events items)).
Proof.
  induction items as [|a items IH]; intros rest tmo tr m Hall.
  - cbn. now rewrite app_nil_r.
  - cbn [forallb] in Hall. apply andb_prop in Hall. destruct Hall as [Ha Hall].
    cbn [session_steps app]. rewrite <- Nat.add_assoc.
    rewrite pass_of_session_loop by exact Ha.
    rewrite IH by exact Hall.
    unfold session_events. cbn [flat_map]. rewrite app_assoc.
    now destruct items.
Qed.

(** The server's handshake with a client that sends twelve bytes of
    UTF-8, a selection and a ClientInit byte: sixteen steps to the session
    loop. *)
Lemma server_handshake_run (bo : Struct.byteorder) (client_version : bytes)
    (selection client_init : byte) (after : bytes)
    (rest : list Stream.arrival) (m : nat) :
  server_accepts client_version = true ->
  Stream.run (16 + m)
    (Stream.start (Server.handle_client bo)
       (Stream.Data client_version :: Stream.Data [selection]
        :: Stream.Data (client_init :: after) :: rest))
  = Stream.run m
      (Stream.mk_state (While Server.session_iteration after_session)
         (unread after rest) None false
         (server_handshake_events bo client_version selection client_init)).
Proof.
  intros Hv. unfold server_accepts in Hv.
  apply andb_prop in Hv. destruct Hv as [H12 Hdec].
  unfold server_handshake_events, utf8_version_str.
  destruct (Str.decode_utf8 client_version) as [decoded|] eqn:Ed;
    [clear Hdec | discriminate].
  rewrite stream_run_add.
  cbn. rewrite take_all by (apply Nat.eqb_eq in H12; rewrite H12; cbn; lia).
  cbn. rewrite H12. cbn. rewrite Ed. cbn.
  rewrite take_one. cbn. rewrite take_one. cbn.
  destruct bo; reflexivity.
Qed.

Lemma sent_by_session (items : list Stream.arrival) :
  forallb keeps_going items = true ->
  sent_bytes (session_events items) = responses items.
Proof.
  induction items as [|a items IH]; [reflexivity |].
  cbn [forallb]. intros Hall. apply andb_prop in Hall.
  destruct Hall as [Ha Hall].
  unfold session_events, responses in *. cbn [flat_map].
  rewrite sent_bytes_app, IH by exact Hall. f_equal.
  destruct a as [[|b0 tail] | | e]; try discriminate Ha; [| reflexivity].
  cbn. unfold dispatch_events, dispatch_lines.
  destruct (Struct.u8 b0 =? 3)%N; [reflexivity |].
  repeat match goal with
         | |- context [if ?c then _ else _] => destruct c
         end; reflexivity.
Qed.

(** X10.  ClientInit.  After the security result, the server reads one
    byte.  Whatever that byte is (the shared flag is printed and otherwise
    ignored), and whether or not more bytes came with it, the server sends
    the same ServerInit and enters its session loop.  When the read
    returns no byte, the server prints "Invalid ClientInit", closes the
    connection and returns; it has sent no ServerInit. *)
Theorem server_init_for_any_client_init
    (bo : Struct.byteorder) (client_version : bytes) (selection : byte)
    (burst : bytes) (rest : list Stream.arrival) (k : nat) :
  server_accepts client_version = true ->
  let s := Stream.run (16 + k)
             (Stream.start (Server.handle_client bo)
                (Stream.Data client_version :: Stream.Data [selection]
                 :: Stream.Data burst :: rest)) in
  match burst with
  | shared_flag :: _ =>
      exists es,
        Stream.trace s
        = server_handshake_events bo client_version selection shared_flag
          ++ es
  | [] =>
      Stream.returned s = Some (Ok tt)
      /\ Stream.closed s = true
      /\ sent_bytes (Stream.trace s)
         = Server.RFB_VERSION ++ [x01; x01] ++ [x00; x00; x00; x00]
      /\ In Server.InvalidClientInit (printed (Stream.trace s))
  end.
Proof.
  intros Hv s; subst s.
  destruct burst as [|shared_flag after].
  - unfold server_accepts in Hv.
    apply andb_prop in Hv. destruct Hv as [H12 Hdec].
    destruct (Str.decode_utf8 client_version) as [decoded|] eqn:Ed;
      [clear Hdec | discriminate].
    cbn. rewrite take_all by (apply Nat.eqb_eq in H12; rewrite H12; cbn; lia).
    cbn. rewrite H12. cbn. rewrite Ed. cbn.
    rewrite take_all by (cbn; lia). cbn.
    rewrite take_all by (cbn; lia). cbn.
    stream_halt. repeat split. auto 20.
  - rewrite server_handshake_run by exact Hv.
    match goal with
    | |- context [Stream.run k ?s0] =>
        destruct (stream_run_trace k s0) as [es Hes]
    end.
    exists es. exact Hes.
Qed.

(** A client that sends the shared flag 0 ("exclusive") is sent the same
    ServerInit. *)
Lemma server_init_for_any_client_init_witness :
  server_accepts Server.RFB_VERSION = true
  /\ exists es,
       Stream.trace
         (Stream.run (16 + 0)
            (Stream.start (Server.handle_client Struct.LittleEndian)
               [Stream.Data Server.RFB_VERSION; Stream.Data [x01];
                Stream.Data [x00]]))
       = server_handshake_events Struct.LittleEndian Server.RFB_VERSION
           x01 x00
         ++ es.
Proof.
  split; [reflexivity |].
  exact (@server_init_for_any_client_init
           Struct.LittleEndian Server.RFB_VERSION x01 [x00] [] 0 eq_refl).
Defined.

(** X11.  The session loop, pass after pass.  After the handshake, for
    every sequence of arrivals each of which is a burst of 1 to 1024 bytes
    or a silence of a second, the server makes one pass per arrival: it
    sets the one-second timeout, reads once, and for a burst prints its
    first byte and its length and dispatches on that byte alone; a silence
    ends the pass without output.  It sends one empty FramebufferUpdate
    for each burst that begins with byte 3 and nothing else.  After any
    such sequence the server is still in its loop, the connection open:
    nothing but the end of the connection makes it leave. *)
Theorem server_session_passes
    (bo : Struct.byteorder) (client_version : bytes)
    (selection client_init : byte) (items rest : list Stream.arrival) :
  server_accepts client_version = true ->
  forallb keeps_going items = true ->
  let s := Stream.run (16 + session_steps items)
             (Stream.start (Server.handle_client bo)
                (Stream.Data client_version :: Stream.Data [selection]
                 :: Stream.Data [client_init] :: items ++ rest)) in
  Stream.trace s
    = server_handshake_events bo client_version selection client_init
      ++ session_events items
  /\ sent_bytes (Stream.trace s)
     = Server.RFB_VERSION ++ [x01; x01] ++ [x00; x00; x00; x00]
       ++ server_init bo ++ responses items
  /\ Stream.incoming s = rest
  /\ Stream.closed s = false
  /\ Stream.returned s = None
  /\ Stream.hung s = false.
Proof.
  intros Hv Hall s; subst s.
  replace (16 + session_steps items) with (16 + (session_steps items + 0))
    by lia.
  rewrite server_handshake_run by exact Hv. cbn [unread].
  rewrite session_loop_run by exact Hall.
  cbn [Stream.run Stream.trace Stream.incoming Stream.closed].
  split; [reflexivity |].
  split; [| repeat split].
  rewrite sent_bytes_app, sent_by_session by exact Hall.
  unfold server_handshake_events. cbn [sent_bytes].
  now rewrite <- !app_assoc.
Qed.

(** A FramebufferUpdateRequest, a silence, a KeyEvent, and a burst of two
    messages: two empty FramebufferUpdates are sent. *)
Lemma server_session_passes_witness :
  server_accepts Server.RFB_VERSION = true
  /\ forallb keeps_going session_sample = true
  /\ sent_bytes
       (Stream.trace
          (Stream.run (16 + session_steps session_sample)
             (Stream.start (Server.handle_client Struct.LittleEndian)
                (Stream.Data Server.RFB_VERSION :: Stream.Data [x01]
                 :: Stream.Data [x01] :: session_sample ++ []))))
     = Server.RFB_VERSION ++ [x01; x01] ++ [x00; x00; x00; x00]
       ++ server_init Struct.LittleEndian
       ++ empty_framebuffer_update ++ empty_framebuffer_update.
Proof.
  split; [reflexivity |]. split; [reflexivity |].
  destruct (@server_session_passes
              Struct.LittleEndian Server.RFB_VERSION x01 x01
              session_sample [] eq_refl eq_refl) as (_ & H & _).
  exact H.
Defined.

(** X12.  The end of the session.  The loop ends when a read returns
    [b''] (the client has closed) or raises anything but a timeout; the
    server then prints "Client disconnected" or the error, closes the
    connection, prints "Connection closed" and returns.  It sends nothing
    on the way out. *)
Theorem server_session_ends
    (bo : Struct.byteorder) (client_version : bytes)
    (selection client_init : byte) (items rest : list Stream.arrival)
    (k : nat) :
  server_accepts client_version = true ->
  forallb keeps_going items = true ->
  ends_session rest = true ->
  let s := Stream.run (16 + session_steps items + 8 + k)
             (Stream.start (Server.handle_client bo)
                (Stream.Data client_version :: Stream.Data [selection]
                 :: Stream.Data [client_init] :: items ++ rest)) in
  Stream.returned s = Some (Ok tt)
  /\ Stream.closed s = true
  /\ Stream.trace s
     = server_handshake_events bo client_version selection client_init
       ++ session_events items ++ last_pass rest
       ++ [EClose; EPrint Server.ConnectionClosed]
  /\ sent_bytes (Stream.trace s)
     = Server.RFB_VERSION ++ [x01; x01] ++ [x00; x00; x00; x00]
       ++ server_init bo ++ responses items.
Proof.
  intros Hv Hall Hend s.
  assert (E : s = Stream.mk_state (Ret (Ok tt))
                    (tl rest) (Some 1%Q) true
                    (server_handshake_events bo client_version selection
                       client_init
                     ++ session_events items ++ last_pass rest
                     ++ [EClose; EPrint Server.ConnectionClosed])).
  { subst s.
    replace (16 + session_steps items + 8 + k)
      with (16 + (session_steps items + (8 + k))) by lia.
    rewrite server_handshake_run by exact Hv. cbn [unread].
    rewrite session_loop_run by exact Hall.
    unfold Server.session_iteration.
    destruct rest as [|[[|b0 tail] | | e] rest]; try discriminate Hend.
    - cbn. stream_halt. now rewrite <- !app_assoc.
    - cbn. rewrite take_all by (cbn; lia). cbn. stream_halt.
      now rewrite <- !app_assoc.
    - destruct e; try discriminate Hend; cbn; stream_halt;
        now rewrite <- !app_assoc. }
  rewrite E. cbn [Stream.returned Stream.prog Stream.closed Stream.trace].
  repeat split.
  rewrite !sent_bytes_app, sent_by_session by exact Hall.
  unfold server_handshake_events. cbn [sent_bytes].
  replace (sent_bytes (last_pass rest)) with (@nil byte).
  - cbn. now rewrite <- ?app_assoc, ?app_nil_r.
  - destruct rest as [|[[|b0 tail] | | e] rest]; try discriminate Hend;
      try reflexivity.
    destruct e; reflexivity.
Qed.

(** The same session, ended by a reset of the connection. *)
Lemma server_session_ends_witness :
  server_accepts Server.RFB_VERSION = true
  /\ forallb keeps_going session_sample = true
  /\ ends_session [Stream.Fails OtherError] = true
  /\ Stream.returned
       (Stream.run (16 + session_steps session_sample + 8 + 0)
          (Stream.start (Server.handle_client Struct.LittleEndian)
             (Stream.Data Server.RFB_VERSION :: Stream.Data [x01]
              :: Stream.Data [x01]
              :: session_sample ++ [Stream.Fails OtherError])))
     = Some (Ok tt).
Proof.
  split; [reflexivity |]. split; [reflexivity |]. split; [reflexivity |].
  destruct (@server_session_ends
              Struct.LittleEndian Server.RFB_VERSION x01 x01
              session_sample [Stream.Fails OtherError] 0
              eq_refl eq_refl eq_refl) as (H & _).
  exact H.
Defined.

(** ** Bursts and reads *)

(** One pass of the session loop over a burst of any length: [recv(1024)]
    takes [got] and leaves [left]. *)
Lemma pass_of_session_loop_split
    (K : result unit -> proc Server.line (result unit))
    (d got left : bytes) (rest : list Stream.arrival) (tmo : option Q)
    (tr : list (event Server.line)) (m : nat) :
  take 1024 d = (got, left) ->
  got <> [] ->
  Stream.run (S (length (pass_events (Stream.Data got))) + m)
    (Stream.mk_state (While Server.session_iteration K)
                     (Stream.Data d :: rest) tmo false tr)
  = Stream.run m
      (Stream.mk_state (While Server.session_iteration K)
                       (unread left rest) (Some 1%Q) false
                       (tr ++ pass_events (Stream.Data got))).
Proof.
  intros Ht Hne. destruct got as [|b0 tail]; [now elim Hne |]. clear Hne.
  unfold pass_events, dispatch_events, dispatch_lines, unread.
  remember (b0 :: tail) as g eqn:Eg.
  remember (Struct.u8 b0) as t eqn:Et.
  unfold Server.session_iteration.
  destruct (N.eqb_spec t 3) as [-> | H3].
  - cbn. rewrite Ht. subst g. cbn. rewrite <- Et. cbn.
    now rewrite <- !app_assoc.
  - destruct (N.eqb_spec t 0) as [-> | H0];
    [| destruct (N.eqb_spec t 2) as [-> | H2];
    [| destruct (N.eqb_spec t 4) as [-> | H4];
    [| destruct (N.eqb_spec t 5) as [-> | H5];
    [| destruct (N.eqb_spec t 6) as [-> | H6]]]]].
    all: cbn; rewrite Ht; subst g; cbn; rewrite <- Et; cbn.
    all: repeat match goal with
                | Hn : ?t <> ?c |- context [(?t =? ?c)%N] =>
                    rewrite (proj2 (N.eqb_neq t c) Hn)
                end; cbn.
    all: now rewrite <- !app_assoc.
Qed.

(** X16.  A burst longer than the buffer.  The session loop reads at most
    1024 bytes at a time, so a burst of more than 1024 bytes is handled
    exactly as two bursts would be: the first 1024 bytes make one pass,
    dispatched on their first byte, and the rest makes the next pass,
    dispatched on the byte that happens to come first in it. *)
Theorem session_splits_long_burst
    (bo : Struct.byteorder) (client_version : bytes)
    (selection client_init : byte) (first more : bytes)
    (rest : list Stream.arrival) :
  server_accepts client_version = true ->
  length first = 1024 ->
  keeps_going (Stream.Data more) = true ->
  let n := 16 + session_steps [Stream.Data first; Stream.Data more] in
  Stream.run n
    (Stream.start (Server.handle_client bo)
       (Stream.Data client_version :: Stream.Data [selection]
        :: Stream.Data [client_init]
        :: Stream.Data (first ++ more) :: rest))
  = Stream.run n
      (Stream.start (Server.handle_client bo)
         (Stream.Data client_version :: Stream.Data [selection]
          :: Stream.Data [client_init]
          :: Stream.Data first :: Stream.Data more :: rest)).
Proof.
  intros Hv Hfirst Hmore n; subst n.
  assert (Hne : first <> []) by (intros ->; discriminate Hfirst).
  assert (Hk : keeps_going (Stream.Data first) = true).
  { destruct first as [|b0 tail]; [now elim Hne |].
    change ((length (b0 :: tail) <=? 1024) = true).
    rewrite Hfirst. reflexivity. }
  replace (16 + session_steps [Stream.Data first; Stream.Data more])
    with (16 + (session_steps [Stream.Data first; Stream.Data more] + 0))
    by lia.
  rewrite !server_handshake_run by exact Hv. cbn [unread].
  rewrite (@session_loop_run after_session
             [Stream.Data first; Stream.Data more] rest)
    by (cbn [forallb]; now rewrite Hk, Hmore).
  cbn [session_steps]. rewrite <- !Nat.add_assoc.
  rewrite (@pass_of_session_loop_split after_session (first ++ more)
             first more)
    by (try apply take_app; try exact Hne; now rewrite Hfirst).
  destruct more as [|m0 more]; [discriminate Hmore |].
  cbn [unread].
  rewrite pass_of_session_loop by exact Hmore.
  unfold session_events. cbn [flat_map session_timeout].
  now rewrite <- !app_assoc, app_nil_r.
Qed.

(** 1024 bytes of pointer events followed by a KeyEvent. *)
Lemma session_splits_long_burst_witness :
  sent_bytes
    (Stream.trace
       (Stream.run
          (16 + session_steps [Stream.Data (repeat x05 1024);
                               Stream.Data key_event_A])
          (Stream.start (Server.handle_client Struct.LittleEndian)
             [Stream.Data Server.RFB_VERSION; Stream.Data [x01];
              Stream.Data [x01];
              Stream.Data (repeat x05 1024 ++ key_event_A)])))
  = sent_bytes
      (Stream.trace
         (Stream.run
            (16 + session_steps [Stream.Data (repeat x05 1024);
                                 Stream.Data key_event_A])
            (Stream.start (Server.handle_client Struct.LittleEndian)
               [Stream.Data Server.RFB_VERSION; Stream.Data [x01];
                Stream.Data [x01];
                Stream.Data (repeat x05 1024); Stream.Data key_event_A]))).
Proof.
  rewrite (@session_splits_long_burst
             Struct.LittleEndian Server.RFB_VERSION x01 x01
             (repeat x05 1024) key_event_A [] eq_refl);
    [reflexivity | vm_compute; reflexivity | reflexivity].
Defined.

(** X17.  The server's handshake reads by size.  When the client's
    version, selection and ClientInit arrive in one burst, with whatever
    the client sent after them, the handshake goes as it does when they
    arrive one by one, and what came after them is left for the session
    loop. *)
Theorem server_handshake_coalesced
    (bo : Struct.byteorder) (client_version : bytes)
    (selection client_init : byte) (after : bytes)
    (rest : list Stream.arrival) (k : nat) :
  server_accepts client_version = true ->
  Stream.run (16 + k)
    (Stream.start (Server.handle_client bo)
       (Stream.Data (client_version ++ selection :: client_init :: after)
        :: rest))
  = Stream.run (16 + k)
      (Stream.start (Server.handle_client bo)
         (Stream.Data client_version :: Stream.Data [selection]
          :: Stream.Data (client_init :: after) :: rest)).
Proof.
  intros Hv. rewrite server_handshake_run by exact Hv.
  unfold server_accepts in Hv.
  apply andb_prop in Hv. destruct Hv as [H12 Hdec].
  unfold server_handshake_events, utf8_version_str.
  destruct (Str.decode_utf8 client_version) as [decoded|] eqn:Ed;
    [clear Hdec | discriminate].
  apply Nat.eqb_eq in H12.
  rewrite stream_run_add.
  cbn. rewrite take_app by (rewrite H12; reflexivity).
  cbn. rewrite H12. cbn. rewrite Ed. cbn.
  rewrite take_one. cbn. rewrite take_one. cbn.
  destruct bo; reflexivity.
Qed.

(** The version, the selection, ClientInit and a FramebufferUpdateRequest
    in one burst: the request is answered in the session loop. *)
Lemma server_handshake_coalesced_witness :
  sent_bytes
    (Stream.trace
       (Stream.run (16 + 7)
          (Stream.start (Server.handle_client Struct.LittleEndian)
             [Stream.Data (Server.RFB_VERSION ++ x01 :: x01 :: fbur_1024_768)])))
  = Server.RFB_VERSION ++ [x01; x01] ++ [x00; x00; x00; x00]
    ++ server_init Struct.LittleEndian ++ empty_framebuffer_update.
Proof.
  rewrite (@server_handshake_coalesced
             Struct.LittleEndian Server.RFB_VERSION x01 x01 fbur_1024_768
             [] 7 eq_refl).
  vm_compute. reflexivity.
Defined.

(** The loop that reads the offered types from a burst that goes on after
    them. *)
Lemma run_recv_security_types_from
    (G : list N -> M Client.line bool)
    (H : result bool -> proc Client.line (result bool))
    (rest : list Stream.arrival) (m : nat) (types more : bytes) :
  forall (security_types : list N) (tr : list (event Client.line)),
    Stream.run (length types + m)
      (Stream.mk_state
         (pbind (bind (Client.recv_security_types (length types)
                         security_types) G) H)
         (unread (types ++ more) rest) (Some 5%Q) false tr)
    = Stream.run m
        (Stream.mk_state
           (pbind (G (security_types ++ map Struct.u8 types)) H)
           (unread more rest) (Some 5%Q) false (tr ++ offer_events types)).
Proof.
  unfold bind.
  induction types as [|b types IH]; intros security_types tr.
  - cbn. now rewrite !app_nil_r.
  - change (length (b :: types) + m) with (S (length types + m)).
    cbn [Stream.run]. unfold Stream.step at 1. cbn.
    rewrite take_one. cbn.
    change (match types ++ more with
            | [] => rest
            | _ :: _ => Stream.Data (types ++ more) :: rest
            end) with (unread (types ++ more) rest).
    rewrite IH.
    now rewrite <- !app_assoc.
Qed.

Lemma client_handshake_run_coalesced
    (server_version : bytes) (count : byte)
    (types result_bytes server_init len_bytes name : bytes)
    (name_length : N) (desktop_name : str)
    (rest : list Stream.arrival) (k : nat) :
  length server_version = 12 ->
  client_accepts server_version = true ->
  N.to_nat (Struct.u8 count) = length types ->
  offers_none types = true ->
  Struct.unpack_I_be result_bytes = Ok 0%N ->
  length server_init = 24 ->
  Struct.unpack_I_be len_bytes = Ok name_length ->
  length name <= N.to_nat name_length ->
  (name = [] -> name_length = 0%N) ->
  Str.decode_utf8 name = Ok desktop_name ->
  Stream.run (40 + length types + k)
    (Stream.start Client.test_vnc_handshake
       (Stream.Data (server_version ++ count :: types ++ result_bytes
                       ++ server_init ++ len_bytes ++ name)
        :: rest))
  = Stream.mk_state (Ret (Ok (response_ok rest))) (response_left rest)
      (Some 2%Q) (response_ok rest)
      (client_trace_to_result server_version count types result_bytes
       ++ client_init_trace server_version server_init len_bytes name
            name_length desktop_name
       ++ response_events rest).
Proof.
  intros Hlen Hacc Hcount Hnone Hunpack Hsi Hlb Hname Hempty Hdec.
  unfold client_accepts in Hacc.
  unfold client_trace_to_result, client_init_trace, server_init_lines,
    server_init_size, version_str.
  destruct (Str.decode_ascii server_version) as [decoded|] eqn:Ed;
    [| discriminate].
  pose proof (unpack_I_be_length _ Hlb) as Hlen4'.
  apply unpack_I_be_zero in Hunpack. subst result_bytes.
  destruct (length_24 _ Hsi)
    as (b0 & b1 & b2 & b3 & b4 & b5 & b6 & b7 & b8 & b9 & b10 & b11 & b12
        & b13 & b14 & b15 & b16 & b17 & b18 & b19 & b20 & b21 & b22 & b23
        & ->).
  replace (40 + length types + k)
    with (10 + (length types + (30 + k))) by lia.
  rewrite (stream_run_add 10).
  remember (length types + (30 + k)) as f eqn:Ef.
  cbn; rewrite take_app by (rewrite Hlen; reflexivity); cbn;
  rewrite Hlen; cbn; rewrite Ed; cbn; rewrite Hacc; cbn;
  rewrite take_one; cbn;
  rewrite (offers_none_nonempty _ _ Hcount Hnone); cbn;
  rewrite Hcount.
  subst f.
  match goal with
  | |- context [match types ++ ?more with
                | [] => rest
                | _ :: _ => _
                end] =>
      change (match types ++ more with
              | [] => rest
              | _ :: _ => Stream.Data (types ++ more) :: rest
              end) with (unread (types ++ more) rest)
  end.
  rewrite run_recv_security_types_from. cbn.
  unfold offers_none in Hnone. rewrite Hnone. cbn.
  match goal with
  | |- context [take 4 (?a :: ?b :: ?c :: ?d :: ?l)] =>
      change (a :: b :: c :: d :: l) with ([a; b; c; d] ++ l)
  end.
  rewrite take_app by reflexivity. cbn.
  replace (Struct.unpack_I_be [x00; x00; x00; x00]) with (@Ok N 0%N)
    by reflexivity.
  cbn.
  match goal with
  | |- context [take 24 ?l] =>
      change l
        with ([b0; b1; b2; b3; b4; b5; b6; b7; b8; b9; b10; b11; b12; b13;
               b14; b15; b16; b17; b18; b19; b20; b21; b22; b23]
              ++ len_bytes ++ name)
  end.
  rewrite take_app by reflexivity.
  cbn. unfold Struct.slice. cbn.
  destruct len_bytes as [|l0 len_bytes]; [discriminate Hlen4' |].
  cbn. change (l0 :: len_bytes ++ name) with ((l0 :: len_bytes) ++ name).
  rewrite take_app by (rewrite Hlen4'; reflexivity). cbn.
  rewrite Hlb. cbn.
  rewrite (@pack_fbur_of_unpacked [b0; b1; b2; b3] _ _ eq_refl).
  assert (Hname' :
            (name_length =? 0)%N = true /\ name = [] /\ desktop_name = []
            \/ (name_length =? 0)%N = false
               /\ take name_length name = (name, [])
               /\ exists n0 name', name = n0 :: name').
  { destruct (N.eqb_spec name_length 0) as [-> | Hnz].
    - left. destruct name; [| cbn in Hname; lia].
      cbv in Hdec. injection Hdec as <-. auto.
    - right. split; [reflexivity |].
      split; [apply take_all; lia |].
      destruct name as [|n0 name']; [now specialize (Hempty eq_refl) | eauto]. }
  destruct Hname' as [(-> & -> & ->) | (-> & Htake & n0 & name' & ->)].
  - replace (Str.decode_utf8 []) with (@Ok str []) by reflexivity.
    unfold response_events, response_left, response_ok, unread.
    crank; now rewrite <- !app_assoc.
  - cbn. rewrite Htake. cbn. rewrite Hdec.
    unfold response_events, response_left, response_ok, unread.
    crank; now rewrite <- !app_assoc.
Qed.

(** X18.  The client reads by size.  When everything the server sends up
    to the desktop name arrives in one burst, a handshake that goes
    through goes exactly as it does when the version, the security offer,
    the security result and ServerInit arrive one by one: each [recv]
    takes the bytes it asks for and leaves the rest. *)
Theorem client_handshake_coalesced
    (server_version : bytes) (count : byte)
    (types result_bytes server_init len_bytes name : bytes)
    (name_length : N) (desktop_name : str)
    (rest : list Stream.arrival) (k : nat) :
  length server_version = 12 ->
  client_accepts server_version = true ->
  N.to_nat (Struct.u8 count) = length types ->
  offers_none types = true ->
  Struct.unpack_I_be result_bytes = Ok 0%N ->
  length server_init = 24 ->
  Struct.unpack_I_be len_bytes = Ok name_length ->
  length name <= N.to_nat name_length ->
  (name = [] -> name_length = 0%N) ->
  Str.decode_utf8 name = Ok desktop_name ->
  Stream.run (40 + length types + k)
    (Stream.start Client.test_vnc_handshake
       (Stream.Data (server_version ++ count :: types ++ result_bytes
                       ++ server_init ++ len_bytes ++ name)
        :: rest))
  = Stream.run (40 + length types + k)
      (Stream.start Client.test_vnc_handshake
         (Stream.Data server_version :: Stream.Data (count :: types)
          :: Stream.Data result_bytes
          :: Stream.Data (server_init ++ len_bytes ++ name)
          :: rest)).
Proof.
  intros.
  rewrite (@client_handshake_run server_version count types result_bytes
             server_init len_bytes name name_length desktop_name rest k)
    by assumption.
  now apply client_handshake_run_coalesced.
Qed.

(** Everything the server of the repository sends, in one burst. *)
Lemma client_handshake_coalesced_witness :
  Stream.returned
    (Stream.run (40 + length [x01] + 0)
       (Stream.start Client.test_vnc_handshake
          [Stream.Data
             (Server.RFB_VERSION ++ x01 :: [x01] ++ [x00; x00; x00; x00]
              ++ firstn 24 (server_init Struct.LittleEndian)
              ++ ["H"; "o"; "r"; "c"]%byte
              ++ ["r"; "u"; "x"; " "; "T"; "e"; "s"; "t"; " "; "V"; "M"]%byte)]))
  = Some (Ok true).
Proof.
  rewrite (@client_handshake_coalesced
             Server.RFB_VERSION x01 [x01] [x00; x00; x00; x00]
             (firstn 24 (server_init Struct.LittleEndian))
             ["H"; "o"; "r"; "c"]%byte
             ["r"; "u"; "x"; " "; "T"; "e"; "s"; "t"; " "; "V"; "M"]%byte
             1215263331 rux_Test_VM [] 0
             eq_refl eq_refl eq_refl eq_refl eq_refl eq_refl eq_refl).
  - vm_compute. reflexivity.
  - simpl length; lia.
  - discriminate.
  - reflexivity.
Defined.

(** ** The life of the server *)

Lemma accept_loop_interrupted (pre post : list Lifecycle.accepted) :
  Lifecycle.uninterrupted pre = true ->
  forall (h : bytes) (p : N) (cs : list nat) (tr : list Lifecycle.action),
    Lifecycle.accept_loop (pre ++ Lifecycle.Interrupt :: post)
      (Lifecycle.mk_server h p true cs true) tr
    = (Lifecycle.Returns tt,
       Lifecycle.mk_server h p true (cs ++ Lifecycle.accepted_clients pre)
                           true,
       tr ++ Lifecycle.accept_actions pre ++ [Lifecycle.Accept]).
Proof.
  induction pre as [|[c | | e] pre IH]; intros Hpre h p cs tr; cbn in *.
  - now rewrite app_nil_r.
  - rewrite IH by exact Hpre. now rewrite <- !app_assoc.
  - discriminate Hpre.
  - rewrite IH by exact Hpre. now rewrite <- !app_assoc.
Qed.

Lemma accept_loop_blocks (conns : list Lifecycle.accepted) :
  Lifecycle.uninterrupted conns = true ->
  forall (h : bytes) (p : N) (cs : list nat) (tr : list Lifecycle.action),
    Lifecycle.accept_loop conns (Lifecycle.mk_server h p true cs true) tr
    = (Lifecycle.Blocks,
       Lifecycle.mk_server h p true (cs ++ Lifecycle.accepted_clients conns)
                           true,
       tr ++ Lifecycle.accept_actions conns ++ [Lifecycle.Accept]).
Proof.
  induction conns as [|[c | | e] conns IH]; intros Hc h p cs tr; cbn in *.
  - now rewrite app_nil_r.
  - rewrite IH by exact Hc. now rewrite <- !app_assoc.
  - discriminate Hc.
  - rewrite IH by exact Hc. now rewrite <- !app_assoc.
Qed.

(** X19.  From [start] to Ctrl+C.  When [bind] succeeds and [accept] is
    interrupted after any number of connections and failed calls, [start]
    has started one thread for each connection it accepted, in order, and
    recorded its socket; a failed [accept] is printed and the loop goes on.
    On Ctrl+C the loop ends and [start] returns normally through [stop]:
    [close] is called on every accepted socket, in the order of arrival
    and whether or not an earlier [close] raised, then the listening socket
    is closed, and the server is no longer running. *)
Theorem start_serves_until_interrupted
    (w : Lifecycle.world) (port : N) (pre post : list Lifecycle.accepted) :
  Lifecycle.bind_result w = Lifecycle.Returns tt ->
  Lifecycle.connections w = pre ++ Lifecycle.Interrupt :: post ->
  Lifecycle.uninterrupted pre = true ->
  Lifecycle.start w (Lifecycle.init Lifecycle.localhost port) []
  = (Lifecycle.Returns tt,
     Lifecycle.mk_server Lifecycle.localhost port false
       (Lifecycle.accepted_clients pre) true,
     Lifecycle.startup port
     ++ Lifecycle.accept_actions pre ++ [Lifecycle.Accept]
     ++ Lifecycle.stop_actions w (Lifecycle.accepted_clients pre)).
Proof.
  intros Hb Hc Hpre. unfold Lifecycle.start, Lifecycle.init.
  rewrite Hb, Hc. cbn [Lifecycle.host Lifecycle.port Lifecycle.running
                        Lifecycle.clients Lifecycle.server_socket].
  rewrite accept_loop_interrupted by exact Hpre.
  unfold Lifecycle.stop, Lifecycle.stop_actions, Lifecycle.startup.
  cbn [Lifecycle.host Lifecycle.port Lifecycle.running
       Lifecycle.clients Lifecycle.server_socket app].
  now rewrite <- !app_assoc.
Qed.

(** Two clients, and Ctrl+C. *)
Lemma start_serves_until_interrupted_witness :
  Lifecycle.clients
    (snd (fst (Lifecycle.start Lifecycle.two_clients
                 (Lifecycle.init Lifecycle.localhost 5900) [])))
  = [1; 2]
  /\ Lifecycle.occurrences Lifecycle.is_thread_start
       (snd (Lifecycle.start Lifecycle.two_clients
               (Lifecycle.init Lifecycle.localhost 5900) []))
     = 2.
Proof.
  rewrite (@start_serves_until_interrupted
             Lifecycle.two_clients 5900
             [Lifecycle.Connection 1; Lifecycle.AcceptError OtherError;
              Lifecycle.Connection 2] [] eq_refl eq_refl eq_refl).
  split; reflexivity.
Defined.

(** X20.  The server does not stop by itself.  When [bind] succeeds and no
    [accept] is interrupted, [start] never returns: it has served every
    connection and is waiting in [accept]; it is still running, no socket
    has been closed and [stop] has not been called. *)
Theorem start_waits_for_ever (w : Lifecycle.world) (port : N) :
  Lifecycle.bind_result w = Lifecycle.Returns tt ->
  Lifecycle.uninterrupted (Lifecycle.connections w) = true ->
  Lifecycle.start w (Lifecycle.init Lifecycle.localhost port) []
  = (Lifecycle.Blocks,
     Lifecycle.mk_server Lifecycle.localhost port true
       (Lifecycle.accepted_clients (Lifecycle.connections w)) true,
     Lifecycle.startup port
     ++ Lifecycle.accept_actions (Lifecycle.connections w)
     ++ [Lifecycle.Accept]).
Proof.
  intros Hb Hc. unfold Lifecycle.start, Lifecycle.init.
  rewrite Hb. cbn [Lifecycle.host Lifecycle.port Lifecycle.running
                   Lifecycle.clients Lifecycle.server_socket].
  rewrite accept_loop_blocks by exact Hc.
  unfold Lifecycle.startup. cbn [app]. reflexivity.
Qed.

(** One client and no Ctrl+C. *)
Lemma start_waits_for_ever_witness :
  fst (fst (Lifecycle.start
              (Lifecycle.mk_world (Lifecycle.Returns tt)
                 [Lifecycle.Connection 1] (fun _ => None))
              (Lifecycle.init Lifecycle.localhost 5900) []))
  = Lifecycle.Blocks.
Proof.
  rewrite (@start_waits_for_ever
             (Lifecycle.mk_world (Lifecycle.Returns tt)
                [Lifecycle.Connection 1] (fun _ => None))
             5900 eq_refl eq_refl).
  reflexivity.
Defined.

Lemma occurrences_app (P : Lifecycle.action -> bool)
    (a b : list Lifecycle.action) :
  Lifecycle.occurrences P (a ++ b)
  = Lifecycle.occurrences P a + Lifecycle.occurrences P b.
Proof.
  induction a as [|x a IH]; cbn; [reflexivity |]. rewrite IH. lia.
Qed.

Lemma occurrences_closes (w : Lifecycle.world) (P : Lifecycle.action -> bool)
    (cs : list nat) :
  (forall c r, P (Lifecycle.CloseClient c r) = false) ->
  Lifecycle.occurrences P
    (map (fun c => Lifecycle.CloseClient c (Lifecycle.close_result w c)) cs)
  = 0.
Proof.
  intros HP. induction cs as [|c cs IH]; cbn; [reflexivity |].
  now rewrite HP, IH.
Qed.

(** The accept loop returns or waits for ever; it neither raises nor
    stops the server. *)
Lemma accept_loop_quiet (P : Lifecycle.action -> bool)
    (conns : list Lifecycle.accepted) :
  P Lifecycle.Accept = false ->
  (forall l, l <> Lifecycle.ServerStopped -> P (Lifecycle.PrintLine l) = false) ->
  (forall c, P (Lifecycle.ThreadStart c) = false) ->
  forall (s : Lifecycle.server) (tr : list Lifecycle.action),
    (fst (fst (Lifecycle.accept_loop conns s tr)) = Lifecycle.Returns tt
     \/ fst (fst (Lifecycle.accept_loop conns s tr)) = Lifecycle.Blocks)
    /\ Lifecycle.server_socket
         (snd (fst (Lifecycle.accept_loop conns s tr)))
       = Lifecycle.server_socket s
    /\ Lifecycle.occurrences P (snd (Lifecycle.accept_loop conns s tr))
       = Lifecycle.occurrences P tr.
Proof.
  intros Ha Hp Ht.
  induction conns as [|[c | | e] conns IH]; intros s tr; cbn;
    destruct (Lifecycle.running s); cbn; auto.
  - rewrite occurrences_app. cbn. rewrite Ha. auto with arith.
  - destruct (IH (Lifecycle.mk_server (Lifecycle.host s) (Lifecycle.port s)
                    true (Lifecycle.clients s ++ [c])
                    (Lifecycle.server_socket s))
                 (tr ++ [Lifecycle.Accept;
                         Lifecycle.PrintLine (Lifecycle.ClientConnected c);
                         Lifecycle.ThreadStart c]))
      as (H1 & H2 & H3).
    split; [exact H1 |]. split; [exact H2 |].
    rewrite H3, occurrences_app. cbn.
    rewrite Ha, Ht, Hp by discriminate. lia.
  - rewrite occurrences_app. cbn. rewrite Ha. auto with arith.
  - destruct (IH s (tr ++ [Lifecycle.Accept;
                           Lifecycle.PrintLine
                             (Lifecycle.ErrorAcceptingConnection e)]))
      as (H1 & H2 & H3).
    split; [exact H1 |]. split; [exact H2 |].
    rewrite H3, occurrences_app. cbn.
    rewrite Ha, Hp by discriminate. lia.
Qed.

(** X21.  [main] stops the server twice.  [start] ends with [self.stop()]
    and [main] calls [server.stop()] again in its own [finally] clause.
    So whenever [main] returns (after Ctrl+C, or after [bind] has failed),
    whatever happened before, it returns normally, the listening socket
    has been closed twice and "Mock VNC server stopped" has been printed
    twice; no error makes [main] end with an exception once the port
    number is read. *)
Theorem main_stops_twice (w : Lifecycle.world) (argv_port : option N) :
  fst (Lifecycle.main w (option_map (@Ok N) argv_port)) <> Lifecycle.Blocks ->
  fst (Lifecycle.main w (option_map (@Ok N) argv_port))
  = Lifecycle.Returns tt
  /\ Lifecycle.occurrences Lifecycle.is_stopped
       (snd (Lifecycle.main w (option_map (@Ok N) argv_port)))
     = 2
  /\ Lifecycle.occurrences Lifecycle.is_close_server
       (snd (Lifecycle.main w (option_map (@Ok N) argv_port)))
     = 2.
Proof.
  unfold Lifecycle.main.
  set (port := match match option_map (@Ok N) argv_port with
                     | Some r => r
                     | None => Ok 5900%N
                     end with
               | Ok p => p
               | Raised _ => 0%N
               end).
  replace (match option_map (@Ok N) argv_port with
           | Some r => r
           | None => Ok 5900%N
           end) with (@Ok N port) by (now destruct argv_port).
  clearbody port.
  unfold Lifecycle.start, Lifecycle.init.
  cbn [Lifecycle.host Lifecycle.port Lifecycle.running
       Lifecycle.clients Lifecycle.server_socket].
  destruct (Lifecycle.bind_result w) as [[] | e | |] eqn:Hb.
  - match goal with
    | |- context [Lifecycle.accept_loop ?c ?s ?t] =>
        destruct (@accept_loop_quiet Lifecycle.is_stopped c
                    eq_refl
                    ltac:(intros l Hl; destruct l; try reflexivity;
                          now elim Hl)
                    ltac:(reflexivity) s t) as (Hr & Hs & Hn1);
        destruct (@accept_loop_quiet Lifecycle.is_close_server c
                    eq_refl ltac:(reflexivity) ltac:(reflexivity) s t)
          as (_ & _ & Hn2);
        destruct (Lifecycle.accept_loop c s t) as [[r s'] tr'] eqn:E
    end.
    cbn [fst snd] in *.
    destruct Hr as [-> | ->]; [| intros H; now elim H].
    intros _. unfold Lifecycle.stop.
    cbn [Lifecycle.host Lifecycle.port Lifecycle.running
         Lifecycle.clients Lifecycle.server_socket fst snd].
    rewrite Hs. cbn [Lifecycle.server_socket fst snd].
    split; [reflexivity |].
    rewrite !occurrences_app, Hn1, Hn2.
    rewrite !occurrences_closes by reflexivity.
    split; reflexivity.
  - intros _. unfold Lifecycle.stop. cbn.
    split; [reflexivity |]. split; reflexivity.
  - intros _. unfold Lifecycle.stop. cbn.
    split; [reflexivity |]. split; reflexivity.
  - intros H. cbn in H. now elim H.
Qed.

(** Two clients, Ctrl+C: the server is stopped twice. *)
Lemma main_stops_twice_witness :
  Lifecycle.occurrences Lifecycle.is_stopped
    (snd (Lifecycle.main Lifecycle.two_clients (option_map (@Ok N) None)))
  = 2.
Proof.
  destruct (@main_stops_twice Lifecycle.two_clients None) as (_ & H & _).
  - vm_compute. discriminate.
  - exact H.
Defined.
